(** * FoliateViewer: the reader's bridge to the foliate-view widget

    A shallow embedding of
    [apps/readest-app/src/app/reader/components/FoliateViewer.tsx].

    The component is glue code: it creates the widget once, forwards
    settings into renderer attributes, and bridges widget events into the
    application stores.  Everything it does is an effect on something it
    does not own, so the embedding threads a [World] (the component's refs,
    the stores it reads and writes, and a chronological trace of the calls
    it makes on its collaborators) through a small state-and-exception
    monad.  Asynchronous code is cut at its [await]s: each piece between
    two suspension points is one atomic step of the event loop. *)

From Stdlib Require Import ZArith String List Bool Lia.
From stdpp Require Import base option list strings pretty gmap.

Local Open Scope string_scope.
Local Open Scope list_scope.

(** ** JavaScript values *)

(** The component adds numbers, prints them into attribute values, tests
    them for truthiness ([a || b]) and compares them in hook dependency
    arrays ([Object.is]).  Nothing else of IEEE arithmetic is used, so the
    number type is kept abstract with exactly these operations.  [jsval]
    stands for the objects that pass through untouched (TOC items, ranges,
    page counters). *)
Class JsValues := {
  num : Type;
  num_eq_dec :: EqDecision num;
  num_zero : num;
  num_add : num -> num -> num;
  num_to_string : num -> string;
  num_truthy : num -> bool;
  jsval : Type;
}.

(** What a [throw] or a rejected promise carries. *)
Inductive exn :=
| TypeError (what : string)
| Thrown (reason : string).

(** A settled promise; also the outcome of a call that may throw. *)
Inductive Settled (A : Type) :=
| Fulfilled (a : A)
| Rejected (e : exn).
Arguments Fulfilled {A} a.
Arguments Rejected {A} e.

(** Truthiness of a string: only the empty string is falsy. *)
Definition str_truthy (s : string) : bool :=
  negb (String.eqb s "").

(** [a || b] on numbers. *)
Definition num_or `{JsValues} (a b : num) : num :=
  if num_truthy a then a else b.

Section DataModel.
Context `{JsValues}.

(** ** Data model *)

Record Padding := {
  padding_top : num;
  padding_right : num;
  padding_bottom : num;
  padding_left : num;
}.

(** The fields of [ViewSettings] the component reads.  Fields the source
    reads through a non-null assertion ([viewSettings.showHeader!]) are
    given their asserted type. *)
Record ViewSettings := {
  writingMode : string;
  allowScript : option bool;
  animated : bool;
  maxColumnCount : num;
  maxBlockSize : num;
  screenOrientation : string;
  showHeader : bool;
  showFooter : bool;
  marginPx : num;
  compactMarginPx : num;
  gapPercent : num;
  compactGapPercent : num;
  scrolled : bool;
}.

(** [view.renderer]: [setAttribute] and [removeAttribute] are always
    there, [setStyles] and [goTo] are called through [?.()] and may be
    absent. *)
Record Renderer := {
  has_setStyles : bool;
  has_goTo : bool;
}.

(** A foliate-view element.  [renderer] is undefined until the widget has
    opened a book; [opened] records that [open] has resolved on it. *)
Record View := {
  view_id : string;
  opened : bool;
  renderer : option Renderer;
  transformTarget : bool;
}.

(** The arguments of [setProgress] after the book key. *)
Record ProgressRecord := {
  pr_cfi : string;
  pr_tocItem : jsval;
  pr_section : jsval;
  pr_location : jsval;
  pr_time : jsval;
  pr_range : jsval;
}.

(** [detail] of a 'relocate' event of the view. *)
Record RelocateDetail := {
  cfi : string;
  tocItem : jsval;
  section : jsval;
  location : jsval;
  time : jsval;
  range : jsval;
}.

(** [detail] of a 'relocate' event of the renderer. *)
Record RendererRelocateDetail := {
  reason : string;
  index : num;
  fraction : num;
}.

(** [detail] of a 'data' event of [book.transformTarget]. [data] is a
    value or a promise; [Promise.resolve] makes it a promise either way. *)
Record DataDetail := {
  data : Settled string;
  type : string;
  name : string;
}.

(** The [ctx] object handed to [transformContent]. *)
Record TransformCtx := {
  ctx_bookKey : string;
  ctx_viewSettings : ViewSettings;
  ctx_content : string;
  ctx_transformers : list string;
}.

(** The listeners [openBook] installs on [book.transformTarget]. *)
Inductive Listener :=
| ScriptGate (allow : bool)
| DocTransform (width height : num).

(** What the component does to the world outside it, in the order it
    does it.  [CreateElement] is [document.createElement] together with
    the assignment of the element's id; [ViewOpen] is the call of
    [view.open] and [OpenResolved] the return of the [await] on it;
    [SetViewRef] and [SetFoliateView] are the two publications of the
    view; [GetStyles] is the evaluation of [getStyles(...)];
    [RendererGoTo key] is [goTo] on the renderer of the view registered
    under [key]; the last two are the calls of the transforms. *)
Inductive Op :=
| ConsoleLog (msg : string)
| ConsoleError (msg : string) (cause : exn)
| ImportModule (specifier : string)
| CreateElement (tag id : string)
| BodyAppend (id : string)
| ContainerAppend (id : string)
| ViewOpen (id : string)
| OpenResolved (id : string)
| SetViewRef (id : string)
| SetFoliateView (key id : string)
| AddEventListener (type : string) (l : Listener)
| GetStyles (vs : option ViewSettings)
| SetStyles (css : string)
| SetAttribute (name value : string)
| RemoveAttribute (name : string)
| LockScreenOrientation (orientation : string)
| ViewInit (lastLocation : string)
| GoToFraction (f : num)
| RendererGoTo (key : string) (index anchor : num)
| SetProgress (key : string) (p : ProgressRecord)
| TransformStylesheet (vs : ViewSettings) (width height : num) (data : string)
| TransformContent (ctx : TransformCtx).

(** Where an [openBook] call is suspended, with the locals that are live
    across the [await]. *)
Inductive Stage :=
| AwaitImport
| AwaitOpen (view : View) (width height : num) (vs : ViewSettings)
| AwaitLock (view : View) (vs : ViewSettings)
| AwaitNavigation
| Finished
| Failed (e : exn).

(** The component instance's refs, the stores it shares with the rest of
    the reader, the mutable [bookDoc.dir], the [openBook] calls in flight
    and the trace. *)
Record World := {
  isViewCreated : bool;
  viewRef : option View;
  views : gmap string View;
  viewSettingsStore : gmap string ViewSettings;
  parallelViews : gmap string (list string);
  bookDoc_dir : string;
  tasks : list Stage;
  trace : list Op;
}.

End DataModel.

(** ** Collaborators *)

(** The imported functions the component calls but does not define.  A
    call that may throw or return a rejected promise yields a [Settled]
    value.  [getStyles] takes whatever [getViewSettings] returned, which
    the source asserts non-null without checking. *)
Class Collaborators `{JsValues} := {
  transformStylesheet : ViewSettings -> num -> num -> string -> Settled string;
  transformContent : TransformCtx -> Settled string;
  getStyles : option ViewSettings -> Settled string;
  getMaxInlineSize : ViewSettings -> num;
  getBookDirFromWritingMode : string -> string;
  getBookDirFromLanguage : jsval -> string;
}.

(** The component's props, constant over the life of an instance except
    for [padding], which each render supplies anew. *)
Record Props `{JsValues} := {
  bookKey : string;
  language : jsval;
  config_location : option string;
  padding : Padding;
}.

(** What the page around the component looks like: the measured
    container (if the ref is attached), the window, the platform, and the
    shape the widget takes once [open] has resolved on it. *)
Record Host `{JsValues} := {
  containerRect : option (num * num);
  innerWidth : num;
  innerHeight : num;
  isMobileApp : bool;
  widget_renderer : option Renderer;
  widget_transformTarget : bool;
}.

(** One render's values of everything the two settings effects depend on:
    the theme store, the padding prop and line 49's
    [getViewSettings(bookKey)]. *)
Record Render `{JsValues} := {
  themeCode : string;
  isDarkMode : bool;
  render_padding : Padding;
  viewSettings : option ViewSettings;
}.

(** ** The effect monad *)

Section Monad.
Context `{JsValues}.

Definition Eff (A : Type) : Type := World -> World * Settled A.

Definition ret {A} (a : A) : Eff A := fun w => (w, Fulfilled a).

Definition throw {A} (e : exn) : Eff A := fun w => (w, Rejected e).

Definition bind {A B} (m : Eff A) (k : A -> Eff B) : Eff B :=
  fun w =>
    match m w with
    | (w', Fulfilled a) => k a w'
    | (w', Rejected e) => (w', Rejected e)
    end.

(** [m.catch(h)], and [try { m } catch (e) { h e }]. *)
Definition catch {A} (m : Eff A) (h : exn -> Eff A) : Eff A :=
  fun w =>
    match m w with
    | (w', Fulfilled a) => (w', Fulfilled a)
    | (w', Rejected e) => h e w'
    end.

(** Turning the outcome of a collaborator's call into control flow. *)
Definition settle {A} (r : Settled A) : Eff A := fun w => (w, r).

Definition get : Eff World := fun w => (w, Fulfilled w).

Definition modify (f : World -> World) : Eff unit :=
  fun w => (f w, Fulfilled tt).

Definition set_isViewCreated (b : bool) (w : World) : World :=
  {| isViewCreated := b; viewRef := viewRef w; views := views w;
     viewSettingsStore := viewSettingsStore w;
     parallelViews := parallelViews w; bookDoc_dir := bookDoc_dir w;
     tasks := tasks w; trace := trace w |}.

Definition set_viewRef (v : option View) (w : World) : World :=
  {| isViewCreated := isViewCreated w; viewRef := v; views := views w;
     viewSettingsStore := viewSettingsStore w;
     parallelViews := parallelViews w; bookDoc_dir := bookDoc_dir w;
     tasks := tasks w; trace := trace w |}.

Definition set_views (m : gmap string View) (w : World) : World :=
  {| isViewCreated := isViewCreated w; viewRef := viewRef w; views := m;
     viewSettingsStore := viewSettingsStore w;
     parallelViews := parallelViews w; bookDoc_dir := bookDoc_dir w;
     tasks := tasks w; trace := trace w |}.

Definition set_viewSettingsStore (m : gmap string ViewSettings) (w : World)
    : World :=
  {| isViewCreated := isViewCreated w; viewRef := viewRef w; views := views w;
     viewSettingsStore := m;
     parallelViews := parallelViews w; bookDoc_dir := bookDoc_dir w;
     tasks := tasks w; trace := trace w |}.

Definition set_bookDoc_dir (d : string) (w : World) : World :=
  {| isViewCreated := isViewCreated w; viewRef := viewRef w; views := views w;
     viewSettingsStore := viewSettingsStore w;
     parallelViews := parallelViews w; bookDoc_dir := d;
     tasks := tasks w; trace := trace w |}.

Definition set_tasks (ts : list Stage) (w : World) : World :=
  {| isViewCreated := isViewCreated w; viewRef := viewRef w; views := views w;
     viewSettingsStore := viewSettingsStore w;
     parallelViews := parallelViews w; bookDoc_dir := bookDoc_dir w;
     tasks := ts; trace := trace w |}.

Definition set_trace (t : list Op) (w : World) : World :=
  {| isViewCreated := isViewCreated w; viewRef := viewRef w; views := views w;
     viewSettingsStore := viewSettingsStore w;
     parallelViews := parallelViews w; bookDoc_dir := bookDoc_dir w;
     tasks := tasks w; trace := t |}.

(** Record a call on a collaborator. *)
Definition emit (o : Op) : Eff unit :=
  modify (fun w => set_trace (trace w ++ [o]) w).

(** [xs.forEach(f)]. *)
Fixpoint forEach {A} (xs : list A) (f : A -> Eff unit) : Eff unit :=
  match xs with
  | [] => ret tt
  | x :: xs' => bind (f x) (fun _ => forEach xs' f)
  end.

End Monad.

Notation "'let*' x ':=' m 'in' k" := (bind m (fun x => k))
  (at level 10, x name, m at level 100, k at level 200).
Notation "m ';;' k" := (bind m (fun _ => k))
  (at level 100, k at level 200, right associativity).

(** ** The component *)

Section Component.
Context `{Collaborators} (props : Props) (host : Host).

(** *** Store accessors *)

(** Modelled from the spec: [getViewSettings] of the reader store is not
    among the sources; the spec describes a settings store keyed by book
    identifier with get and set operations. *)
Definition getViewSettings (key : string) (w : World) : option ViewSettings :=
  viewSettingsStore w !! key.

(** Modelled from the spec: [getView] of the reader store is not among
    the sources; the spec describes a shared view registry keyed by book
    key from which sibling components retrieve the widget. *)
Definition getView (key : string) (w : World) : option View :=
  views w !! key.

(** Modelled from the spec: [setView] of the reader store is not among
    the sources; the spec describes it as registering the created widget
    instance into the shared view registry keyed by book identifier. *)
Definition setFoliateView (key : string) (v : View) : Eff unit :=
  emit (SetFoliateView key (view_id v)) ;;
  modify (fun w => set_views (<[key := v]> (views w)) w).

(** Modelled from the spec: [getParallels] of the parallel-view store is
    not among the sources; the spec describes it as a lookup keyed by book
    identifier returning a set of member keys.  The set is kept as the
    list of its members in iteration order. *)
Definition getParallels (key : string) (w : World) : option (list string) :=
  parallelViews w !! key.

(** Modelled from the spec: [setProgress] of the reader store is not
    among the sources; the spec describes it as the write operation of the
    progress store, accepting the fields of a ProgressRecord.  What the
    store does with a write is its own affair; the call is recorded. *)
Definition setProgress (key : string) (p : ProgressRecord) : Eff unit :=
  emit (SetProgress key p).

(** *** Event handlers (lines 66-160) *)

Definition progressRelocateHandler (detail : RelocateDetail) : Eff unit :=
  setProgress (bookKey props)
    {| pr_cfi := cfi detail;
       pr_tocItem := tocItem detail;
       pr_section := section detail;
       pr_location := location detail;
       pr_time := time detail;
       pr_range := range detail |}.

(** Whether [getView(key)?.renderer] is there and offers [goTo]. *)
Definition canGoTo (key : string) (w : World) : bool :=
  match getView key w ≫= renderer with
  | Some target => has_goTo target
  | None => false
  end.

(** The continuation passed to [.then]. *)
Definition docTransform (width height : num) (detail : DataDetail)
    (data : string) : Eff string :=
  let* w := get in
  let viewSettings := getViewSettings (bookKey props) w in
  match viewSettings, bool_decide (type detail = "text/css") with
  | Some vs, true =>
      emit (TransformStylesheet vs width height data) ;;
      settle (transformStylesheet vs width height data)
  | _, _ =>
      match viewSettings, bool_decide (type detail = "application/xhtml+xml") with
      | Some vs, true =>
          let ctx := {| ctx_bookKey := bookKey props;
                        ctx_viewSettings := vs;
                        ctx_content := data;
                        ctx_transformers := ["punctuation"; "footnote"] |} in
          emit (TransformContent ctx) ;;
          settle (transformContent ctx)
      | _, _ => ret data
      end
  end.

(** The handler [getDocTransformHandler({width, height})] returns; its
    result is what the promise stored back into [detail.data] settles to. *)
Definition getDocTransformHandler (width height : num) (detail : DataDetail)
    : Eff string :=
  catch
    (let* d := settle (data detail) in
     docTransform width height detail d)
    (fun e =>
       emit (ConsoleError ("Failed to load " +:+ name detail) e) ;;
       ret "").

Definition docRelocateHandler (detail : RendererRelocateDetail) : Eff unit :=
  if negb (bool_decide (reason detail = "scroll"))
     && negb (bool_decide (reason detail = "page"))
  then ret tt
  else
    let* w := get in
    match getParallels (bookKey props) w with
    | Some parallelViews =>
        if (0 <? length parallelViews)%nat then
          forEach parallelViews (fun key =>
            if negb (bool_decide (key = bookKey props)) then
              let* w := get in
              match getView key w ≫= renderer with
              | Some target =>
                  if has_goTo target
                  then emit (RendererGoTo key (index detail) (fraction detail))
                  else ret tt
              | None => ret tt
              end
            else ret tt)
        else ret tt
    | None => ret tt
    end.

(** *** Renderer access *)

(** [view.renderer.setAttribute(name, value)]: a [TypeError] if the view
    has no renderer. *)
Definition rendererSetAttribute (v : View) (name value : string) : Eff unit :=
  match renderer v with
  | Some _ => emit (SetAttribute name value)
  | None => throw (TypeError "renderer is undefined")
  end.

Definition rendererRemoveAttribute (v : View) (name : string) : Eff unit :=
  match renderer v with
  | Some _ => emit (RemoveAttribute name)
  | None => throw (TypeError "renderer is undefined")
  end.

(** [viewRef.current?.renderer.setAttribute(name, value)]. *)
Definition viewRefSetAttribute (name value : string) : Eff unit :=
  let* w := get in
  match viewRef w with
  | Some v => rendererSetAttribute v name value
  | None => ret tt
  end.

(** [renderer.setStyles?.(getStyles(viewSettings))]: the argument is only
    evaluated when the method exists. *)
Definition setStyles (r : Renderer) (vs : option ViewSettings) : Eff unit :=
  if has_setStyles r then
    emit (GetStyles vs) ;;
    let* css := settle (getStyles vs) in
    emit (SetStyles css)
  else ret tt.

(** *** applyMarginAndGap (lines 246-258) *)

Definition applyMarginAndGap (pad : Padding) : Eff unit :=
  let* w := get in
  match getViewSettings (bookKey props) w with
  | None => throw (TypeError "viewSettings is undefined")
  | Some vs =>
      let isCompact := negb (showHeader vs) && negb (showFooter vs) in
      let margin := if isCompact then compactMarginPx vs else marginPx vs in
      let gap := if isCompact then compactGapPercent vs else gapPercent vs in
      viewRefSetAttribute "margin"
        (num_to_string (num_add margin (padding_top pad)) +:+ "px") ;;
      viewRefSetAttribute "gap" (num_to_string gap +:+ "%") ;;
      if scrolled vs then viewRefSetAttribute "flow" "scrolled" else ret tt
  end.

(** *** The settings effects (lines 260-284) *)

Definition styleDeps (r : Render) : string * bool :=
  (themeCode r, isDarkMode r).

Definition marginDeps (r : Render)
    : num * num * num * num
      * option bool * option bool * option num * option num
      * option num * option num :=
  (padding_top (render_padding r), padding_right (render_padding r),
   padding_bottom (render_padding r), padding_left (render_padding r),
   showHeader <$> viewSettings r, showFooter <$> viewSettings r,
   marginPx <$> viewSettings r, compactMarginPx <$> viewSettings r,
   gapPercent <$> viewSettings r, compactGapPercent <$> viewSettings r).

Definition styleEffect : Eff unit :=
  let* w := get in
  match viewRef w ≫= renderer with
  | Some r => setStyles r (getViewSettings (bookKey props) w)
  | None => ret tt
  end.

Definition marginEffect (r : Render) : Eff unit :=
  let* w := get in
  match viewRef w ≫= renderer, viewSettings r with
  | Some _, Some _ => applyMarginAndGap (render_padding r)
  | _, _ => ret tt
  end.

(** A re-render: React runs, in declaration order, the effects whose
    dependency array differs from the previous render's. *)
Definition rerender (prev next : Render) : Eff unit :=
  (if bool_decide (styleDeps prev = styleDeps next) then ret tt
   else styleEffect) ;;
  (if bool_decide (marginDeps prev = marginDeps next) then ret tt
   else marginEffect next).

(** *** openBook (lines 176-240), cut at its awaits *)

(** Lines 188-198: the direction written into [bookDoc.dir]. *)
Definition resolveDirection (vs : ViewSettings) : Eff unit :=
  let writingMode := writingMode vs in
  if str_truthy writingMode then
    let settingsDir := getBookDirFromWritingMode writingMode in
    let languageDir := getBookDirFromLanguage (language props) in
    if negb (bool_decide (settingsDir = "auto")) then
      modify (set_bookDoc_dir settingsDir)
    else if negb (bool_decide (languageDir = "auto")) then
      modify (set_bookDoc_dir languageDir)
    else ret tt
  else ret tt.

(** Lines 177-178: up to [await import(...)]. *)
Definition openBook_start : Eff Stage :=
  emit (ConsoleLog ("Opening book " +:+ bookKey props)) ;;
  emit (ImportModule "foliate-js/view.js") ;;
  ret AwaitImport.

(** Lines 179-200: from the module being loaded up to [await view.open].
    [wrappedFoliateView] hands back the element it is given. *)
Definition openBook_create : Eff Stage :=
  let view := {| view_id := "foliate-view-" +:+ bookKey props;
                 opened := false;
                 renderer := None;
                 transformTarget := false |} in
  emit (CreateElement "foliate-view" (view_id view)) ;;
  emit (BodyAppend (view_id view)) ;;
  match containerRect host with
  | Some _ => emit (ContainerAppend (view_id view))
  | None => ret tt
  end ;;
  let width :=
    match containerRect host with
    | Some (w, _) => num_or w (innerWidth host)
    | None => innerWidth host
    end in
  let height :=
    match containerRect host with
    | Some (_, h) => num_or h (innerHeight host)
    | None => innerHeight host
    end in
  let* w := get in
  match getViewSettings (bookKey props) w with
  | None => throw (TypeError "viewSettings is undefined")
  | Some vs =>
      resolveDirection vs ;;
      emit (ViewOpen (view_id view)) ;;
      ret (AwaitOpen view width height vs)
  end.

(** Lines 224-239: the attribute writes and the first navigation. *)
Definition openBook_configure (view : View) (vs : ViewSettings) : Eff Stage :=
  (if animated vs
   then rendererSetAttribute view "animated" ""
   else rendererRemoveAttribute view "animated") ;;
  rendererSetAttribute view "max-column-count"
    (num_to_string (maxColumnCount vs)) ;;
  rendererSetAttribute view "max-inline-size"
    (num_to_string (getMaxInlineSize vs) +:+ "px") ;;
  rendererSetAttribute view "max-block-size"
    (num_to_string (maxBlockSize vs) +:+ "px") ;;
  applyMarginAndGap (padding props) ;;
  match config_location props with
  | Some lastLocation =>
      if str_truthy lastLocation
      then emit (ViewInit lastLocation)
      else emit (GoToFraction num_zero)
  | None => emit (GoToFraction num_zero)
  end ;;
  ret AwaitNavigation.

(** Lines 201-223: from [open] having resolved up to the orientation
    lock, or straight on when the host is not a mobile app. *)
Definition openBook_publish (view0 : View) (width height : num)
    (vs : ViewSettings) : Eff Stage :=
  let view := {| view_id := view_id view0;
                 opened := true;
                 renderer := widget_renderer host;
                 transformTarget := widget_transformTarget host |} in
  emit (OpenResolved (view_id view)) ;;
  emit (SetViewRef (view_id view)) ;;
  modify (set_viewRef (Some view)) ;;
  setFoliateView (bookKey props) view ;;
  (if transformTarget view then
     emit (AddEventListener "load"
             (ScriptGate (default false (allowScript vs)))) ;;
     emit (AddEventListener "data" (DocTransform width height))
   else ret tt) ;;
  match renderer view with
  | Some r => setStyles r (Some vs)
  | None => throw (TypeError "renderer is undefined")
  end ;;
  if isMobileApp host then
    emit (LockScreenOrientation (screenOrientation vs)) ;;
    ret (AwaitLock view vs)
  else
    openBook_configure view vs.

(** Resuming a suspended [openBook] when the promise it awaits settles. *)
Definition resume (st : Stage) (o : Settled unit) : Eff Stage :=
  match st, o with
  | (Finished | Failed _), _ => ret st
  | _, Rejected e => throw e
  | AwaitImport, Fulfilled _ => openBook_create
  | AwaitOpen view width height vs, Fulfilled _ =>
      openBook_publish view width height vs
  | AwaitLock view vs, Fulfilled _ => openBook_configure view vs
  | AwaitNavigation, Fulfilled _ => ret Finished
  end.

(** *** The event loop *)

(** Running an async function body to its next suspension point: an
    exception rejects the function's promise, which nobody awaits. *)
Definition advance (m : Eff Stage) (w : World) : World * Stage :=
  match m w with
  | (w', Fulfilled st) => (w', st)
  | (w', Rejected e) => (w', Failed e)
  end.

(** The mount effect (lines 172-244). *)
Definition mountEffect (w : World) : World :=
  if isViewCreated w then w
  else
    let w1 := set_isViewCreated true w in
    let '(w2, st) := advance openBook_start w1 in
    set_tasks (tasks w2 ++ [st]) w2.

(** The promise awaited by the [i]-th [openBook] call settles. *)
Definition settleTask (i : nat) (o : Settled unit) (w : World) : World :=
  match tasks w !! i with
  | Some st =>
      let '(w', st') := advance (resume st o) w in
      set_tasks (<[i := st']> (tasks w')) w'
  | None => w
  end.

(** Running a listener or an effect: whatever it throws is not the
    component's to handle. *)
Definition exec {A} (m : Eff A) (w : World) : World := fst (m w).

(** The 'data' listeners installed so far, with the viewport size each
    captured. *)
Definition dataListeners (t : list Op) : list (num * num) :=
  flat_map (fun o =>
    match o with
    | AddEventListener "data" (DocTransform width height) => [(width, height)]
    | _ => []
    end) t.

Definition dispatchData (detail : DataDetail) : Eff unit :=
  let* w := get in
  forEach (dataListeners (trace w)) (fun wh =>
    getDocTransformHandler (fst wh) (snd wh) detail ;; ret tt).

Inductive Event :=
| MountEffect
| Settle (task : nat) (o : Settled unit)
| Relocate (detail : RelocateDetail)
| RendererRelocate (detail : RendererRelocateDetail)
| Data (detail : DataDetail)
| Rerender (prev next : Render)
| SettingsChanged (settings : gmap string ViewSettings).

Definition step (w : World) (ev : Event) : World :=
  match ev with
  | MountEffect => mountEffect w
  | Settle i o => settleTask i o w
  | Relocate d => exec (progressRelocateHandler d) w
  | RendererRelocate d => exec (docRelocateHandler d) w
  | Data d => exec (dispatchData d) w
  | Rerender prev next => exec (rerender prev next) w
  | SettingsChanged m => exec (modify (set_viewSettingsStore m)) w
  end.

Definition run (evs : list Event) (w : World) : World :=
  fold_left step evs w.

End Component.

(** A component instance as React creates it: refs at their initial
    values, no [openBook] in flight, nothing done yet; the stores and
    [bookDoc.dir] are whatever the rest of the reader made them. *)
Definition mounted `{JsValues} (vws : gmap string View)
    (settings : gmap string ViewSettings)
    (groups : gmap string (list string)) (dir : string) : World :=
  {| isViewCreated := false; viewRef := None; views := vws;
     viewSettingsStore := settings;
     parallelViews := groups; bookDoc_dir := dir;
     tasks := []; trace := [] |}.

(** *** Observations on traces *)

Definition isCreateElement `{JsValues} (o : Op) : bool :=
  match o with CreateElement _ _ => true | _ => false end.

Definition isOpenBookStart `{JsValues} (o : Op) : bool :=
  match o with ImportModule _ => true | _ => false end.

Definition isViewOpen `{JsValues} (o : Op) : bool :=
  match o with ViewOpen _ => true | _ => false end.

Definition isOpenResolved `{JsValues} (o : Op) : bool :=
  match o with OpenResolved _ => true | _ => false end.

Definition isPublish `{JsValues} (o : Op) : bool :=
  match o with SetViewRef _ | SetFoliateView _ _ => true | _ => false end.

Definition isGoToFor `{JsValues} (key : string) (o : Op) : bool :=
  match o with RendererGoTo k _ _ => bool_decide (k = key) | _ => false end.

Definition isGoTo `{JsValues} (o : Op) : bool :=
  match o with RendererGoTo _ _ _ => true | _ => false end.

Definition isStyleOp `{JsValues} (o : Op) : bool :=
  match o with GetStyles _ | SetStyles _ => true | _ => false end.

Definition isAttributeOp `{JsValues} (o : Op) : bool :=
  match o with SetAttribute _ _ | RemoveAttribute _ => true | _ => false end.

Definition isTransformCall `{JsValues} (o : Op) : bool :=
  match o with TransformStylesheet _ _ _ _ | TransformContent _ => true | _ => false end.

Definition count {A} (p : A -> bool) (l : list A) : nat :=
  length (filter (fun x => p x = true) l).

(** ** A concrete reader

    Integer pixel values for numbers and strings for the opaque payload
    objects; collaborators that fail on the content ["boom"]. *)

Module Demo.

#[global] Instance values : JsValues := {|
  num := Z;
  num_zero := 0%Z;
  num_add := Z.add;
  num_to_string := pretty;
  num_truthy := fun z => negb (z =? 0)%Z;
  jsval := string;
|}.

#[global] Instance collaborators : Collaborators := {|
  transformStylesheet := fun _ width height css =>
    if bool_decide (css = "boom") then Rejected (Thrown "bad css")
    else Fulfilled ("/*" +:+ pretty width +:+ "x" +:+ pretty height +:+ "*/" +:+ css);
  transformContent := fun ctx =>
    if bool_decide (ctx_content ctx = "boom") then Rejected (Thrown "bad markup")
    else Fulfilled (String.concat "," (ctx_transformers ctx) +:+ ":" +:+ ctx_content ctx);
  getStyles := fun vs =>
    match vs with
    | Some _ => Fulfilled "body{}"
    | None => Rejected (TypeError "viewSettings is undefined")
    end;
  getMaxInlineSize := fun _ => 720%Z;
  getBookDirFromWritingMode := fun wm =>
    if bool_decide (wm = "horizontal-tb") then "ltr"
    else if bool_decide (wm = "horizontal-rl") then "rtl"
    else if bool_decide (wm = "vertical-rl") then "rtl"
    else "auto";
  getBookDirFromLanguage := fun lang =>
    if bool_decide (lang = "ar") then "rtl" else "auto";
|}.

Definition pad : Padding :=
  {| padding_top := 44%Z; padding_right := 0%Z;
     padding_bottom := 0%Z; padding_left := 0%Z |}.

Definition settings : ViewSettings :=
  {| writingMode := "auto"; allowScript := None; animated := true;
     maxColumnCount := 2%Z; maxBlockSize := 1440%Z;
     screenOrientation := "auto";
     showHeader := true; showFooter := true;
     marginPx := 44%Z; compactMarginPx := 16%Z;
     gapPercent := 5%Z; compactGapPercent := 3%Z;
     scrolled := false |}.

Definition compact_scrolled : ViewSettings :=
  {| writingMode := "horizontal-tb"; allowScript := Some true; animated := false;
     maxColumnCount := 2%Z; maxBlockSize := 1440%Z;
     screenOrientation := "auto";
     showHeader := false; showFooter := false;
     marginPx := 44%Z; compactMarginPx := 16%Z;
     gapPercent := 5%Z; compactGapPercent := 3%Z;
     scrolled := true |}.

Definition props : Props :=
  {| bookKey := "A"; language := "ar"; config_location := None;
     padding := pad |}.

Definition paginator : Renderer :=
  {| has_setStyles := true; has_goTo := true |}.

(** A renderer that offers neither optional method. *)
Definition bare : Renderer :=
  {| has_setStyles := false; has_goTo := false |}.

Definition host : Host :=
  {| containerRect := Some (800%Z, 0%Z);
     innerWidth := 1024%Z; innerHeight := 768%Z;
     isMobileApp := true;
     widget_renderer := Some paginator;
     widget_transformTarget := true |}.

Definition openView (key : string) (r : option Renderer) : View :=
  {| view_id := "foliate-view-" +:+ key; opened := true;
     renderer := r; transformTarget := true |}.

Definition world (vws : gmap string View)
    (sts : gmap string ViewSettings) (groups : gmap string (list string))
    : World :=
  mounted vws sts groups "auto".

(** Book A is configured and grouped with B (a paginator), C (a renderer
    without [goTo]), D (opened, no renderer) and E (no view at all). *)
Definition reader : World :=
  world {[ "B" := openView "B" (Some paginator);
           "C" := openView "C" (Some bare);
           "D" := openView "D" None ]}
        {[ "A" := settings ]}
        {[ "A" := ["A"; "B"; "C"; "D"; "E"] ]}.

(** Book A open in the component's own view, with the given settings. *)
Definition viewing (vs : ViewSettings) : World :=
  set_viewRef (Some (openView "A" (Some paginator)))
    (world {[ "A" := openView "A" (Some paginator) ]} {[ "A" := vs ]} ∅).

(** No settings, no views, no groups. *)
Definition unconfigured : World := world ∅ ∅ ∅.

Definition scrollTo : RendererRelocateDetail :=
  {| reason := "scroll"; index := 3%Z; fraction := 1%Z |}.

Definition resized : RendererRelocateDetail :=
  {| reason := "resize"; index := 3%Z; fraction := 1%Z |}.

Definition stylesheet (css : string) : DataDetail :=
  {| data := Fulfilled css; type := "text/css"; name := "style.css" |}.

Definition chapter (html : string) : DataDetail :=
  {| data := Fulfilled html; type := "application/xhtml+xml";
     name := "ch1.xhtml" |}.

Definition image : DataDetail :=
  {| data := Fulfilled "PNG"; type := "image/png"; name := "cover.png" |}.

Definition relocated (c : string) : RelocateDetail :=
  {| cfi := c; tocItem := "toc"; section := "3/10";
     location := "12/200"; time := "5m"; range := "r" |}.

Definition threeRelocations : list RelocateDetail :=
  [relocated "epubcfi(/6/2)"; relocated "epubcfi(/6/4)";
   relocated "epubcfi(/6/4)"].

(** The mount effect fired three times around a successful import and
    open. *)
Definition opening : list Event :=
  [MountEffect; MountEffect; Settle 0 (Fulfilled tt);
   Settle 0 (Fulfilled tt); MountEffect].

Definition light : Render :=
  {| themeCode := "default"; isDarkMode := false;
     render_padding := pad; viewSettings := Some settings |}.

Definition dark : Render :=
  {| themeCode := "default"; isDarkMode := true;
     render_padding := pad; viewSettings := Some settings |}.

Definition compacted : Render :=
  {| themeCode := "default"; isDarkMode := false;
     render_padding := pad; viewSettings := Some compact_scrolled |}.

End Demo.

(** ** Vocabulary of the properties *)

Section Vocabulary.
Context `{JsValues}.

(** The calls that make up constructing and publishing the widget. *)
Definition lifecycle (o : Op) : bool :=
  isCreateElement o || isOpenBookStart o || isOpenResolved o || isPublish o.

(** An effect is steady for [P] when it leaves the component's refs, the
    view registry and the [openBook] calls alone and only makes calls that
    satisfy [P]. *)
Definition steady (P : Op -> bool) {A} (m : Eff A) : Prop :=
  forall w,
    isViewCreated (fst (m w)) = isViewCreated w /\
    viewRef (fst (m w)) = viewRef w /\
    views (fst (m w)) = views w /\
    tasks (fst (m w)) = tasks w /\
    exists ops, trace (fst (m w)) = trace w ++ ops /\ forallb P ops = true.

(** Scanning a trace in order: every publication of the view comes after
    some [open] has resolved.  [seen] says whether one already has. *)
Fixpoint publishedAfterOpen (seen : bool) (t : list Op) : bool :=
  match t with
  | [] => true
  | o :: t' =>
      (if isPublish o then seen else true)
      && publishedAfterOpen (seen || isOpenResolved o) t'
  end.

(** How many elements resuming a suspended [openBook] creates: one when
    the module import comes through, none at any other point. *)
Definition creates (st : Stage) (o : Settled unit) : nat :=
  match st, o with
  | AwaitImport, Fulfilled _ => 1
  | _, _ => 0
  end.

(** A piece of [openBook] never ends up waiting for the import again. *)
Definition lands (m : Eff Stage) : Prop :=
  forall w, snd (m w) <> Fulfilled AwaitImport.

(** The latch and the [openBook] calls in flight agree: before the mount
    effect has run nothing has started; afterwards there is exactly one
    call, and it has created an element at most once, and not at all
    while it still waits for the import. *)
Definition latched (w : World) : Prop :=
  if isViewCreated w then
    exists st,
      tasks w = [st]
      /\ count isOpenBookStart (trace w) = 1
      /\ count isCreateElement (trace w) <= 1
      /\ (st = AwaitImport -> count isCreateElement (trace w) = 0)
  else
    tasks w = []
    /\ count isOpenBookStart (trace w) = 0
    /\ count isCreateElement (trace w) = 0.

(** What is published is opened: the trace never publishes before an
    [open] has resolved, and a view found in the registry under [key] or
    in [viewRef] is an opened one. *)
Definition publishedOpened (key : string) (w : World) : Prop :=
  publishedAfterOpen false (trace w) = true
  /\ (forall v, views w !! key = Some v ->
        opened v = true /\ existsb isOpenResolved (trace w) = true)
  /\ (forall v, viewRef w = Some v ->
        opened v = true /\ existsb isOpenResolved (trace w) = true).

(** The record a 'relocate' event is stored as. *)
Definition progressRecordOf (d : RelocateDetail) : ProgressRecord :=
  {| pr_cfi := cfi d; pr_tocItem := tocItem d; pr_section := section d;
     pr_location := location d; pr_time := time d; pr_range := range d |}.

(** Calls that are no part of constructing or publishing the widget. *)
Definition routine (o : Op) : bool := negb (lifecycle o).

(** Attribute writes that concern margin, gap and flow only. *)
Definition isMarginGapFlow (o : Op) : bool :=
  match o with
  | SetAttribute n _ =>
      bool_decide (n = "margin") || bool_decide (n = "gap")
      || bool_decide (n = "flow")
  | _ => false
  end.

End Vocabulary.

(** ** Further vocabulary *)

Section Frames.
Context `{JsValues}.

(** An effect preserves an observation [f] of the world. *)
Definition preserves {X} (f : World -> X) {A} (m : Eff A) : Prop :=
  forall w, f (fst (m w)) = f w.

(** An effect only makes calls that satisfy [P]. *)
Definition emitsOnly (P : Op -> bool) {A} (m : Eff A) : Prop :=
  forall w, exists ops,
    trace (fst (m w)) = trace w ++ ops /\ forallb P ops = true.

Definition isRendererWrite (o : Op) : bool :=
  match o with
  | SetStyles _ | SetAttribute _ _ | RemoveAttribute _ => true
  | _ => false
  end.

Definition isAddEventListener (o : Op) : bool :=
  match o with AddEventListener _ _ => true | _ => false end.

Definition isAwaitLock (st : Stage) : bool :=
  match st with AwaitLock _ _ => true | _ => false end.

(** The discipline of the component's calls: progress, publication and
    content transformation go under its own book key, the element it
    creates is a foliate-view named after that key, propagated navigation
    goes to other keys only, and the screen orientation is locked only on
    a mobile host. *)
Definition disciplined (own : string) (mobile : bool) (o : Op) : bool :=
  match o with
  | SetProgress k _ => bool_decide (k = own)
  | SetFoliateView k _ => bool_decide (k = own)
  | TransformContent ctx => bool_decide (ctx_bookKey ctx = own)
  | CreateElement tag id =>
      bool_decide (tag = "foliate-view")
      && bool_decide (id = "foliate-view-" +:+ own)
  | RendererGoTo k _ _ => negb (bool_decide (k = own))
  | LockScreenOrientation _ => mobile
  | _ => true
  end.

(** Lines 184-186: the size [openBook] measures, the container's where it
    is attached and measures non-zero, the window's otherwise. *)
Definition viewportWidth (host : Host) : num :=
  match containerRect host with
  | Some (w, _) => num_or w (innerWidth host)
  | None => innerWidth host
  end.

Definition viewportHeight (host : Host) : num :=
  match containerRect host with
  | Some (_, h) => num_or h (innerHeight host)
  | None => innerHeight host
  end.

(** The element [openBook] creates for a book key, and what it has become
    once [open] has resolved on it. *)
Definition createdView (key : string) : View :=
  {| view_id := "foliate-view-" +:+ key; opened := false;
     renderer := None; transformTarget := false |}.

Definition openedView (key : string) (host : Host) : View :=
  {| view_id := "foliate-view-" +:+ key; opened := true;
     renderer := widget_renderer host;
     transformTarget := widget_transformTarget host |}.

(** Lines 201-213: the world once [open] has resolved and [openBook] has
    published the view and installed its listeners, before it sets the
    styles. *)
Definition published (props : Props) (host : Host) (view0 : View)
    (width height : num) (vs : ViewSettings) (w : World) : World :=
  let view := {| view_id := view_id view0; opened := true;
                 renderer := widget_renderer host;
                 transformTarget := widget_transformTarget host |} in
  set_trace
    (trace w ++ [OpenResolved (view_id view0); SetViewRef (view_id view0);
                 SetFoliateView (bookKey props) (view_id view0)]
     ++ (if widget_transformTarget host
         then [AddEventListener "load"
                 (ScriptGate (default false (allowScript vs)));
               AddEventListener "data" (DocTransform width height)]
         else []))
    (set_views (<[bookKey props := view]> (views w))
       (set_viewRef (Some view) w)).

(** Lines 224-231: the attribute writes that precede margin and gap. *)
Definition layoutWrites `{Collaborators} (vs : ViewSettings) : list Op :=
  [if animated vs then SetAttribute "animated" ""
   else RemoveAttribute "animated";
   SetAttribute "max-column-count" (num_to_string (maxColumnCount vs));
   SetAttribute "max-inline-size"
     (num_to_string (getMaxInlineSize vs) +:+ "px");
   SetAttribute "max-block-size" (num_to_string (maxBlockSize vs) +:+ "px")].

(** What [applyMarginAndGap] writes for given settings and padding. *)
Definition marginWrites (vs : ViewSettings) (pad : Padding) : list Op :=
  [SetAttribute "margin"
     (num_to_string
        (num_add (if negb (showHeader vs) && negb (showFooter vs)
                  then compactMarginPx vs else marginPx vs)
                 (padding_top pad)) +:+ "px");
   SetAttribute "gap"
     (num_to_string (if negb (showHeader vs) && negb (showFooter vs)
                     then compactGapPercent vs else gapPercent vs)
      +:+ "%")]
  ++ (if scrolled vs then [SetAttribute "flow" "scrolled"] else []).

(** Lines 234-239: where [openBook] navigates first. *)
Definition firstNavigation (props : Props) : Op :=
  match config_location props with
  | Some lastLocation =>
      if str_truthy lastLocation then ViewInit lastLocation
      else GoToFraction num_zero
  | None => GoToFraction num_zero
  end.


(** Scanning a trace in order: the component's own renderer is written to
    (styles, attributes) only after an [open] has resolved. *)
Fixpoint writesAfterOpen (seen : bool) (t : list Op) : bool :=
  match t with
  | [] => true
  | o :: t' =>
      (if isRendererWrite o then seen else true)
      && writesAfterOpen (seen || isOpenResolved o) t'
  end.

(** A piece of [openBook] that never ends up waiting for the orientation
    lock. *)
Definition avoidsLock (m : Eff Stage) : Prop :=
  forall w v vs, snd (m w) <> Fulfilled (AwaitLock v vs).

(** The component's own renderer is left alone until the book has
    opened: the trace writes to it only after an [open] has resolved, and
    a view in the local reference, or an [openBook] call waiting for the
    orientation lock, means that one has. *)
Definition rendererGuarded (w : World) : Prop :=
  writesAfterOpen false (trace w) = true
  /\ (is_Some (viewRef w) -> existsb isOpenResolved (trace w) = true)
  /\ (forall st, st ∈ tasks w -> isAwaitLock st = true ->
        existsb isOpenResolved (trace w) = true).

End Frames.

(** ** The document-load handler (lines 105-143) *)

(** [s.includes(sub)]. *)
Fixpoint includes (s sub : string) : bool :=
  String.prefix sub s
  || match s with
     | EmptyString => false
     | String _ s' => includes s' sub
     end.

Section LoadModel.
Context `{JsValues}.

(** What [getDirection(doc)] returns. *)
Record Direction := {
  dir_vertical : bool;
  dir_rtl : bool;
}.

(** The settings record as the load handler sees it: the fields of
    [ViewSettings] together with the three only this handler touches. *)
Record LoadedSettings := {
  base : ViewSettings;
  vertical : bool;
  rtl : bool;
  codeHighlighting : bool;
}.

Record Book := {
  primaryLanguage : option jsval;
}.

Record BookData := {
  book : option Book;
}.

(** [detail] of a 'load' event: the section index and the content
    document, named by a number, or null. *)
Record LoadDetail := {
  load_index : num;
  doc : option nat;
}.

(** The handlers of [iframeEventHandlers]. *)
Inductive IframeHandler :=
| handleKeydown
| handleMousedown
| handleMouseup
| handleClick
| handleWheel
| handleTouchStart
| handleTouchMove
| handleTouchEnd.

(** What the load handler does to the world outside it.  A listener is
    recorded with the document it is added to, the event type, the
    handler and the book key bound as its first argument. *)
Inductive LoadOp :=
| LogDocLoaded (index : num)
| SetViewSettings (key : string) (s : LoadedSettings)
| MountAdditionalFonts (d : nat) (isCJK : bool)
| ManageSyntaxHighlighting (d : nat) (s : LoadedSettings)
| DocAddEventListener (d : nat) (type : string) (h : IframeHandler)
    (boundKey : string).

(** The part of the world the load handler reads and writes: the view
    reference, the settings and book-data stores, the documents whose
    [isEventListenersAdded] flag is set, and the trace. *)
Record LoadWorld := {
  load_viewRef : option View;
  load_settings : gmap string LoadedSettings;
  load_bookData : gmap string BookData;
  listenersAdded : gset nat;
  load_trace : list LoadOp;
}.

Definition load_emit (o : LoadOp) (w : LoadWorld) : LoadWorld :=
  {| load_viewRef := load_viewRef w; load_settings := load_settings w;
     load_bookData := load_bookData w; listenersAdded := listenersAdded w;
     load_trace := load_trace w ++ [o] |}.

(** Modelled from the spec: [setViewSettings] of the reader store is not
    among the sources; the spec describes a settings store keyed by book
    identifier with get and set operations. *)
Definition setViewSettings (key : string) (s : LoadedSettings)
    (w : LoadWorld) : LoadWorld :=
  load_emit (SetViewSettings key s)
    {| load_viewRef := load_viewRef w;
       load_settings := <[key := s]> (load_settings w);
       load_bookData := load_bookData w; listenersAdded := listenersAdded w;
       load_trace := load_trace w |}.

(** [detail.doc.isEventListenersAdded = true]. *)
Definition markListenersAdded (d : nat) (w : LoadWorld) : LoadWorld :=
  {| load_viewRef := load_viewRef w; load_settings := load_settings w;
     load_bookData := load_bookData w;
     listenersAdded := {[d]} ∪ listenersAdded w;
     load_trace := load_trace w |}.

End LoadModel.

(** The imported functions the load handler calls. *)
Class LoadCollaborators `{JsValues} := {
  getDirection : nat -> Direction;
  getDirFromUILanguage : string;
  isCJKLang : option jsval -> bool;
}.

Section LoadHandler.
Context `{JsValues} `{!LoadCollaborators} (bookKey : string).

(** Line 109: [viewRef.current?.renderer.setStyles && getDirection(doc)].
    Undefined without a view or without [setStyles]; a [TypeError] when
    the view has no renderer. *)
Definition writingDir (d : nat) (w : LoadWorld) : Settled (option Direction) :=
  match load_viewRef w with
  | None => Fulfilled None
  | Some v =>
      match renderer v with
      | None => Rejected (TypeError "renderer is undefined")
      | Some r =>
          if has_setStyles r then Fulfilled (Some (getDirection d))
          else Fulfilled None
      end
  end.

(** Lines 112-118: the two flags, by first-truthy precedence. *)
Definition withDirection (wd : option Direction) (vs : LoadedSettings)
    : LoadedSettings :=
  {| base := base vs;
     vertical :=
       default false (dir_vertical <$> wd)
       || includes (writingMode (base vs)) "vertical"
       || false;
     rtl :=
       default false (dir_rtl <$> wd)
       || bool_decide (getDirFromUILanguage = "rtl")
       || includes (writingMode (base vs)) "rl"
       || false;
     codeHighlighting := codeHighlighting vs |}.

(** Lines 133-140, in order. *)
Definition gestureListeners : list (string * IframeHandler) :=
  [("keydown", handleKeydown); ("mousedown", handleMousedown);
   ("mouseup", handleMouseup); ("click", handleClick);
   ("wheel", handleWheel); ("touchstart", handleTouchStart);
   ("touchmove", handleTouchMove); ("touchend", handleTouchEnd)].

Definition addGestureListeners (d : nat) (w : LoadWorld) : LoadWorld :=
  fold_left
    (fun w l => load_emit (DocAddEventListener d (fst l) (snd l) bookKey) w)
    gestureListeners w.

Definition docLoadHandler (detail : LoadDetail) (w : LoadWorld)
    : LoadWorld * Settled unit :=
  let w := load_emit (LogDocLoaded (load_index detail)) w in
  match doc detail with
  | None => (w, Fulfilled tt)
  | Some d =>
      match writingDir d w with
      | Rejected e => (w, Rejected e)
      | Fulfilled wd =>
          match load_settings w !! bookKey with
          | None => (w, Rejected (TypeError "viewSettings is undefined"))
          | Some viewSettings =>
              let viewSettings := withDirection wd viewSettings in
              let w := setViewSettings bookKey viewSettings w in
              match load_bookData w !! bookKey with
              | None => (w, Rejected (TypeError "bookData is undefined"))
              | Some bookData =>
                  let w :=
                    load_emit
                      (MountAdditionalFonts d
                         (isCJKLang (book bookData ≫= primaryLanguage))) w in
                  let w :=
                    if codeHighlighting viewSettings
                    then load_emit (ManageSyntaxHighlighting d viewSettings) w
                    else w in
                  if bool_decide (d ∈ listenersAdded w) then (w, Fulfilled tt)
                  else
                    (addGestureListeners d (markListenersAdded d w),
                     Fulfilled tt)
              end
          end
      end
  end.

(** Whether line 109 consults the document: only through a view whose
    renderer offers [setStyles]. *)
Definition usesDocumentDirection (w : LoadWorld) : bool :=
  match load_viewRef w ≫= renderer with
  | Some r => has_setStyles r
  | None => false
  end.





End LoadHandler.

(** ** The release-note step of the image workflow (lines 339-347) *)

Module ReleaseNotes.

(** An entry of [release-notes.json]'s [releases]; [notes] may be
    missing. *)
Record Release := {
  notes : option (list string);
}.

(** [`${index + 1}. ${note}`]. *)
Definition numbered (index : nat) (note : string) : string :=
  pretty (index + 1) +:+ ". " +:+ note.

(** [notes.map((note, index) => ...).join(' ')]. *)
Definition formatNotes (notes : list string) : string :=
  String.concat " " (imap numbered notes).

(** The [releaseNote] the step outputs for [version]. *)
Definition releaseNote (releases : gmap string Release) (version : string)
    : string :=
  let releaseNotes := default {| notes := None |} (releases !! version) in
  let notes := default [] (notes releaseNotes) in
  formatNotes notes.

End ReleaseNotes.

(** ** Further sample inputs *)

Module Sample.

(** A stylesheet whose download failed. *)
Definition broken : DataDetail :=
  {| data := Rejected (Thrown "network"); type := "text/css";
     name := "style.css" |}.

(** Book A viewed through a renderer that offers no optional method. *)
Definition viewingBare : World :=
  set_viewRef (Some (Demo.openView "A" (Some Demo.bare)))
    (Demo.world ∅ {[ "A" := Demo.settings ]} ∅).

(** Book A viewed through an element that has no renderer. *)
Definition viewingNothing : World :=
  set_viewRef (Some (Demo.openView "A" None))
    (Demo.world ∅ {[ "A" := Demo.settings ]} ∅).

(** A group in which nobody but the originator can be navigated. *)
Definition lonely : World :=
  Demo.world {[ "C" := Demo.openView "C" (Some Demo.bare) ]}
    {[ "A" := Demo.settings ]} {[ "A" := ["A"; "C"; "E"] ]}.



(** A desktop host whose container is attached but not yet laid out. *)
Definition desktop : Host :=
  {| containerRect := Some (0%Z, 0%Z);
     innerWidth := 1024%Z; innerHeight := 768%Z;
     isMobileApp := false;
     widget_renderer := Some Demo.paginator;
     widget_transformTarget := true |}.


(** Import, open, lock, first navigation: all come through. *)
Definition allGoesWell : list Event :=
  [MountEffect; Settle 0 (Fulfilled tt); Settle 0 (Fulfilled tt);
   Settle 0 (Fulfilled tt); Settle 0 (Fulfilled tt)].

(** Documents with an even number are vertical; the UI is left-to-right;
    Japanese is the CJK language. *)
#[global] Instance loadCollaborators : LoadCollaborators := {|
  getDirection := fun d =>
    {| dir_vertical := Nat.even d; dir_rtl := false |};
  getDirFromUILanguage := "ltr";
  isCJKLang := fun lang => bool_decide (lang = Some "ja");
|}.

Definition rightToLeft : ViewSettings :=
  {| writingMode := "horizontal-rl"; allowScript := None; animated := true;
     maxColumnCount := 2%Z; maxBlockSize := 1440%Z;
     screenOrientation := "auto";
     showHeader := true; showFooter := true;
     marginPx := 44%Z; compactMarginPx := 16%Z;
     gapPercent := 5%Z; compactGapPercent := 3%Z;
     scrolled := false |}.

Definition stored (vs : ViewSettings) : LoadedSettings :=
  {| base := vs; vertical := false; rtl := false; codeHighlighting := true |}.

(** Book A, in Japanese, open in a paginator, nothing loaded yet. *)
Definition loading (vs : ViewSettings) : LoadWorld :=
  {| load_viewRef := Some (Demo.openView "A" (Some Demo.paginator));
     load_settings := {[ "A" := stored vs ]};
     load_bookData :=
       {[ "A" := {| book := Some {| primaryLanguage := Some "ja" |} |} ]};
     listenersAdded := ∅;
     load_trace := [] |}.

(** The same before the book data has arrived. *)
Definition loadingEarly : LoadWorld :=
  {| load_viewRef := Some (Demo.openView "A" (Some Demo.paginator));
     load_settings := {[ "A" := stored Demo.settings ]};
     load_bookData := ∅;
     listenersAdded := ∅;
     load_trace := [] |}.

(** The same before the settings exist. *)
Definition loadingBlind : LoadWorld :=
  {| load_viewRef := Some (Demo.openView "A" (Some Demo.paginator));
     load_settings := ∅;
     load_bookData := ∅;
     listenersAdded := ∅;
     load_trace := [] |}.


(** A release with three notes, one with none, one without the field. *)
Definition releases : gmap string ReleaseNotes.Release :=
  {[ "0.9.1" := {| ReleaseNotes.notes :=
                     Some ["Fix crash"; "Add themes"; "Faster sync"] |};
     "0.9.0" := {| ReleaseNotes.notes := Some [] |};
     "0.8.0" := {| ReleaseNotes.notes := None |} ]}.

Definition sectionLoaded (i : Z) (d : nat) : LoadDetail :=
  {| load_index := i; doc := Some d |}.

(** Theme and layout change at once. *)
Definition darkCompacted : Render :=
  {| themeCode := "default"; isDarkMode := true;
     render_padding := Demo.pad;
     viewSettings := Some Demo.compact_scrolled |}.

End Sample.

(** ** Properties *)

(** *** Laws of the effect monad *)

Section MonadLaws.
Context `{JsValues}.

Lemma bind_emit {B} (o : Op) (k : unit -> Eff B) w :
  bind (emit o) k w = k tt (set_trace (trace w ++ [o]) w).
Proof. reflexivity. Qed.

Lemma bind_modify {B} f (k : unit -> Eff B) w :
  bind (modify f) k w = k tt (f w).
Proof. reflexivity. Qed.

Lemma bind_assoc {A B C} (m : Eff A) (k : A -> Eff B) (k' : B -> Eff C) w :
  bind (bind m k) k' w = bind m (fun a => bind (k a) k') w.
Proof. unfold bind. destruct (m w) as [w' [a|e]]; reflexivity. Qed.

Lemma count_app {A} (p : A -> bool) (l1 l2 : list A) :
  count p (l1 ++ l2) = (count p l1 + count p l2)%nat.
Proof. unfold count. rewrite filter_app. apply length_app. Qed.

Lemma count_cons {A} (p : A -> bool) (x : A) (l : list A) :
  count p (x :: l) = ((if p x then 1 else 0) + count p l)%nat.
Proof.
  unfold count. rewrite filter_cons.
  destruct (p x); [rewrite decide_True by reflexivity
                  |rewrite decide_False by discriminate]; reflexivity.
Qed.

Lemma count_none {A} (p q : A -> bool) (l : list A) :
  (forall x, q x = true -> p x = false) ->
  forallb q l = true -> count p l = 0%nat.
Proof.
  intros Hpq. induction l as [|x l IH]; simpl; intros Hl; [reflexivity|].
  apply andb_true_iff in Hl as [Hx Hl].
  unfold count in *. rewrite filter_cons.
  destruct (decide (p x = true)) as [Hp|_].
  - rewrite (Hpq x Hx) in Hp. discriminate.
  - auto.
Qed.

(** **** Steadiness is compositional *)

Lemma steady_ret P {A} (a : A) : steady P (ret a).
Proof. intros w. simpl. repeat split. exists []. rewrite app_nil_r. auto. Qed.

Lemma steady_throw P {A} e : steady P (@throw _ A e).
Proof. intros w. simpl. repeat split. exists []. rewrite app_nil_r. auto. Qed.

Lemma steady_settle P {A} (r : Settled A) : steady P (settle r).
Proof. intros w. simpl. repeat split. exists []. rewrite app_nil_r. auto. Qed.

Lemma steady_get P : steady P get.
Proof. intros w. simpl. repeat split. exists []. rewrite app_nil_r. auto. Qed.

Lemma steady_emit (P : Op -> bool) o : P o = true -> steady P (emit o).
Proof.
  intros Ho w. simpl. repeat split. exists [o]. split; [reflexivity|].
  simpl. rewrite Ho. reflexivity.
Qed.

Lemma steady_set_settings P m : steady P (modify (set_viewSettingsStore m)).
Proof. intros w. simpl. repeat split. exists []. rewrite app_nil_r. auto. Qed.

Lemma steady_set_bookDoc_dir P d : steady P (modify (set_bookDoc_dir d)).
Proof. intros w. simpl. repeat split. exists []. rewrite app_nil_r. auto. Qed.

Lemma steady_bind P {A B} (m : Eff A) (k : A -> Eff B) :
  steady P m -> (forall a, steady P (k a)) -> steady P (bind m k).
Proof.
  intros Hm Hk w. specialize (Hm w). unfold bind.
  destruct (m w) as [w1 [a|e]]; simpl in *.
  - destruct Hm as (E1 & E2 & E3 & E4 & ops1 & Et1 & F1).
    destruct (Hk a w1) as (G1 & G2 & G3 & G4 & ops2 & Et2 & F2).
    repeat split; try congruence.
    exists (ops1 ++ ops2). rewrite Et2, Et1, <- app_assoc. split; [reflexivity|].
    rewrite forallb_app, F1, F2. reflexivity.
  - exact Hm.
Qed.

Lemma steady_catch P {A} (m : Eff A) (h : exn -> Eff A) :
  steady P m -> (forall e, steady P (h e)) -> steady P (catch m h).
Proof.
  intros Hm Hh w. specialize (Hm w). unfold catch.
  destruct (m w) as [w1 [a|e]]; simpl in *.
  - exact Hm.
  - destruct Hm as (E1 & E2 & E3 & E4 & ops1 & Et1 & F1).
    destruct (Hh e w1) as (G1 & G2 & G3 & G4 & ops2 & Et2 & F2).
    repeat split; try congruence.
    exists (ops1 ++ ops2). rewrite Et2, Et1, <- app_assoc. split; [reflexivity|].
    rewrite forallb_app, F1, F2. reflexivity.
Qed.

Lemma steady_forEach P {A} (xs : list A) (f : A -> Eff unit) :
  (forall x, steady P (f x)) -> steady P (forEach xs f).
Proof.
  intros Hf. induction xs as [|x xs IH]; simpl.
  - apply steady_ret.
  - apply steady_bind; auto.
Qed.

End MonadLaws.

(** Decompose an effect into its binds, branches and primitive calls. *)
Ltac steady_step :=
  first
    [ apply steady_ret | apply steady_throw | apply steady_settle
    | apply steady_get | apply steady_set_settings
    | apply steady_set_bookDoc_dir
    | apply steady_emit; reflexivity
    | apply steady_bind; [|intros ?; cbv beta]
    | apply steady_catch; [|intros ?; cbv beta]
    | apply steady_forEach; intros ?; cbv beta
    | progress cbv zeta
    | match goal with
      | |- steady _ (if ?b then _ else _) => destruct b
      | |- steady _ (match ?x with _ => _ end) => destruct x
      end ].

Ltac steady := repeat steady_step.

(** Run the monad's plumbing, leaving the program's own branches. *)
Ltac eff :=
  unfold getViewSettings, getView, getParallels in *;
  unfold catch, bind, get, emit, modify, ret, throw, settle;
  cbv beta iota zeta;
  cbn [fst snd view_id opened renderer transformTarget
       trace viewRef views isViewCreated tasks viewSettingsStore
       parallelViews bookDoc_dir
       set_trace set_viewRef set_views set_viewSettingsStore set_bookDoc_dir
       set_tasks set_isViewCreated].

(** *** The event handlers *)

Section Handlers.
Context `{Collaborators} (props : Props) (host : Host).

Lemma steady_progressRelocateHandler d :
  steady routine (progressRelocateHandler props d).
Proof. unfold progressRelocateHandler, setProgress. steady. Qed.

Lemma steady_getDocTransformHandler width height d :
  steady routine (getDocTransformHandler props width height d).
Proof. unfold getDocTransformHandler, docTransform. steady. Qed.

Lemma steady_docRelocateHandler d :
  steady routine (docRelocateHandler props d).
Proof. unfold docRelocateHandler. steady. Qed.

Lemma steady_dispatchData d : steady routine (dispatchData props d).
Proof.
  unfold dispatchData. steady.
Qed.

Lemma steady_applyMarginAndGap P pad :
  (forall o, isMarginGapFlow o = true -> P o = true) ->
  steady P (applyMarginAndGap props pad).
Proof.
  intros HP. unfold applyMarginAndGap, viewRefSetAttribute, rendererSetAttribute.
  repeat first [ apply steady_emit; apply HP; reflexivity | steady_step ].
Qed.

Lemma steady_styleEffect P :
  (forall o, isStyleOp o = true -> P o = true) ->
  steady P (styleEffect props).
Proof.
  intros HP. unfold styleEffect, setStyles.
  repeat first [ apply steady_emit; apply HP; reflexivity | steady_step ].
Qed.

Lemma steady_marginEffect P r :
  (forall o, isMarginGapFlow o = true -> P o = true) ->
  steady P (marginEffect props r).
Proof.
  intros HP. unfold marginEffect.
  repeat first [ apply steady_applyMarginAndGap; assumption | steady_step ].
Qed.

Lemma marginGapFlow_routine o : isMarginGapFlow o = true -> routine o = true.
Proof. destruct o; simpl; intros; reflexivity || discriminate. Qed.

Lemma style_routine o : isStyleOp o = true -> routine o = true.
Proof. destruct o; simpl; intros; reflexivity || discriminate. Qed.

Lemma steady_rerender prev next : steady routine (rerender props prev next).
Proof.
  unfold rerender.
  repeat first [ apply steady_styleEffect, style_routine
               | apply steady_marginEffect, marginGapFlow_routine
               | steady_step ].
Qed.

End Handlers.

(** *** Progress events *)

Section Progress.
Context `{Collaborators} (props : Props) (host : Host).

Lemma progressRelocateHandler_run d w :
  progressRelocateHandler props d w =
  (set_trace (trace w ++ [SetProgress (bookKey props) (progressRecordOf d)]) w,
   Fulfilled tt).
Proof. reflexivity. Qed.

(** C9. Every 'relocate' event, in the order received, becomes one
    [setProgress] call for the component's book key carrying the event's
    cfi, TOC item, section, location, time and range: a run of events
    adds exactly one call per event to the trace, none dropped and none
    merged, whatever the events carry and whatever state they arrive in. *)
Theorem progress_written_for_every_relocate (ds : list RelocateDetail) (w : World) :
  trace (run props host (Relocate <$> ds) w) =
    trace w ++ ((fun d => SetProgress (bookKey props) (progressRecordOf d)) <$> ds).
Proof.
  revert w. induction ds as [|d ds IH]; intros w.
  - simpl. rewrite app_nil_r. reflexivity.
  - change (run props host (Relocate <$> d :: ds) w)
      with (run props host (Relocate <$> ds) (step props host w (Relocate d))).
    rewrite IH. cbn [step]. unfold exec. rewrite progressRelocateHandler_run.
    cbn [fst trace set_trace fmap list_fmap]. rewrite <- app_assoc. reflexivity.
Qed.

End Progress.

(** C9 on three events, the last two identical: three calls. *)
Lemma progress_written_for_every_relocate_witness :
  trace (run Demo.props Demo.host (Relocate <$> Demo.threeRelocations)
           Demo.unconfigured)
  = [SetProgress "A" (progressRecordOf (Demo.relocated "epubcfi(/6/2)"));
     SetProgress "A" (progressRecordOf (Demo.relocated "epubcfi(/6/4)"));
     SetProgress "A" (progressRecordOf (Demo.relocated "epubcfi(/6/4)"))].
Proof.
  rewrite (progress_written_for_every_relocate Demo.props Demo.host
             Demo.threeRelocations Demo.unconfigured).
  reflexivity.
Defined.

(** *** The content transform hook *)

Section Transform.
Context `{Collaborators} (props : Props).

Lemma handler_on_stylesheet width height detail d vs w :
  data detail = Fulfilled d ->
  getViewSettings (bookKey props) w = Some vs ->
  type detail = "text/css" ->
  getDocTransformHandler props width height detail w =
  let w1 := set_trace (trace w ++ [TransformStylesheet vs width height d]) w in
  match transformStylesheet vs width height d with
  | Fulfilled css => (w1, Fulfilled css)
  | Rejected e =>
      (set_trace (trace w1 ++ [ConsoleError ("Failed to load " +:+ name detail) e]) w1,
       Fulfilled "")
  end.
Proof.
  intros Hd Hvs Hty.
  unfold getDocTransformHandler, docTransform, catch, bind, settle, get.
  rewrite Hd. cbv beta iota zeta. rewrite Hvs, (bool_decide_eq_true_2 _ Hty). simpl.
  destruct (transformStylesheet vs width height d); reflexivity.
Qed.

Lemma handler_on_markup width height detail d vs w :
  data detail = Fulfilled d ->
  getViewSettings (bookKey props) w = Some vs ->
  type detail = "application/xhtml+xml" ->
  getDocTransformHandler props width height detail w =
  let ctx := {| ctx_bookKey := bookKey props; ctx_viewSettings := vs;
                   ctx_content := d;
                   ctx_transformers := ["punctuation"; "footnote"] |} in
  let w1 := set_trace (trace w ++ [TransformContent ctx]) w in
  match transformContent ctx with
  | Fulfilled html => (w1, Fulfilled html)
  | Rejected e =>
      (set_trace (trace w1 ++ [ConsoleError ("Failed to load " +:+ name detail) e]) w1,
       Fulfilled "")
  end.
Proof.
  intros Hd Hvs Hty.
  assert (type detail <> "text/css") as Hne by (rewrite Hty; discriminate).
  unfold getDocTransformHandler, docTransform, catch, bind, settle, get.
  rewrite Hd. cbv beta iota zeta.
  rewrite Hvs, (bool_decide_eq_false_2 _ Hne), (bool_decide_eq_true_2 _ Hty).
  simpl. destruct (transformContent _); reflexivity.
Qed.

(** C8. A payload of type text/css is handed to [transformStylesheet]
    with the current settings and the width and height the handler was
    built with, and what that returns is delivered; a payload of type
    application/xhtml+xml is handed to [transformContent] with the book
    key, the current settings, the content and the transformers
    punctuation and footnote, and what that returns is delivered; a
    payload of any other type is delivered as it came, with no call made. *)
Theorem payload_transformed_by_type (width height : num) (detail : DataDetail)
    (d : string) (w : World) :
  data detail = Fulfilled d ->
  (forall vs css,
     getViewSettings (bookKey props) w = Some vs ->
     type detail = "text/css" ->
     transformStylesheet vs width height d = Fulfilled css ->
     snd (getDocTransformHandler props width height detail w) = Fulfilled css
     /\ trace (fst (getDocTransformHandler props width height detail w))
        = trace w ++ [TransformStylesheet vs width height d])
  /\ (forall vs html,
        getViewSettings (bookKey props) w = Some vs ->
        type detail = "application/xhtml+xml" ->
        transformContent
          {| ctx_bookKey := bookKey props; ctx_viewSettings := vs;
             ctx_content := d;
             ctx_transformers := ["punctuation"; "footnote"] |}
        = Fulfilled html ->
        snd (getDocTransformHandler props width height detail w) = Fulfilled html
        /\ trace (fst (getDocTransformHandler props width height detail w))
           = trace w ++
             [TransformContent
                {| ctx_bookKey := bookKey props; ctx_viewSettings := vs;
                   ctx_content := d;
                   ctx_transformers := ["punctuation"; "footnote"] |}])
  /\ (type detail <> "text/css" ->
      type detail <> "application/xhtml+xml" ->
      getDocTransformHandler props width height detail w = (w, Fulfilled d)).
Proof.
  intros Hd. split; [|split].
  - intros vs css Hvs Hty Hcss.
    rewrite (handler_on_stylesheet _ _ _ _ _ _ Hd Hvs Hty). cbv zeta.
    rewrite Hcss. split; reflexivity.
  - intros vs html Hvs Hty Hhtml.
    rewrite (handler_on_markup _ _ _ _ _ _ Hd Hvs Hty).
    cbv zeta. rewrite Hhtml. split; reflexivity.
  - intros Hcss Hxml.
    unfold getDocTransformHandler, docTransform, catch, bind, settle, get.
    rewrite Hd. cbv beta iota zeta.
    rewrite (bool_decide_eq_false_2 _ Hcss), (bool_decide_eq_false_2 _ Hxml).
    destruct (getViewSettings (bookKey props) w); reflexivity.
Qed.

(** C10. With no settings stored for the book key, a payload of any type
    is delivered as it came and the world is left as it was: neither
    transform is called. *)
Theorem payload_untouched_without_settings (width height : num)
    (detail : DataDetail) (d : string) (w : World) :
  getViewSettings (bookKey props) w = None ->
  data detail = Fulfilled d ->
  getDocTransformHandler props width height detail w = (w, Fulfilled d).
Proof.
  intros Hnone Hd.
  unfold getDocTransformHandler, docTransform, catch, bind, settle, get.
  rewrite Hd. cbv beta iota zeta. rewrite Hnone. reflexivity.
Qed.

(** C3. When the transform of a stylesheet or of a markup payload throws
    or rejects, the handler logs an error whose message names the
    resource and whose cause is what was thrown, and delivers the empty
    string; whatever happens, the promise it stores never rejects. *)
Theorem failed_transform_degrades_to_empty (width height : num)
    (detail : DataDetail) (d : string) (vs : ViewSettings) (e : exn) (w : World) :
  data detail = Fulfilled d ->
  getViewSettings (bookKey props) w = Some vs ->
  (type detail = "text/css" ->
   transformStylesheet vs width height d = Rejected e ->
   snd (getDocTransformHandler props width height detail w) = Fulfilled ""
   /\ trace (fst (getDocTransformHandler props width height detail w))
      = trace w ++ [TransformStylesheet vs width height d;
                    ConsoleError ("Failed to load " +:+ name detail) e])
  /\ (type detail = "application/xhtml+xml" ->
      transformContent
        {| ctx_bookKey := bookKey props; ctx_viewSettings := vs;
           ctx_content := d;
           ctx_transformers := ["punctuation"; "footnote"] |}
      = Rejected e ->
      snd (getDocTransformHandler props width height detail w) = Fulfilled ""
      /\ trace (fst (getDocTransformHandler props width height detail w))
         = trace w ++
           [TransformContent
              {| ctx_bookKey := bookKey props; ctx_viewSettings := vs;
                 ctx_content := d;
                 ctx_transformers := ["punctuation"; "footnote"] |};
            ConsoleError ("Failed to load " +:+ name detail) e])
  /\ (forall detail' w',
        exists s, snd (getDocTransformHandler props width height detail' w')
                  = Fulfilled s).
Proof.
  intros Hd Hvs. split; [|split].
  - intros Hty Hrej.
    rewrite (handler_on_stylesheet _ _ _ _ _ _ Hd Hvs Hty). cbv zeta.
    rewrite Hrej. simpl. rewrite <- app_assoc. split; reflexivity.
  - intros Hty Hrej.
    rewrite (handler_on_markup _ _ _ _ _ _ Hd Hvs Hty).
    cbv zeta. rewrite Hrej. simpl. rewrite <- app_assoc. split; reflexivity.
  - intros detail' w'. unfold getDocTransformHandler, catch.
    destruct (bind _ _ w') as [w1 [a|e1]]; simpl; eauto.
Qed.

End Transform.

(** C8 on a stylesheet, a chapter and an image. *)
Lemma payload_transformed_by_type_witness :
  snd (getDocTransformHandler Demo.props 800%Z 600%Z (Demo.stylesheet "a{}")
         Demo.reader) = Fulfilled "/*800x600*/a{}"
  /\ snd (getDocTransformHandler Demo.props 800%Z 600%Z (Demo.chapter "<p/>")
            Demo.reader) = Fulfilled "punctuation,footnote:<p/>"
  /\ getDocTransformHandler Demo.props 800%Z 600%Z Demo.image Demo.reader
     = (Demo.reader, Fulfilled "PNG").
Proof.
  split; [|split].
  - destruct (payload_transformed_by_type Demo.props 800%Z 600%Z
                (Demo.stylesheet "a{}") "a{}" Demo.reader eq_refl)
      as (Hcss & _ & _).
    apply (Hcss Demo.settings); vm_compute; reflexivity.
  - destruct (payload_transformed_by_type Demo.props 800%Z 600%Z
                (Demo.chapter "<p/>") "<p/>" Demo.reader eq_refl)
      as (_ & Hxml & _).
    apply (Hxml Demo.settings); vm_compute; reflexivity.
  - destruct (payload_transformed_by_type Demo.props 800%Z 600%Z
                Demo.image "PNG" Demo.reader eq_refl)
      as (_ & _ & Hother).
    apply Hother; discriminate.
Defined.

(** C10 on a stylesheet arriving before the settings exist. *)
Lemma payload_untouched_without_settings_witness :
  getDocTransformHandler Demo.props 800%Z 600%Z (Demo.stylesheet "a{}")
    Demo.unconfigured
  = (Demo.unconfigured, Fulfilled "a{}").
Proof.
  apply payload_untouched_without_settings; reflexivity.
Defined.

(** C3 on a stylesheet and a chapter the demo transforms reject. *)
Lemma failed_transform_degrades_to_empty_witness :
  (snd (getDocTransformHandler Demo.props 800%Z 600%Z (Demo.stylesheet "boom")
          Demo.reader) = Fulfilled ""
   /\ trace (fst (getDocTransformHandler Demo.props 800%Z 600%Z
                    (Demo.stylesheet "boom") Demo.reader))
      = [TransformStylesheet Demo.settings 800%Z 600%Z "boom";
         ConsoleError "Failed to load style.css" (Thrown "bad css")])
  /\ snd (getDocTransformHandler Demo.props 800%Z 600%Z (Demo.chapter "boom")
            Demo.reader) = Fulfilled "".
Proof.
  split.
  - destruct (failed_transform_degrades_to_empty Demo.props 800%Z 600%Z
                (Demo.stylesheet "boom") "boom" Demo.settings
                (Thrown "bad css") Demo.reader eq_refl)
      as (Hcss & _ & _); [vm_compute; reflexivity|].
    apply Hcss; vm_compute; reflexivity.
  - destruct (failed_transform_degrades_to_empty Demo.props 800%Z 600%Z
                (Demo.chapter "boom") "boom" Demo.settings
                (Thrown "bad markup") Demo.reader eq_refl)
      as (_ & Hxml & _); [vm_compute; reflexivity|].
    apply Hxml; vm_compute; reflexivity.
Defined.

(** *** Renderer relocation across a parallel group *)

Section Relocate.
Context `{Collaborators} (props : Props).

Lemma set_trace_id (w : World) : set_trace (trace w) w = w.
Proof. destruct w; reflexivity. Qed.

(** What visiting the members of the group adds to the trace. *)
Lemma relocate_loop (detail : RendererRelocateDetail) (group : list string) w :
  forEach group (fun key =>
    if negb (bool_decide (key = bookKey props)) then
      let* w := get in
      match getView key w ≫= renderer with
      | Some target =>
          if has_goTo target
          then emit (RendererGoTo key (index detail) (fraction detail))
          else ret tt
      | None => ret tt
      end
    else ret tt) w
  = (set_trace
       (trace w ++
        flat_map (fun key =>
          if negb (bool_decide (key = bookKey props)) && canGoTo key w
          then [RendererGoTo key (index detail) (fraction detail)]
          else []) group) w,
     Fulfilled tt).
Proof.
  revert w. induction group as [|k ks IH]; intros w.
  - simpl. rewrite app_nil_r, set_trace_id. reflexivity.
  - cbn [forEach flat_map]. unfold bind at 1.
    destruct (negb (bool_decide (k = bookKey props))) eqn:Hk; cbn [andb].
    + unfold bind at 1, get at 1. unfold canGoTo at 1.
      destruct (getView k w ≫= renderer) as [target|].
      * destruct (has_goTo target).
        -- cbn [emit modify]. rewrite IH. cbn [trace set_trace].
           rewrite <- app_assoc. reflexivity.
        -- cbn [ret]. rewrite IH. reflexivity.
      * cbn [ret]. rewrite IH. reflexivity.
    + cbn [ret]. rewrite IH. reflexivity.
Qed.

Lemma count_members (ok : string -> bool) (mk : string -> Op)
    (Hmk : forall k key, isGoToFor key (mk k) = bool_decide (k = key))
    (group : list string) (key : string) :
  NoDup group ->
  count (isGoToFor key)
    (flat_map (fun k => if ok k then [mk k] else []) group)
  = if bool_decide (key ∈ group) && ok key then 1%nat else 0%nat.
Proof.
  induction 1 as [|k ks Hnotin Hnodup IH].
  - reflexivity.
  - cbn [flat_map]. rewrite count_app, IH.
    destruct (decide (k = key)) as [->|Hne].
    + rewrite (bool_decide_eq_true_2 (key ∈ key :: ks)) by left.
      rewrite (bool_decide_eq_false_2 _ Hnotin). cbn [andb].
      destruct (ok key); [|reflexivity].
      unfold count. cbn. rewrite Hmk, bool_decide_eq_true_2 by reflexivity.
      rewrite decide_True by reflexivity. reflexivity.
    + assert (bool_decide (key ∈ k :: ks) = bool_decide (key ∈ ks)) as ->.
      { apply bool_decide_ext. rewrite elem_of_cons.
        split; [intros [Heq|Hin]; [congruence | exact Hin] | intros Hin; right; exact Hin]. }
      assert (count (isGoToFor key) (if ok k then [mk k] else []) = 0%nat) as ->.
      { destruct (ok k); [|reflexivity]. unfold count. cbn.
        rewrite Hmk, (bool_decide_eq_false_2 _ Hne).
        rewrite decide_False by discriminate. reflexivity. }
      reflexivity.
Qed.

(** C2, as the code has it. A renderer 'relocate' event whose reason is
    neither scroll nor page changes nothing.  For reason scroll or page
    and a group registered for the book key, the handler makes only
    [goTo] calls, each carrying the event's index and fraction, and
    completes without error; a member of the group receives exactly one
    call when it is not the originating key and its view has a renderer
    that offers [goTo], and none otherwise (the originating key, a member
    with no view or no renderer, a renderer without [goTo]). *)
Theorem relocate_propagates_to_group (detail : RendererRelocateDetail) (w : World) :
  (reason detail <> "scroll" -> reason detail <> "page" ->
   docRelocateHandler props detail w = (w, Fulfilled tt))
  /\ (reason detail = "scroll" \/ reason detail = "page" ->
      forall group,
        getParallels (bookKey props) w = Some group ->
        NoDup group ->
        snd (docRelocateHandler props detail w) = Fulfilled tt
        /\ exists ops,
             trace (fst (docRelocateHandler props detail w)) = trace w ++ ops
             /\ (forall o, o ∈ ops ->
                   exists key, o = RendererGoTo key (index detail) (fraction detail))
             /\ (forall key,
                   count (isGoToFor key) ops
                   = if bool_decide (key ∈ group)
                        && (negb (bool_decide (key = bookKey props))
                            && canGoTo key w)
                     then 1%nat else 0%nat)).
Proof.
  split.
  - intros Hs Hp. unfold docRelocateHandler.
    rewrite (bool_decide_eq_false_2 _ Hs), (bool_decide_eq_false_2 _ Hp).
    reflexivity.
  - intros Hreason group Hgroup Hnodup.
    assert (docRelocateHandler props detail w
            = (set_trace
                 (trace w ++
                  flat_map (fun key =>
                    if negb (bool_decide (key = bookKey props))
                       && canGoTo key w
                    then [RendererGoTo key (index detail) (fraction detail)]
                    else []) group) w,
               Fulfilled tt)) as ->.
    { unfold docRelocateHandler.
      assert (negb (bool_decide (reason detail = "scroll"))
              && negb (bool_decide (reason detail = "page")) = false) as ->.
      { destruct Hreason as [Hr|Hr]; rewrite (bool_decide_eq_true_2 _ Hr);
          [reflexivity | apply andb_false_r]. }
      unfold bind at 1, get at 1. rewrite Hgroup.
      destruct group as [|k ks].
      - simpl. rewrite app_nil_r, set_trace_id. reflexivity.
      - change (0 <? length (k :: ks))%nat with true. cbv iota.
        apply relocate_loop. }
    split; [reflexivity|].
    eexists. split; [reflexivity|]. split.
    + intros o Ho. apply list_elem_of_In, in_flat_map in Ho as (k & _ & Ho).
      destruct (_ && _) in Ho; [|destruct Ho].
      destruct Ho as [<-|[]]. eauto.
    + intros key.
      apply (count_members
               (fun k => negb (bool_decide (k = bookKey props)) && canGoTo k w)
               (fun k => RendererGoTo k (index detail) (fraction detail)));
        [reflexivity | assumption].
Qed.

End Relocate.

(** C2 on the demo reader: a resize is ignored; a scroll reaches B once
    and the originator A not at all. *)
Lemma relocate_propagates_to_group_witness :
  docRelocateHandler Demo.props Demo.resized Demo.reader
    = (Demo.reader, Fulfilled tt)
  /\ trace (fst (docRelocateHandler Demo.props Demo.scrollTo Demo.reader))
     = [RendererGoTo "B" 3%Z 1%Z].
Proof.
  split.
  - apply (relocate_propagates_to_group Demo.props Demo.resized Demo.reader);
      discriminate.
  - destruct (relocate_propagates_to_group Demo.props Demo.scrollTo Demo.reader)
      as [_ Hgo].
    destruct (Hgo (or_introl eq_refl) ["A"; "B"; "C"; "D"; "E"] eq_refl)
      as (_ & ops & Ht & _ & _).
    + apply (bool_decide_unpack _). vm_compute. exact I.
    + vm_compute. reflexivity.
Defined.

(** C2 as the claim words it fails: C is a member of the group, is not
    the originator, and its view has a renderer, yet it receives no call,
    because that renderer has no [goTo]. *)
Lemma relocate_skips_renderer_without_goTo :
  ~ (forall (V : JsValues) (C : Collaborators) (props : Props)
       (detail : RendererRelocateDetail) (w : World)
       (group : list string) (key : string) (r : Renderer),
       reason detail = "scroll" \/ reason detail = "page" ->
       getParallels (bookKey props) w = Some group ->
       NoDup group ->
       key ∈ group ->
       key <> bookKey props ->
       getView key w ≫= renderer = Some r ->
       count (isGoToFor key)
         (drop (length (trace w))
            (trace (fst (docRelocateHandler props detail w)))) = 1%nat).
Proof.
  intros claim.
  specialize (claim Demo.values Demo.collaborators Demo.props Demo.scrollTo
                Demo.reader ["A"; "B"; "C"; "D"; "E"] "C" Demo.bare
                (or_introl eq_refl) eq_refl).
  assert (count (isGoToFor "C")
            (drop (length (trace Demo.reader))
               (trace (fst (docRelocateHandler Demo.props Demo.scrollTo
                              Demo.reader)))) = 0%nat) as Hzero
    by (vm_compute; reflexivity).
  rewrite claim in Hzero.
  - discriminate.
  - apply (bool_decide_unpack _). vm_compute. exact I.
  - apply (bool_decide_unpack _). vm_compute. exact I.
  - discriminate.
  - reflexivity.
Qed.

(** *** Margin, gap and flow *)

Section Margins.
Context `{Collaborators} (props : Props).

Lemma applyMarginAndGap_run pad vs v r w :
  getViewSettings (bookKey props) w = Some vs ->
  viewRef w = Some v ->
  renderer v = Some r ->
  snd (applyMarginAndGap props pad w) = Fulfilled tt
  /\ trace (fst (applyMarginAndGap props pad w))
     = trace w ++
       [SetAttribute "margin"
          (num_to_string
             (num_add (if negb (showHeader vs) && negb (showFooter vs)
                       then compactMarginPx vs else marginPx vs)
                      (padding_top pad)) +:+ "px");
        SetAttribute "gap"
          (num_to_string (if negb (showHeader vs) && negb (showFooter vs)
                          then compactGapPercent vs else gapPercent vs)
           +:+ "%")]
       ++ (if scrolled vs then [SetAttribute "flow" "scrolled"] else []).
Proof.
  intros Hvs Hv Hr.
  unfold applyMarginAndGap, viewRefSetAttribute, rendererSetAttribute.
  eff. rewrite Hvs. repeat (progress (eff; rewrite ?Hv, ?Hr)).
  destruct (scrolled vs); repeat (progress (eff; rewrite ?Hv, ?Hr)).
  - split; [reflexivity|]. rewrite <- !app_assoc. reflexivity.
  - split; [reflexivity|]. rewrite <- !app_assoc. reflexivity.
Qed.

(** C7. With settings stored for the book key and a view with a renderer
    in [viewRef]: when [showHeader] and [showFooter] are both false the
    margin attribute is written as [compactMarginPx + padding.top]
    followed by px and the gap attribute as [compactGapPercent] followed
    by a percent sign; otherwise the margin attribute is
    [marginPx + padding.top] and the gap attribute [gapPercent]; in both
    cases the flow attribute is then set to scrolled when [scrolled] is
    true, and nothing else is written. *)
Theorem margin_and_gap_follow_compact_mode (pad : Padding) (vs : ViewSettings)
    (v : View) (r : Renderer) (w : World) :
  getViewSettings (bookKey props) w = Some vs ->
  viewRef w = Some v ->
  renderer v = Some r ->
  (showHeader vs = false /\ showFooter vs = false ->
   trace (fst (applyMarginAndGap props pad w))
   = trace w ++
     [SetAttribute "margin"
        (num_to_string (num_add (compactMarginPx vs) (padding_top pad)) +:+ "px");
      SetAttribute "gap" (num_to_string (compactGapPercent vs) +:+ "%")]
     ++ (if scrolled vs then [SetAttribute "flow" "scrolled"] else []))
  /\ (showHeader vs = true \/ showFooter vs = true ->
      trace (fst (applyMarginAndGap props pad w))
      = trace w ++
        [SetAttribute "margin"
           (num_to_string (num_add (marginPx vs) (padding_top pad)) +:+ "px");
         SetAttribute "gap" (num_to_string (gapPercent vs) +:+ "%")]
        ++ (if scrolled vs then [SetAttribute "flow" "scrolled"] else []))
  /\ snd (applyMarginAndGap props pad w) = Fulfilled tt.
Proof.
  intros Hvs Hv Hr.
  destruct (applyMarginAndGap_run pad vs v r w Hvs Hv Hr) as [Hok Ht].
  split; [|split]; [| |exact Hok].
  - intros [Hh Hf]. rewrite Ht, Hh, Hf. reflexivity.
  - intros Hshown. rewrite Ht.
    assert (negb (showHeader vs) && negb (showFooter vs) = false) as ->.
    { destruct Hshown as [-> | ->]; [reflexivity | apply andb_false_r]. }
    reflexivity.
Qed.

End Margins.

(** C7 in compact scrolled mode and in standard paginated mode, with a
    top padding of 44. *)
Lemma margin_and_gap_follow_compact_mode_witness :
  trace (fst (applyMarginAndGap Demo.props Demo.pad
                (Demo.viewing Demo.compact_scrolled)))
    = [SetAttribute "margin" "60px"; SetAttribute "gap" "3%";
       SetAttribute "flow" "scrolled"]
  /\ trace (fst (applyMarginAndGap Demo.props Demo.pad
                   (Demo.viewing Demo.settings)))
     = [SetAttribute "margin" "88px"; SetAttribute "gap" "5%"].
Proof.
  split.
  - destruct (margin_and_gap_follow_compact_mode Demo.props Demo.pad
                Demo.compact_scrolled (Demo.openView "A" (Some Demo.paginator))
                Demo.paginator (Demo.viewing Demo.compact_scrolled))
      as (Hcompact & _ & _); [vm_compute; reflexivity | reflexivity | reflexivity |].
    rewrite Hcompact; [vm_compute; reflexivity | split; reflexivity].
  - destruct (margin_and_gap_follow_compact_mode Demo.props Demo.pad
                Demo.settings (Demo.openView "A" (Some Demo.paginator))
                Demo.paginator (Demo.viewing Demo.settings))
      as (_ & Hstandard & _); [vm_compute; reflexivity | reflexivity | reflexivity |].
    rewrite Hstandard; [vm_compute; reflexivity | left; reflexivity].
Defined.

(** *** Writing direction at open time *)

Section Direction.
Context `{Collaborators} (props : Props) (host : Host).

Lemma resolveDirection_dir vs w :
  bookDoc_dir (fst (resolveDirection props vs w)) =
  if str_truthy (writingMode vs) then
    if negb (bool_decide (getBookDirFromWritingMode (writingMode vs) = "auto"))
    then getBookDirFromWritingMode (writingMode vs)
    else if negb (bool_decide (getBookDirFromLanguage (language props) = "auto"))
         then getBookDirFromLanguage (language props)
         else bookDoc_dir w
  else bookDoc_dir w.
Proof.
  unfold resolveDirection. cbv zeta.
  destruct (str_truthy _); [|reflexivity].
  destruct (negb (bool_decide (getBookDirFromWritingMode _ = _))); [reflexivity|].
  destruct (negb (bool_decide (getBookDirFromLanguage _ = _))); reflexivity.
Qed.

Lemma resolveDirection_frame vs w :
  snd (resolveDirection props vs w) = Fulfilled tt
  /\ trace (fst (resolveDirection props vs w)) = trace w.
Proof.
  unfold resolveDirection. cbv zeta.
  destruct (str_truthy _); [|split; reflexivity].
  destruct (negb (bool_decide (getBookDirFromWritingMode _ = _)));
    [split; reflexivity|].
  destruct (negb (bool_decide (getBookDirFromLanguage _ = _))); split; reflexivity.
Qed.

Lemma openBook_create_dir vs w :
  getViewSettings (bookKey props) w = Some vs ->
  bookDoc_dir (fst (openBook_create props host w))
  = bookDoc_dir (fst (resolveDirection props vs w)).
Proof.
  intros Hvs. rewrite !resolveDirection_dir.
  unfold openBook_create. cbv zeta.
  destruct (containerRect host) as [[cw ch]|]; eff; rewrite Hvs; eff;
    match goal with
    | |- context [resolveDirection props vs ?w0] =>
        pose proof (resolveDirection_dir vs w0) as Hdir;
        pose proof (resolveDirection_frame vs w0) as [Hok _];
        destruct (resolveDirection props vs w0) as [w1 [[]|e]];
        cbn [fst snd] in *; [|discriminate Hok]
    end; eff; exact Hdir.
Qed.

(** C4. When [openBook] reaches the direction step with settings whose
    writing mode is specified: if the writing mode maps to a direction
    other than auto, that direction is written to [bookDoc.dir];
    otherwise, if the language maps to a direction other than auto, that
    one is written; otherwise [bookDoc.dir] keeps its value. *)
Theorem direction_follows_writing_mode_then_language (vs : ViewSettings) (w : World) :
  getViewSettings (bookKey props) w = Some vs ->
  str_truthy (writingMode vs) = true ->
  (getBookDirFromWritingMode (writingMode vs) <> "auto" ->
   bookDoc_dir (fst (openBook_create props host w))
   = getBookDirFromWritingMode (writingMode vs))
  /\ (getBookDirFromWritingMode (writingMode vs) = "auto" ->
      getBookDirFromLanguage (language props) <> "auto" ->
      bookDoc_dir (fst (openBook_create props host w))
      = getBookDirFromLanguage (language props))
  /\ (getBookDirFromWritingMode (writingMode vs) = "auto" ->
      getBookDirFromLanguage (language props) = "auto" ->
      bookDoc_dir (fst (openBook_create props host w)) = bookDoc_dir w).
Proof.
  intros Hvs Hwm.
  rewrite (openBook_create_dir vs w Hvs), resolveDirection_dir, Hwm.
  split; [|split].
  - intros Hs. rewrite (bool_decide_eq_false_2 _ Hs). reflexivity.
  - intros Hs Hl.
    rewrite (bool_decide_eq_true_2 _ Hs), (bool_decide_eq_false_2 _ Hl).
    reflexivity.
  - intros Hs Hl.
    rewrite (bool_decide_eq_true_2 _ Hs), (bool_decide_eq_true_2 _ Hl).
    reflexivity.
Qed.

End Direction.

(** C4 for an Arabic book: a horizontal-tb writing mode wins over the
    language with ltr; with writing mode auto the language gives rtl. *)
Lemma direction_follows_writing_mode_then_language_witness :
  bookDoc_dir (fst (openBook_create Demo.props Demo.host
                      (Demo.viewing Demo.compact_scrolled))) = "ltr"
  /\ bookDoc_dir (fst (openBook_create Demo.props Demo.host Demo.reader)) = "rtl".
Proof.
  split.
  - destruct (direction_follows_writing_mode_then_language Demo.props Demo.host
                Demo.compact_scrolled (Demo.viewing Demo.compact_scrolled))
      as (Hmode & _ & _); [vm_compute; reflexivity | reflexivity |].
    rewrite Hmode; [reflexivity | discriminate].
  - destruct (direction_follows_writing_mode_then_language Demo.props Demo.host
                Demo.settings Demo.reader)
      as (_ & Hlang & _); [vm_compute; reflexivity | reflexivity |].
    rewrite Hlang; [reflexivity | reflexivity | discriminate].
Defined.

(** *** The two settings effects *)

Section Effects.
Context `{Collaborators} (props : Props).

Lemma bind_ret_r (m : Eff unit) w : bind m (fun _ => ret tt) w = m w.
Proof. unfold bind. destruct (m w) as [w' [[]|e]]; reflexivity. Qed.

Lemma marginGapFlow_not_style o : isMarginGapFlow o = true -> isStyleOp o = false.
Proof. destruct o; simpl; intros; reflexivity || discriminate. Qed.

Lemma style_not_attribute o : isStyleOp o = true -> isAttributeOp o = false.
Proof. destruct o; simpl; intros; reflexivity || discriminate. Qed.

(** C6. A re-render in which only dependencies of the margin effect
    changed (padding, header and footer visibility, margins, gaps) runs
    the margin effect alone: every call it makes writes the margin, gap or
    flow attribute, no style is computed or set, and with a view, a
    renderer and settings at hand the calls are those of
    [applyMarginAndGap].  A re-render in which only the theme code or the
    dark-mode flag changed runs the style effect alone: every call it
    makes computes or sets styles, no attribute is written, and with a
    view and a renderer at hand the calls are those of [setStyles]. *)
Theorem settings_effects_are_separate (prev next : Render) (w : World) :
  (styleDeps prev = styleDeps next ->
   marginDeps prev <> marginDeps next ->
   rerender props prev next w = marginEffect props next w
   /\ (exists ops,
         trace (fst (rerender props prev next w)) = trace w ++ ops
         /\ forallb isMarginGapFlow ops = true
         /\ count isStyleOp ops = 0%nat)
   /\ (forall v r,
         viewRef w = Some v -> renderer v = Some r ->
         is_Some (viewSettings next) ->
         rerender props prev next w
         = applyMarginAndGap props (render_padding next) w))
  /\ (marginDeps prev = marginDeps next ->
      styleDeps prev <> styleDeps next ->
      rerender props prev next w = styleEffect props w
      /\ (exists ops,
            trace (fst (rerender props prev next w)) = trace w ++ ops
            /\ forallb isStyleOp ops = true
            /\ count isAttributeOp ops = 0%nat)
      /\ (forall v r,
            viewRef w = Some v -> renderer v = Some r ->
            rerender props prev next w
            = setStyles r (getViewSettings (bookKey props) w) w)).
Proof.
  split.
  - intros Hstyle Hmargin.
    assert (rerender props prev next w = marginEffect props next w) as Hrun.
    { unfold rerender.
      rewrite (bool_decide_eq_true_2 _ Hstyle), (bool_decide_eq_false_2 _ Hmargin).
      reflexivity. }
    rewrite Hrun. split; [reflexivity|]. split.
    + destruct (steady_marginEffect props isMarginGapFlow next (fun _ Ho => Ho) w)
        as (_ & _ & _ & _ & ops & Ht & Hops).
      exists ops. repeat split; try assumption.
      apply (count_none _ isMarginGapFlow); [apply marginGapFlow_not_style | exact Hops].
    + intros v r Hv Hr [vs Hvs]. unfold marginEffect. eff.
      rewrite Hv. cbn [mbind option_bind]. rewrite Hr, Hvs. reflexivity.
  - intros Hmargin Hstyle.
    assert (rerender props prev next w = styleEffect props w) as Hrun.
    { unfold rerender.
      rewrite (bool_decide_eq_false_2 _ Hstyle), (bool_decide_eq_true_2 _ Hmargin).
      apply bind_ret_r. }
    rewrite Hrun. split; [reflexivity|]. split.
    + destruct (steady_styleEffect props isStyleOp (fun _ Ho => Ho) w)
        as (_ & _ & _ & _ & ops & Ht & Hops).
      exists ops. repeat split; try assumption.
      apply (count_none _ isStyleOp); [apply style_not_attribute | exact Hops].
    + intros v r Hv Hr. unfold styleEffect. eff.
      rewrite Hv. cbn [mbind option_bind]. rewrite Hr. reflexivity.
Qed.

End Effects.

(** C6 on the demo reader: turning the header and footer off rewrites
    margin, gap and flow; switching to dark mode restyles. *)
Lemma settings_effects_are_separate_witness :
  trace (fst (rerender Demo.props Demo.light Demo.compacted
                (Demo.viewing Demo.compact_scrolled)))
    = [SetAttribute "margin" "60px"; SetAttribute "gap" "3%";
       SetAttribute "flow" "scrolled"]
  /\ trace (fst (rerender Demo.props Demo.light Demo.dark
                   (Demo.viewing Demo.settings)))
     = [GetStyles (Some Demo.settings); SetStyles "body{}"].
Proof.
  split.
  - destruct (settings_effects_are_separate Demo.props Demo.light Demo.compacted
                (Demo.viewing Demo.compact_scrolled)) as [Hmargin _].
    destruct Hmargin as (_ & _ & Happly); [reflexivity | discriminate |].
    rewrite (Happly _ Demo.paginator eq_refl eq_refl (ex_intro _ _ eq_refl)).
    vm_compute. reflexivity.
  - destruct (settings_effects_are_separate Demo.props Demo.light Demo.dark
                (Demo.viewing Demo.settings)) as [_ Hstyle].
    destruct Hstyle as (_ & _ & Happly); [reflexivity | discriminate |].
    rewrite (Happly _ Demo.paginator eq_refl eq_refl).
    vm_compute. reflexivity.
Defined.

(** *** The life of the widget *)

Section Lifecycle.
Context `{Collaborators} (props : Props) (host : Host).

(** **** Facts about traces *)

Lemma routine_not_create o : routine o = true -> isCreateElement o = false.
Proof. destruct o; simpl; intros; reflexivity || discriminate. Qed.

Lemma routine_not_start o : routine o = true -> isOpenBookStart o = false.
Proof. destruct o; simpl; intros; reflexivity || discriminate. Qed.

Lemma routine_not_publish o : routine o = true -> isPublish o = false.
Proof. destruct o; simpl; intros; reflexivity || discriminate. Qed.

Lemma publishedAfterOpen_app seen t1 t2 :
  publishedAfterOpen seen (t1 ++ t2)
  = publishedAfterOpen seen t1
    && publishedAfterOpen (seen || existsb isOpenResolved t1) t2.
Proof.
  revert seen. induction t1 as [|o t1 IH]; intros seen; simpl.
  - rewrite orb_false_r. reflexivity.
  - rewrite IH, orb_assoc, andb_assoc. reflexivity.
Qed.

Lemma publishedAfterOpen_routine seen ops :
  forallb routine ops = true -> publishedAfterOpen seen ops = true.
Proof.
  revert seen. induction ops as [|o ops IH]; intros seen Hops; simpl in *.
  - reflexivity.
  - apply andb_true_iff in Hops as [Ho Hops].
    rewrite (routine_not_publish o Ho), IH by assumption. reflexivity.
Qed.

(** The scan says what it is meant to say. *)
Lemma publishedAfterOpen_sound t :
  publishedAfterOpen false t = true ->
  forall pre o post,
    t = pre ++ o :: post -> isPublish o = true ->
    exists o', o' ∈ pre /\ isOpenResolved o' = true.
Proof.
  intros Hscan pre o post -> Ho.
  rewrite publishedAfterOpen_app in Hscan.
  apply andb_true_iff in Hscan as [_ Hscan]. simpl in Hscan.
  rewrite Ho in Hscan. apply andb_true_iff in Hscan as [Hseen _].
  apply existsb_exists in Hseen as (o' & Hin & Ho').
  exists o'. split; [apply list_elem_of_In, Hin | exact Ho'].
Qed.

(** **** The pieces of openBook *)

Lemma lands_ret st : st <> AwaitImport -> lands (ret st).
Proof. intros Hst w. simpl. congruence. Qed.

Lemma lands_throw e : lands (throw e).
Proof. intros w. simpl. discriminate. Qed.

Lemma lands_bind {A} (m : Eff A) (k : A -> Eff Stage) :
  (forall a, lands (k a)) -> lands (bind m k).
Proof.
  intros Hk w. unfold bind. destruct (m w) as [w' [a|e]]; simpl.
  - apply Hk.
  - discriminate.
Qed.

Lemma steady_openBook_configure view vs :
  steady routine (openBook_configure props view vs).
Proof.
  unfold openBook_configure, rendererSetAttribute, rendererRemoveAttribute.
  repeat first [ apply steady_applyMarginAndGap, marginGapFlow_routine
               | steady_step ].
Qed.

Lemma lands_openBook_configure view vs :
  lands (openBook_configure props view vs).
Proof.
  unfold openBook_configure.
  repeat (apply lands_bind; intros ?). apply lands_ret. discriminate.
Qed.


Lemma openBook_create_summary w :
  isViewCreated (fst (openBook_create props host w)) = isViewCreated w
  /\ viewRef (fst (openBook_create props host w)) = viewRef w
  /\ views (fst (openBook_create props host w)) = views w
  /\ tasks (fst (openBook_create props host w)) = tasks w
  /\ exists ops,
       trace (fst (openBook_create props host w))
       = trace w ++ CreateElement "foliate-view"
                      ("foliate-view-" +:+ bookKey props) :: ops
       /\ forallb routine ops = true.
Proof.
  unfold openBook_create. cbv zeta. rewrite bind_emit. cbv beta.
  match goal with
  | |- context [fst (?m ?w0)] =>
      assert (steady routine m) as Hrest
        by (unfold resolveDirection; steady);
      destruct (Hrest w0) as (E1 & E2 & E3 & E4 & ops & Et & Hops)
  end.
  rewrite E1, E2, E3, E4, Et. repeat split.
  exists ops. cbn [trace set_trace view_id]. rewrite <- app_assoc.
  split; [reflexivity | exact Hops].
Qed.

Lemma lands_openBook_create : lands (openBook_create props host).
Proof.
  unfold openBook_create. cbv zeta.
  repeat (apply lands_bind; intros ?).
  destruct (getViewSettings _ _); [|apply lands_throw].
  repeat (apply lands_bind; intros ?). apply lands_ret. discriminate.
Qed.

Lemma openBook_publish_summary view0 width height vs w :
  let view := {| view_id := view_id view0; opened := true;
                 renderer := widget_renderer host;
                 transformTarget := widget_transformTarget host |} in
  let w' := fst (openBook_publish props host view0 width height vs w) in
  isViewCreated w' = isViewCreated w
  /\ viewRef w' = Some view
  /\ views w' = <[bookKey props := view]> (views w)
  /\ tasks w' = tasks w
  /\ exists ops,
       trace w' = trace w ++ OpenResolved (view_id view0)
                    :: SetViewRef (view_id view0)
                    :: SetFoliateView (bookKey props) (view_id view0) :: ops
       /\ forallb routine ops = true.
Proof.
  intros view w'. subst w'. unfold openBook_publish. cbv zeta. fold view.
  rewrite bind_emit. cbv beta. rewrite bind_emit. cbv beta.
  rewrite bind_modify. cbv beta.
  unfold setFoliateView. rewrite bind_assoc, bind_emit. cbv beta.
  rewrite bind_modify. cbv beta.
  match goal with
  | |- context [fst (?m ?w0)] =>
      assert (steady routine m) as Hrest
        by (unfold setStyles;
            repeat first [ apply steady_openBook_configure | steady_step ]);
      destruct (Hrest w0) as (E1 & E2 & E3 & E4 & ops & Et & Hops)
  end.
  rewrite E1, E2, E3, E4, Et. repeat split.
  exists ops. cbn [trace set_trace set_views set_viewRef view_id].
  rewrite <- !app_assoc. split; [reflexivity | exact Hops].
Qed.

Lemma lands_openBook_publish view0 width height vs :
  lands (openBook_publish props host view0 width height vs).
Proof.
  unfold openBook_publish. cbv zeta.
  repeat (apply lands_bind; intros ?).
  destruct (isMobileApp host).
  - repeat (apply lands_bind; intros ?). apply lands_ret. discriminate.
  - apply lands_openBook_configure.
Qed.

(** Resuming a suspended call: what it does to the world, whatever the
    stage and the outcome. *)
Lemma resume_summary st o w :
  isViewCreated (fst (resume props host st o w)) = isViewCreated w
  /\ tasks (fst (resume props host st o w)) = tasks w
  /\ snd (resume props host st o w) <> Fulfilled AwaitImport
  /\ exists ops,
       trace (fst (resume props host st o w)) = trace w ++ ops
       /\ count isOpenBookStart ops = 0
       /\ count isCreateElement ops = creates st o
       /\ (forall seen, publishedAfterOpen seen ops = true)
       /\ ((views (fst (resume props host st o w)) = views w
            /\ viewRef (fst (resume props host st o w)) = viewRef w)
           \/ (exists v,
                 opened v = true
                 /\ views (fst (resume props host st o w))
                    = <[bookKey props := v]> (views w)
                 /\ viewRef (fst (resume props host st o w)) = Some v
                 /\ existsb isOpenResolved ops = true)).
Proof.
  assert (forall (m : Eff Stage), steady routine m -> lands m ->
            creates st o = 0 ->
            isViewCreated (fst (m w)) = isViewCreated w
            /\ tasks (fst (m w)) = tasks w
            /\ snd (m w) <> Fulfilled AwaitImport
            /\ exists ops,
                 trace (fst (m w)) = trace w ++ ops
                 /\ count isOpenBookStart ops = 0
                 /\ count isCreateElement ops = creates st o
                 /\ (forall seen, publishedAfterOpen seen ops = true)
                 /\ ((views (fst (m w)) = views w
                      /\ viewRef (fst (m w)) = viewRef w)
                     \/ (exists v,
                           opened v = true
                           /\ views (fst (m w)) = <[bookKey props := v]> (views w)
                           /\ viewRef (fst (m w)) = Some v
                           /\ existsb isOpenResolved ops = true))) as Hquiet.
  { intros m Hm Hl Hc.
    destruct (Hm w) as (E1 & E2 & E3 & E4 & ops & Et & Hops).
    repeat split; try assumption; [apply Hl|].
    exists ops. rewrite Hc. repeat split; try assumption.
    - apply (count_none _ routine); [apply routine_not_start | exact Hops].
    - apply (count_none _ routine); [apply routine_not_create | exact Hops].
    - intros seen. apply publishedAfterOpen_routine, Hops.
    - left. split; assumption. }
  destruct st as [|view width height vs|view vs| | |e0], o as [[]|e];
    cbn [resume];
    try (apply Hquiet;
         [ first [apply steady_ret | apply steady_throw]
         | first [apply lands_ret; discriminate | apply lands_throw]
         | reflexivity ]).
  - (* the import came through *)
    destruct (openBook_create_summary w) as (E1 & E2 & E3 & E4 & ops & Et & Hops).
    repeat split; try assumption; [apply lands_openBook_create|].
    eexists. split; [exact Et|]. repeat split.
    + change (count isOpenBookStart (?o :: ?l)) with (count isOpenBookStart l).
      apply (count_none _ routine); [apply routine_not_start | exact Hops].
    + change (count isCreateElement (?o :: ?l)) with (S (count isCreateElement l)).
      rewrite (count_none _ routine); [reflexivity | apply routine_not_create | exact Hops].
    + intros seen. simpl. apply publishedAfterOpen_routine, Hops.
    + left. split; assumption.
  - (* open resolved *)
    destruct (openBook_publish_summary view width height vs w)
      as (E1 & E2 & E3 & E4 & ops & Et & Hops).
    repeat split; try assumption; [apply lands_openBook_publish|].
    eexists. split; [exact Et|]. repeat split.
    + change (count isOpenBookStart (_ :: _ :: _ :: ops))
        with (count isOpenBookStart ops).
      apply (count_none _ routine); [apply routine_not_start | exact Hops].
    + change (count isCreateElement (_ :: _ :: _ :: ops))
        with (count isCreateElement ops).
      apply (count_none _ routine); [apply routine_not_create | exact Hops].
    + intros seen. simpl. rewrite orb_true_r. simpl.
      apply publishedAfterOpen_routine, Hops.
    + right. eexists. split; [|split; [exact E3|split; [exact E2|reflexivity]]].
      reflexivity.
  - (* the orientation lock came through *)
    apply Hquiet;
      [apply steady_openBook_configure | apply lands_openBook_configure | reflexivity].
Qed.

(** **** Steps of the event loop *)

Lemma advance_fst (m : Eff Stage) w : fst (advance m w) = fst (m w).
Proof. unfold advance. destruct (m w) as [w' [st|e]]; reflexivity. Qed.

Lemma advance_snd (m : Eff Stage) w :
  snd (m w) <> Fulfilled AwaitImport -> snd (advance m w) <> AwaitImport.
Proof.
  unfold advance. destruct (m w) as [w' [st|e]]; simpl; congruence.
Qed.

Lemma settleTask_run i o w st :
  tasks w !! i = Some st ->
  settleTask props host i o w
  = set_tasks (<[i := snd (advance (resume props host st o) w)]>
                 (tasks (fst (resume props host st o w))))
      (fst (resume props host st o w)).
Proof.
  intros Hst. unfold settleTask. rewrite Hst.
  rewrite <- (advance_fst (resume props host st o) w).
  destruct (advance _ w) as [w' st']. reflexivity.
Qed.

Lemma mountEffect_run w :
  isViewCreated w = false ->
  mountEffect props w
  = set_tasks (tasks w ++ [AwaitImport])
      (set_trace (trace w ++ [ConsoleLog ("Opening book " +:+ bookKey props);
                              ImportModule "foliate-js/view.js"])
         (set_isViewCreated true w)).
Proof.
  intros Hflag. unfold mountEffect. rewrite Hflag.
  unfold advance, openBook_start. eff. rewrite <- app_assoc. reflexivity.
Qed.

Lemma latched_keeps w w' ops :
  isViewCreated w' = isViewCreated w ->
  tasks w' = tasks w ->
  trace w' = trace w ++ ops ->
  count isOpenBookStart ops = 0 ->
  count isCreateElement ops = 0 ->
  latched w -> latched w'.
Proof.
  intros Ef Ets Et Hs Hc. unfold latched.
  rewrite Ef, Ets, Et, !count_app, Hs, Hc, !Nat.add_0_r. auto.
Qed.

Lemma publishedOpened_keeps key w w' ops :
  views w' = views w ->
  viewRef w' = viewRef w ->
  trace w' = trace w ++ ops ->
  (forall seen, publishedAfterOpen seen ops = true) ->
  publishedOpened key w -> publishedOpened key w'.
Proof.
  intros Ev Er Et Hops (Hscan & Hreg & Href). unfold publishedOpened.
  rewrite Ev, Er, Et, publishedAfterOpen_app, Hscan, Hops, existsb_app.
  split; [reflexivity|]. split.
  - intros v Hv. destruct (Hreg v Hv) as [Ho Hs]. rewrite Ho, Hs. auto.
  - intros v Hv. destruct (Href v Hv) as [Ho Hs]. rewrite Ho, Hs. auto.
Qed.

Lemma steady_latched {A} (m : Eff A) w :
  steady routine m -> latched w -> latched (exec m w).
Proof.
  intros Hm. destruct (Hm w) as (E1 & _ & _ & E4 & ops & Et & Hops).
  apply (latched_keeps w _ ops E1 E4 Et).
  - apply (count_none _ routine); [apply routine_not_start | exact Hops].
  - apply (count_none _ routine); [apply routine_not_create | exact Hops].
Qed.

Lemma steady_publishedOpened {A} (m : Eff A) key w :
  steady routine m -> publishedOpened key w -> publishedOpened key (exec m w).
Proof.
  intros Hm. destruct (Hm w) as (_ & E2 & E3 & _ & ops & Et & Hops).
  apply (publishedOpened_keeps key w _ ops E3 E2 Et).
  intros seen. apply publishedAfterOpen_routine, Hops.
Qed.

Lemma step_latched w ev : latched w -> latched (step props host w ev).
Proof.
  intros Hw. destruct ev as [|i o|d|d|d|prev next|m]; cbn [step].
  - (* the mount effect *)
    destruct (isViewCreated w) eqn:Hflag.
    + unfold mountEffect. rewrite Hflag. exact Hw.
    + rewrite (mountEffect_run w Hflag).
      unfold latched in *. rewrite Hflag in Hw. destruct Hw as (Hts & Hs & Hc).
      cbn [isViewCreated tasks trace set_tasks set_trace set_isViewCreated].
      rewrite Hts, !count_app, Hs, Hc, !count_cons. exists AwaitImport.
      repeat split; try reflexivity. cbn. lia.
  - (* a promise settles *)
    destruct (tasks w !! i) as [st|] eqn:Hst;
      [|unfold settleTask; rewrite Hst; exact Hw].
    rewrite (settleTask_run i o w st Hst).
    destruct (resume_summary st o w)
      as (Ef & Ets & Hland & ops & Et & Hs & Hc & _ & _).
    unfold latched in *.
    cbn [isViewCreated tasks trace set_tasks]. rewrite Ef, Ets, Et.
    destruct (isViewCreated w).
    + destruct Hw as (st0 & Hts & Hs0 & Hle & Hc0).
      rewrite Hts in Hst |- *. destruct i as [|i]; [|discriminate Hst].
      injection Hst as ->.
      eexists. split; [reflexivity|].
      rewrite !count_app, Hs, Hc, Hs0. split; [lia|]. split.
      * unfold creates. destruct st; try lia.
        destruct o; [rewrite Hc0 by reflexivity|]; lia.
      * intros Hback. exfalso. revert Hback.
        apply advance_snd, Hland.
    + destruct Hw as (Hts & _). rewrite Hts in Hst. discriminate Hst.
  - apply steady_latched; [apply steady_progressRelocateHandler | exact Hw].
  - apply steady_latched; [apply steady_docRelocateHandler | exact Hw].
  - apply steady_latched; [apply steady_dispatchData | exact Hw].
  - apply steady_latched; [apply steady_rerender | exact Hw].
  - apply steady_latched; [apply steady_set_settings | exact Hw].
Qed.

Lemma step_publishedOpened w ev :
  publishedOpened (bookKey props) w ->
  publishedOpened (bookKey props) (step props host w ev).
Proof.
  intros Hw. destruct ev as [|i o|d|d|d|prev next|m]; cbn [step].
  - (* the mount effect *)
    destruct (isViewCreated w) eqn:Hflag.
    + unfold mountEffect. rewrite Hflag. exact Hw.
    + rewrite (mountEffect_run w Hflag).
      apply (publishedOpened_keeps _ w _
               [ConsoleLog ("Opening book " +:+ bookKey props);
                ImportModule "foliate-js/view.js"]);
        [reflexivity | reflexivity | reflexivity
        | intros seen; reflexivity | exact Hw].
  - (* a promise settles *)
    destruct (tasks w !! i) as [st|] eqn:Hst;
      [|unfold settleTask; rewrite Hst; exact Hw].
    rewrite (settleTask_run i o w st Hst).
    destruct (resume_summary st o w)
      as (_ & _ & _ & ops & Et & _ & _ & Hscan & [[Ev Er]|(v & Hv & Ev & Er & Hres)]).
    + eapply (publishedOpened_keeps _ w); [exact Ev | exact Er | exact Et | exact Hscan | exact Hw].
    + destruct Hw as (Hw & _). unfold publishedOpened.
      cbn [views viewRef trace set_tasks].
      rewrite Ev, Er, Et, publishedAfterOpen_app, Hw, Hscan, existsb_app, Hres,
        orb_true_r.
      split; [reflexivity|]. split.
      * intros v'. rewrite lookup_insert_eq. intros [= <-]. auto.
      * intros v' [= <-]. auto.
  - apply steady_publishedOpened; [apply steady_progressRelocateHandler | exact Hw].
  - apply steady_publishedOpened; [apply steady_docRelocateHandler | exact Hw].
  - apply steady_publishedOpened; [apply steady_dispatchData | exact Hw].
  - apply steady_publishedOpened; [apply steady_rerender | exact Hw].
  - apply steady_publishedOpened; [apply steady_set_settings | exact Hw].
Qed.

Lemma run_invariant (I : World -> Prop) :
  (forall w ev, I w -> I (step props host w ev)) ->
  forall evs w, I w -> I (run props host evs w).
Proof.
  intros Hstep evs. induction evs as [|ev evs IH]; intros w Hw.
  - exact Hw.
  - apply IH, Hstep, Hw.
Qed.

(** C1. Whatever events reach a component instance and in whatever
    order (the mount effect fired any number of times, promises settling
    either way, widget events, re-renders), [openBook] is started at most
    once, at most one [openBook] call exists, and the foliate-view element
    is created at most once. *)
Theorem widget_constructed_at_most_once (evs : list Event)
    (vws : gmap string View) (settings : gmap string ViewSettings)
    (groups : gmap string (list string)) (dir : string) :
  count isOpenBookStart
    (trace (run props host evs (mounted vws settings groups dir))) <= 1
  /\ length (tasks (run props host evs (mounted vws settings groups dir))) <= 1
  /\ count isCreateElement
       (trace (run props host evs (mounted vws settings groups dir))) <= 1.
Proof.
  assert (latched (run props host evs (mounted vws settings groups dir)))
    as Hrun.
  { apply run_invariant; [apply step_latched|]. repeat split. }
  unfold latched in Hrun. destruct (isViewCreated _).
  - destruct Hrun as (st & -> & -> & Hle & _). simpl. lia.
  - destruct Hrun as (-> & -> & ->). simpl. lia.
Qed.

(** C5. In every state a component instance can reach from a registry
    that has no entry for its book key, a view found in the registry under
    that key, or in the local reference, is one on which [open] has
    resolved; and in the trace every publication (the write to the local
    reference and the write to the registry) comes after an [open] has
    resolved. *)
Theorem view_published_only_after_open (evs : list Event)
    (vws : gmap string View) (settings : gmap string ViewSettings)
    (groups : gmap string (list string)) (dir : string) :
  vws !! bookKey props = None ->
  (forall v,
     views (run props host evs (mounted vws settings groups dir))
       !! bookKey props = Some v ->
     opened v = true)
  /\ (forall v,
        viewRef (run props host evs (mounted vws settings groups dir)) = Some v ->
        opened v = true)
  /\ (forall pre o post,
        trace (run props host evs (mounted vws settings groups dir))
          = pre ++ o :: post ->
        isPublish o = true ->
        exists o', o' ∈ pre /\ isOpenResolved o' = true).
Proof.
  intros Hfresh.
  assert (publishedOpened (bookKey props)
            (run props host evs (mounted vws settings groups dir)))
    as (Hscan & Hreg & Href).
  { apply run_invariant; [apply step_publishedOpened|].
    split; [reflexivity|]. split.
    - intros v Hv. simpl in Hv. congruence.
    - intros v Hv. discriminate Hv. }
  split; [|split].
  - intros v Hv. apply (Hreg v Hv).
  - intros v Hv. apply (Href v Hv).
  - apply publishedAfterOpen_sound, Hscan.
Qed.

End Lifecycle.

(** C1 at work: the mount effect fires three times, one element is made. *)
Example triple_mount_creates_one_element :
  count isCreateElement
    (trace (run Demo.props Demo.host Demo.opening Demo.reader)) = 1
  /\ tasks (run Demo.props Demo.host Demo.opening Demo.reader)
     = [AwaitLock (Demo.openView "A" (Some Demo.paginator)) Demo.settings].
Proof. split; vm_compute; reflexivity. Qed.

(** C5 on the demo reader: A is absent from the registry at mount, and
    what the registry holds for A after the book has opened is an opened
    view. *)
Lemma view_published_only_after_open_witness :
  views Demo.reader !! "A" = None
  /\ opened <$> views (run Demo.props Demo.host Demo.opening Demo.reader) !! "A"
     = Some true.
Proof.
  split; [reflexivity|].
  destruct (views (run Demo.props Demo.host Demo.opening Demo.reader) !! "A")
    as [v|] eqn:Hv.
  - simpl. f_equal.
    apply (view_published_only_after_open Demo.props Demo.host Demo.opening
             {[ "B" := Demo.openView "B" (Some Demo.paginator);
                "C" := Demo.openView "C" (Some Demo.bare);
                "D" := Demo.openView "D" None ]}
             {[ "A" := Demo.settings ]}
             {[ "A" := ["A"; "B"; "C"; "D"; "E"] ]} "auto");
      [reflexivity | exact Hv].
  - vm_compute in Hv. discriminate Hv.
Defined.


(** * Beyond the claims *)

(** *** More on the content transform hook *)

Lemma count_nil {A} (p : A -> bool) : count p [] = 0.
Proof. reflexivity. Qed.

Lemma filter_none {A} (P : A -> Prop) `{!forall x, Decision (P x)} (l : list A) :
  (forall x, x ∈ l -> ~ P x) -> filter P l = [].
Proof.
  induction l as [|x l IH]; intros Hall; [reflexivity|].
  rewrite filter_cons, decide_False by (apply Hall; left).
  apply IH. intros y Hy. apply Hall. right. exact Hy.
Qed.

Section TransformMore.
Context `{Collaborators} (props : Props).

(** X1. When the payload promise itself rejects, no transform is called:
    the handler logs the failure with the resource name and the rejection
    as cause, and delivers the empty string, whatever the type and
    whether or not settings exist. *)
Theorem rejected_payload_degrades_to_empty (width height : num)
    (detail : DataDetail) (e : exn) (w : World) :
  data detail = Rejected e ->
  getDocTransformHandler props width height detail w
  = (set_trace
       (trace w ++ [ConsoleError ("Failed to load " +:+ name detail) e]) w,
     Fulfilled "").
Proof.
  intros Hd. unfold getDocTransformHandler, docTransform. eff.
  rewrite Hd. reflexivity.
Qed.

(** X2. The hook touches nothing but the trace: refs, registry, settings,
    groups, [bookDoc.dir] and the [openBook] calls are as before, and it
    makes at most two calls, of which at most one is a transform. *)
Theorem transform_hook_only_extends_trace (width height : num)
    (detail : DataDetail) (w : World) :
  exists ops,
    fst (getDocTransformHandler props width height detail w)
    = set_trace (trace w ++ ops) w
    /\ count isTransformCall ops <= 1
    /\ length ops <= 2.
Proof.
  unfold getDocTransformHandler, docTransform. eff.
  destruct (data detail) as [d|e]; eff.
  - destruct (viewSettingsStore w !! bookKey props) as [vs|];
      destruct (bool_decide (type detail = "text/css"));
      destruct (bool_decide (type detail = "application/xhtml+xml")); eff;
      try (exists []; rewrite app_nil_r, set_trace_id, count_nil;
           repeat split; cbn; lia);
      match goal with
      | |- context [match ?r with Fulfilled _ => _ | Rejected _ => _ end] =>
          destruct r
      end; eff;
      (eexists [_] + eexists [_; _]);
      rewrite <- ?app_assoc; (split; [reflexivity|]);
      rewrite ?count_cons, ?count_nil; cbn; lia.
  - exists [ConsoleError ("Failed to load " +:+ name detail) e].
    rewrite ?count_cons, ?count_nil. repeat split; cbn; lia.
Qed.

End TransformMore.

(** X1 on a stylesheet whose download failed. *)
Lemma rejected_payload_degrades_to_empty_witness :
  getDocTransformHandler Demo.props 800%Z 600%Z Sample.broken Demo.reader
  = (set_trace [ConsoleError "Failed to load style.css" (Thrown "network")]
       Demo.reader,
     Fulfilled "").
Proof.
  apply (rejected_payload_degrades_to_empty Demo.props 800%Z 600%Z
           Sample.broken (Thrown "network") Demo.reader).
  reflexivity.
Defined.

(** *** More on renderer relocation *)

Section RelocateMore.
Context `{Collaborators} (props : Props).

Lemma relocate_calls_filter (detail : RendererRelocateDetail) (w : World)
    (group : list string) :
  flat_map (fun key =>
    if negb (bool_decide (key = bookKey props)) && canGoTo key w
    then [RendererGoTo key (index detail) (fraction detail)]
    else []) group
  = (fun key => RendererGoTo key (index detail) (fraction detail))
    <$> filter (fun key => key <> bookKey props /\ canGoTo key w = true) group.
Proof.
  induction group as [|k ks IH]; [reflexivity|].
  cbn [flat_map]. rewrite filter_cons, IH.
  destruct (decide (k <> bookKey props /\ canGoTo k w = true)) as [[Hk Hc]|Hno].
  - rewrite (bool_decide_eq_false_2 _ Hk), Hc. reflexivity.
  - destruct (bool_decide (k = bookKey props)) eqn:Hk; [reflexivity|].
    destruct (canGoTo k w) eqn:Hc; [|reflexivity].
    exfalso. apply Hno. split; [|reflexivity].
    intros Heq. rewrite (bool_decide_eq_true_2 _ Heq) in Hk. discriminate.
Qed.

Lemma docRelocateHandler_run (detail : RendererRelocateDetail) (w : World)
    (group : list string) :
  reason detail = "scroll" \/ reason detail = "page" ->
  getParallels (bookKey props) w = Some group ->
  docRelocateHandler props detail w
  = (set_trace
       (trace w ++
        ((fun key => RendererGoTo key (index detail) (fraction detail))
         <$> filter (fun key => key <> bookKey props /\ canGoTo key w = true)
               group)) w,
     Fulfilled tt).
Proof.
  intros Hreason Hgroup. rewrite <- relocate_calls_filter.
  unfold docRelocateHandler.
  assert (negb (bool_decide (reason detail = "scroll"))
          && negb (bool_decide (reason detail = "page")) = false) as ->.
  { destruct Hreason as [Hr|Hr]; rewrite (bool_decide_eq_true_2 _ Hr);
      [reflexivity | apply andb_false_r]. }
  unfold bind at 1, get at 1. rewrite Hgroup.
  destruct group as [|k ks].
  - simpl. rewrite app_nil_r, set_trace_id. reflexivity.
  - change (0 <? length (k :: ks))%nat with true. cbv iota.
    apply relocate_loop.
Qed.

(** X3. With nothing to propagate to, a renderer relocation changes
    nothing at all, whatever its reason: when no group is registered for
    the book key, when the group is empty, and when every member is the
    originator itself or has no renderer offering [goTo]. *)
Theorem relocate_without_targets_is_noop (detail : RendererRelocateDetail)
    (w : World) :
  (getParallels (bookKey props) w = None
   \/ exists group,
        getParallels (bookKey props) w = Some group
        /\ forall key, key ∈ group ->
             key = bookKey props \/ canGoTo key w = false) ->
  docRelocateHandler props detail w = (w, Fulfilled tt).
Proof.
  intros Hnone.
  destruct (decide (reason detail = "scroll" \/ reason detail = "page"))
    as [Hreason|Hother].
  - destruct Hnone as [Hnone|(group & Hgroup & Hall)].
    + unfold docRelocateHandler.
      assert (negb (bool_decide (reason detail = "scroll"))
              && negb (bool_decide (reason detail = "page")) = false) as ->.
      { destruct Hreason as [Hr|Hr]; rewrite (bool_decide_eq_true_2 _ Hr);
          [reflexivity | apply andb_false_r]. }
      unfold bind, get. rewrite Hnone. reflexivity.
    + rewrite (docRelocateHandler_run detail w group Hreason Hgroup).
      assert (filter (fun key => key <> bookKey props /\ canGoTo key w = true)
                group = []) as ->.
      { apply filter_none. intros key Hin [Hk Hc].
        destruct (Hall key Hin) as [Heq|Hno]; congruence. }
      rewrite app_nil_r, set_trace_id. reflexivity.
  - unfold docRelocateHandler.
    rewrite !bool_decide_eq_false_2; [reflexivity| |]; tauto.
Qed.

(** X4. An accepted relocation reaches the members in the group's
    iteration order: the calls added to the trace are, in order, one
    [goTo] for each member that is not the originator and whose renderer
    offers [goTo]; the handler completes without error and leaves
    everything but the trace as it was. *)
Theorem relocate_follows_group_order (detail : RendererRelocateDetail)
    (w : World) (group : list string) :
  reason detail = "scroll" \/ reason detail = "page" ->
  getParallels (bookKey props) w = Some group ->
  docRelocateHandler props detail w
  = (set_trace
       (trace w ++
        ((fun key => RendererGoTo key (index detail) (fraction detail))
         <$> filter (fun key => key <> bookKey props /\ canGoTo key w = true)
               group)) w,
     Fulfilled tt).
Proof. apply docRelocateHandler_run. Qed.

End RelocateMore.

(** X3 on a page turn in a group whose other members cannot be reached. *)
Lemma relocate_without_targets_is_noop_witness :
  docRelocateHandler Demo.props Demo.scrollTo Sample.lonely
  = (Sample.lonely, Fulfilled tt).
Proof.
  apply relocate_without_targets_is_noop. right.
  exists ["A"; "C"; "E"]. split; [reflexivity|].
  intros key Hin.
  apply elem_of_cons in Hin as [->|Hin]; [left; reflexivity|].
  apply elem_of_cons in Hin as [->|Hin]; [right; reflexivity|].
  apply elem_of_cons in Hin as [->|Hin]; [right; reflexivity|].
  apply elem_of_nil in Hin. destruct Hin.
Defined.

(** X4 on the demo reader: of A, B, C, D, E only B is reached. *)
Lemma relocate_follows_group_order_witness :
  docRelocateHandler Demo.props Demo.scrollTo Demo.reader
  = (set_trace [RendererGoTo "B" 3%Z 1%Z] Demo.reader, Fulfilled tt).
Proof.
  rewrite (relocate_follows_group_order Demo.props Demo.scrollTo Demo.reader
             ["A"; "B"; "C"; "D"; "E"]);
    [reflexivity | left; reflexivity | reflexivity].
Defined.

(** *** More on margin, gap and the settings effects *)

Section MarginsMore.
Context `{Collaborators} (props : Props).

(** X5. Before there is a view, applying margin and gap is a silent
    no-op: with settings stored and [viewRef] empty nothing is written and
    nothing is thrown. *)
Theorem margin_and_gap_without_view_is_noop (pad : Padding)
    (vs : ViewSettings) (w : World) :
  getViewSettings (bookKey props) w = Some vs ->
  viewRef w = None ->
  applyMarginAndGap props pad w = (w, Fulfilled tt).
Proof.
  intros Hvs Hv.
  unfold applyMarginAndGap, viewRefSetAttribute, rendererSetAttribute.
  eff. rewrite Hvs. repeat (progress (eff; rewrite ?Hv)).
  destruct (scrolled vs); repeat (progress (eff; rewrite ?Hv)); reflexivity.
Qed.

(** X6. Applying margin and gap fails before it writes anything: with no
    settings stored for the book key, or with a view that has no renderer,
    it throws a [TypeError] and the world is as it was. *)
Theorem margin_and_gap_fails_before_writing (pad : Padding) (w : World) :
  (getViewSettings (bookKey props) w = None
   \/ exists v, viewRef w = Some v /\ renderer v = None) ->
  exists what, applyMarginAndGap props pad w = (w, Rejected (TypeError what)).
Proof.
  intros Hbad.
  unfold applyMarginAndGap, viewRefSetAttribute, rendererSetAttribute. eff.
  destruct (viewSettingsStore w !! bookKey props) as [vs|] eqn:Hvs.
  - destruct Hbad as [Hnone|(v & Hv & Hr)]; [discriminate Hnone|].
    repeat (progress (eff; rewrite ?Hv, ?Hr)). eauto.
  - eff. eauto.
Qed.

(** X7. A re-render in which neither dependency array changed runs no
    effect; and while the view, or its renderer, is not there, no
    re-render does anything, whatever changed. *)
Theorem rerender_idle (prev next : Render) (w : World) :
  (styleDeps prev = styleDeps next /\ marginDeps prev = marginDeps next
   \/ viewRef w ≫= renderer = None) ->
  rerender props prev next w = (w, Fulfilled tt).
Proof.
  intros [[Hs Hm]|Hnone]; unfold rerender.
  - rewrite (bool_decide_eq_true_2 _ Hs), (bool_decide_eq_true_2 _ Hm).
    reflexivity.
  - unfold styleEffect, marginEffect.
    destruct (bool_decide (styleDeps prev = styleDeps next));
      destruct (bool_decide (marginDeps prev = marginDeps next));
      eff; rewrite ?Hnone; reflexivity.
Qed.

(** X8. When theme and layout change in the same render, the styles are
    set first and margin, gap and flow are written after them. *)
Theorem rerender_styles_before_margins (prev next : Render)
    (v : View) (r : Renderer) (vs : ViewSettings) (css : string) (w : World) :
  styleDeps prev <> styleDeps next ->
  marginDeps prev <> marginDeps next ->
  viewRef w = Some v -> renderer v = Some r -> has_setStyles r = true ->
  getViewSettings (bookKey props) w = Some vs ->
  getStyles (Some vs) = Fulfilled css ->
  is_Some (viewSettings next) ->
  snd (rerender props prev next w) = Fulfilled tt
  /\ trace (fst (rerender props prev next w))
     = trace w ++ [GetStyles (Some vs); SetStyles css]
       ++ [SetAttribute "margin"
             (num_to_string
                (num_add (if negb (showHeader vs) && negb (showFooter vs)
                          then compactMarginPx vs else marginPx vs)
                         (padding_top (render_padding next))) +:+ "px");
           SetAttribute "gap"
             (num_to_string (if negb (showHeader vs) && negb (showFooter vs)
                             then compactGapPercent vs else gapPercent vs)
              +:+ "%")]
       ++ (if scrolled vs then [SetAttribute "flow" "scrolled"] else []).
Proof.
  intros Hs Hm Hv Hr Hset Hvs Hcss [vs' Hnext].
  assert (styleEffect props w
          = (set_trace (trace w ++ [GetStyles (Some vs); SetStyles css]) w,
             Fulfilled tt)) as Hstyle.
  { unfold styleEffect, setStyles. eff.
    rewrite Hv. cbn [mbind option_bind]. rewrite Hr, Hset, Hvs. eff.
    rewrite Hcss. eff. rewrite <- app_assoc. reflexivity. }
  assert (forall w', viewRef w' = Some v ->
            marginEffect props next w'
            = applyMarginAndGap props (render_padding next) w') as Hmargin.
  { intros w' Hv'. unfold marginEffect. eff.
    rewrite Hv'. cbn [mbind option_bind]. rewrite Hr, Hnext. reflexivity. }
  assert (rerender props prev next w
          = applyMarginAndGap props (render_padding next)
              (set_trace (trace w ++ [GetStyles (Some vs); SetStyles css]) w))
    as ->.
  { unfold rerender.
    rewrite (bool_decide_eq_false_2 _ Hs), (bool_decide_eq_false_2 _ Hm).
    unfold bind. rewrite Hstyle. cbv beta iota. apply Hmargin, Hv. }
  destruct (applyMarginAndGap_run props (render_padding next) vs v r
              (set_trace (trace w ++ [GetStyles (Some vs); SetStyles css]) w)
              Hvs Hv Hr) as [Hok Ht].
  split; [exact Hok|]. rewrite Ht. cbn [trace set_trace].
  rewrite <- !app_assoc. reflexivity.
Qed.

(** X9. On a renderer that offers no [setStyles], a theme change does
    nothing, and [getStyles] is not even evaluated. *)
Theorem style_effect_needs_setStyles (v : View) (r : Renderer) (w : World) :
  viewRef w = Some v -> renderer v = Some r -> has_setStyles r = false ->
  styleEffect props w = (w, Fulfilled tt).
Proof.
  intros Hv Hr Hset. unfold styleEffect, setStyles. eff.
  rewrite Hv. cbn [mbind option_bind]. rewrite Hr, Hset. reflexivity.
Qed.

End MarginsMore.

(** X5 on the demo reader before its view exists. *)
Lemma margin_and_gap_without_view_is_noop_witness :
  applyMarginAndGap Demo.props Demo.pad Demo.reader
  = (Demo.reader, Fulfilled tt).
Proof.
  apply (margin_and_gap_without_view_is_noop Demo.props Demo.pad Demo.settings);
    reflexivity.
Defined.

(** X6 without settings, and with a view that has no renderer. *)
Lemma margin_and_gap_fails_before_writing_witness :
  (exists what,
     applyMarginAndGap Demo.props Demo.pad Demo.unconfigured
     = (Demo.unconfigured, Rejected (TypeError what)))
  /\ (exists what,
        applyMarginAndGap Demo.props Demo.pad Sample.viewingNothing
        = (Sample.viewingNothing, Rejected (TypeError what))).
Proof.
  split.
  - apply margin_and_gap_fails_before_writing. left. reflexivity.
  - apply margin_and_gap_fails_before_writing. right.
    exists (Demo.openView "A" None). split; reflexivity.
Defined.

(** X7 on an unchanged render, and on a changed one before the view
    exists. *)
Lemma rerender_idle_witness :
  rerender Demo.props Demo.light Demo.light (Demo.viewing Demo.settings)
    = (Demo.viewing Demo.settings, Fulfilled tt)
  /\ rerender Demo.props Demo.light Sample.darkCompacted Demo.reader
     = (Demo.reader, Fulfilled tt).
Proof.
  split.
  - apply rerender_idle. left. split; reflexivity.
  - apply rerender_idle. right. reflexivity.
Defined.

(** X8 on the demo reader going dark and compact at once. *)
Lemma rerender_styles_before_margins_witness :
  trace (fst (rerender Demo.props Demo.light Sample.darkCompacted
                (Demo.viewing Demo.compact_scrolled)))
  = [GetStyles (Some Demo.compact_scrolled); SetStyles "body{}";
     SetAttribute "margin" "60px"; SetAttribute "gap" "3%";
     SetAttribute "flow" "scrolled"].
Proof.
  destruct (rerender_styles_before_margins Demo.props Demo.light
              Sample.darkCompacted (Demo.openView "A" (Some Demo.paginator))
              Demo.paginator Demo.compact_scrolled "body{}"
              (Demo.viewing Demo.compact_scrolled)) as [_ Ht];
    [discriminate | discriminate | reflexivity | reflexivity | reflexivity
    | reflexivity | reflexivity | eexists; reflexivity |].
  rewrite Ht. vm_compute. reflexivity.
Defined.

(** X9 on a theme change over the bare renderer. *)
Lemma style_effect_needs_setStyles_witness :
  styleEffect Demo.props Sample.viewingBare = (Sample.viewingBare, Fulfilled tt).
Proof.
  apply (style_effect_needs_setStyles Demo.props
           (Demo.openView "A" (Some Demo.bare)) Demo.bare); reflexivity.
Defined.

(** *** Frames and call disciplines, compositionally *)

Section FrameLaws.
Context `{JsValues}.

Lemma preserves_ret {X} (f : World -> X) {A} (a : A) : preserves f (ret a).
Proof. intros w. reflexivity. Qed.

Lemma preserves_throw {X} (f : World -> X) {A} e : preserves f (@throw _ A e).
Proof. intros w. reflexivity. Qed.

Lemma preserves_settle {X} (f : World -> X) {A} (r : Settled A) :
  preserves f (settle r).
Proof. intros w. reflexivity. Qed.

Lemma preserves_get {X} (f : World -> X) : preserves f get.
Proof. intros w. reflexivity. Qed.

Lemma preserves_modify {X} (f : World -> X) (g : World -> World) :
  (forall w, f (g w) = f w) -> preserves f (modify g).
Proof. intros Hg w. apply Hg. Qed.

Lemma preserves_emit {X} (f : World -> X) (o : Op) :
  (forall t w, f (set_trace t w) = f w) -> preserves f (emit o).
Proof. intros Hf w. apply Hf. Qed.

Lemma preserves_bind {X} (f : World -> X) {A B} (m : Eff A) (k : A -> Eff B) :
  preserves f m -> (forall a, preserves f (k a)) -> preserves f (bind m k).
Proof.
  intros Hm Hk w. specialize (Hm w). unfold bind.
  destruct (m w) as [w1 [a|e]]; simpl in *; [|exact Hm].
  rewrite Hk. exact Hm.
Qed.

Lemma preserves_catch {X} (f : World -> X) {A} (m : Eff A) (h : exn -> Eff A) :
  preserves f m -> (forall e, preserves f (h e)) -> preserves f (catch m h).
Proof.
  intros Hm Hh w. specialize (Hm w). unfold catch.
  destruct (m w) as [w1 [a|e]]; simpl in *; [exact Hm|].
  rewrite Hh. exact Hm.
Qed.

Lemma preserves_forEach {X} (f : World -> X) {A} (xs : list A)
    (g : A -> Eff unit) :
  (forall x, preserves f (g x)) -> preserves f (forEach xs g).
Proof.
  intros Hg. induction xs as [|x xs IH]; simpl.
  - apply preserves_ret.
  - apply preserves_bind; auto.
Qed.

Lemma emitsOnly_ret P {A} (a : A) : emitsOnly P (ret a).
Proof. intros w. exists []. simpl. rewrite app_nil_r. auto. Qed.

Lemma emitsOnly_throw P {A} e : emitsOnly P (@throw _ A e).
Proof. intros w. exists []. simpl. rewrite app_nil_r. auto. Qed.

Lemma emitsOnly_settle P {A} (r : Settled A) : emitsOnly P (settle r).
Proof. intros w. exists []. simpl. rewrite app_nil_r. auto. Qed.

Lemma emitsOnly_get P : emitsOnly P get.
Proof. intros w. exists []. simpl. rewrite app_nil_r. auto. Qed.

Lemma emitsOnly_modify P (g : World -> World) :
  (forall w, trace (g w) = trace w) -> emitsOnly P (modify g).
Proof. intros Hg w. exists []. simpl. rewrite app_nil_r, Hg. auto. Qed.

Lemma emitsOnly_emit (P : Op -> bool) o : P o = true -> emitsOnly P (emit o).
Proof.
  intros Ho w. exists [o]. split; [reflexivity|]. simpl. rewrite Ho. reflexivity.
Qed.

Lemma emitsOnly_bind P {A B} (m : Eff A) (k : A -> Eff B) :
  emitsOnly P m -> (forall a, emitsOnly P (k a)) -> emitsOnly P (bind m k).
Proof.
  intros Hm Hk w. destruct (Hm w) as (ops1 & Et1 & F1). unfold bind.
  destruct (m w) as [w1 [a|e]]; simpl in *.
  - destruct (Hk a w1) as (ops2 & Et2 & F2).
    exists (ops1 ++ ops2). rewrite Et2, Et1, <- app_assoc.
    split; [reflexivity|]. rewrite forallb_app, F1, F2. reflexivity.
  - exists ops1. auto.
Qed.

Lemma emitsOnly_catch P {A} (m : Eff A) (h : exn -> Eff A) :
  emitsOnly P m -> (forall e, emitsOnly P (h e)) -> emitsOnly P (catch m h).
Proof.
  intros Hm Hh w. destruct (Hm w) as (ops1 & Et1 & F1). unfold catch.
  destruct (m w) as [w1 [a|e]]; simpl in *.
  - exists ops1. auto.
  - destruct (Hh e w1) as (ops2 & Et2 & F2).
    exists (ops1 ++ ops2). rewrite Et2, Et1, <- app_assoc.
    split; [reflexivity|]. rewrite forallb_app, F1, F2. reflexivity.
Qed.

Lemma emitsOnly_forEach P {A} (xs : list A) (g : A -> Eff unit) :
  (forall x, emitsOnly P (g x)) -> emitsOnly P (forEach xs g).
Proof.
  intros Hg. induction xs as [|x xs IH]; simpl.
  - apply emitsOnly_ret.
  - apply emitsOnly_bind; auto.
Qed.

Lemma emitsOnly_weaken (P Q : Op -> bool) {A} (m : Eff A) :
  (forall o, P o = true -> Q o = true) -> emitsOnly P m -> emitsOnly Q m.
Proof.
  intros HPQ Hm w. destruct (Hm w) as (ops & Et & Hops).
  exists ops. split; [exact Et|].
  apply forallb_forall. intros o Ho. apply HPQ.
  revert o Ho. apply forallb_forall, Hops.
Qed.

Lemma steady_emitsOnly P {A} (m : Eff A) : steady P m -> emitsOnly P m.
Proof. intros Hm w. destruct (Hm w) as (_ & _ & _ & _ & Hops). exact Hops. Qed.

End FrameLaws.

(** Decompose an effect, as [steady] does, for [preserves]. *)
Ltac preserves_step :=
  first
    [ apply preserves_ret | apply preserves_throw | apply preserves_settle
    | apply preserves_get
    | apply preserves_emit; reflexivity
    | apply preserves_modify; reflexivity
    | apply preserves_bind; [|intros ?; cbv beta]
    | apply preserves_catch; [|intros ?; cbv beta]
    | apply preserves_forEach; intros ?; cbv beta
    | progress cbv zeta
    | match goal with
      | |- preserves _ (if ?b then _ else _) => destruct b
      | |- preserves _ (match ?x with _ => _ end) => destruct x
      end ].

(** The same for [emitsOnly]; a branch keeps its condition at hand, since
    whether a call is allowed may depend on it. *)
Ltac allowed :=
  first
    [ reflexivity
    | assumption
    | cbn; first [ assumption
                 | rewrite ?bool_decide_eq_true_2 by reflexivity; reflexivity ] ].

Ltac emitsOnly_step :=
  first
    [ apply emitsOnly_ret | apply emitsOnly_throw | apply emitsOnly_settle
    | apply emitsOnly_get
    | apply emitsOnly_emit; allowed
    | apply emitsOnly_modify; reflexivity
    | apply emitsOnly_bind; [|intros ?; cbv beta]
    | apply emitsOnly_catch; [|intros ?; cbv beta]
    | apply emitsOnly_forEach; intros ?; cbv beta
    | progress cbv zeta
    | match goal with
      | |- emitsOnly _ (if ?b then _ else _) => destruct b eqn:?
      | |- emitsOnly _ (match ?x with _ => _ end) => destruct x eqn:?
      end ].

Ltac unfold_component :=
  unfold rerender, styleEffect, marginEffect, dispatchData,
    getDocTransformHandler, docTransform, docRelocateHandler,
    progressRelocateHandler, setProgress,
    openBook_publish, openBook_configure, openBook_create,
    resolveDirection, setFoliateView, setStyles,
    applyMarginAndGap, viewRefSetAttribute,
    rendererSetAttribute, rendererRemoveAttribute.

(** *** What the component never does *)

Section Discipline.
Context `{Collaborators} (props : Props) (host : Host).

Lemma resume_keeps_settings st o :
  preserves viewSettingsStore (resume props host st o).
Proof.
  destruct st, o; cbn [resume]; unfold_component; repeat preserves_step.
Qed.




Lemma resume_disciplined st o :
  emitsOnly (disciplined (bookKey props) (isMobileApp host))
    (resume props host st o).
Proof.
  destruct st, o; cbn [resume]; unfold_component; repeat emitsOnly_step.
Qed.

Lemma handlers_disciplined :
  (forall d, emitsOnly (disciplined (bookKey props) (isMobileApp host))
               (progressRelocateHandler props d))
  /\ (forall d, emitsOnly (disciplined (bookKey props) (isMobileApp host))
                  (docRelocateHandler props d))
  /\ (forall d, emitsOnly (disciplined (bookKey props) (isMobileApp host))
                  (dispatchData props d))
  /\ (forall prev next,
        emitsOnly (disciplined (bookKey props) (isMobileApp host))
          (rerender props prev next)).
Proof.
  repeat split; intros; unfold_component; repeat emitsOnly_step.
Qed.

End Discipline.

Section RunDiscipline.
Context `{Collaborators} (props : Props) (host : Host).

Lemma step_trace_grows (P : Op -> bool) w ev :
  P (ConsoleLog ("Opening book " +:+ bookKey props)) = true ->
  P (ImportModule "foliate-js/view.js") = true ->
  (forall st o, emitsOnly P (resume props host st o)) ->
  (forall d, emitsOnly P (progressRelocateHandler props d)) ->
  (forall d, emitsOnly P (docRelocateHandler props d)) ->
  (forall d, emitsOnly P (dispatchData props d)) ->
  (forall prev next, emitsOnly P (rerender props prev next)) ->
  exists ops,
    trace (step props host w ev) = trace w ++ ops /\ forallb P ops = true.
Proof.
  intros Hlog Himport Hresume Hprogress Hrelocate Hdata Hrender.
  destruct ev as [|i o|d|d|d|prev next|m]; cbn [step].
  - destruct (isViewCreated w) eqn:Hflag.
    + unfold mountEffect. rewrite Hflag. exists []. rewrite app_nil_r. auto.
    + rewrite (mountEffect_run props w Hflag). eexists. split; [reflexivity|].
      simpl. rewrite Hlog, Himport. reflexivity.
  - destruct (tasks w !! i) as [st|] eqn:Hst.
    + rewrite (settleTask_run props host i o w st Hst). apply Hresume.
    + unfold settleTask. rewrite Hst. exists []. rewrite app_nil_r. auto.
  - apply Hprogress.
  - apply Hrelocate.
  - apply Hdata.
  - apply Hrender.
  - exists []. simpl. rewrite app_nil_r. auto.
Qed.

(** X10. Whatever events reach a component instance, every call it makes
    keeps to its own book: progress is reported, the view is published
    and markup is transformed under the component's own key only, the
    element created is a foliate-view named after that key, propagated
    navigation never targets the component's own key, and the screen
    orientation is never locked unless the host is a mobile app. *)
Theorem calls_keep_to_own_book (evs : list Event)
    (vws : gmap string View) (settings : gmap string ViewSettings)
    (groups : gmap string (list string)) (dir : string) :
  forallb (disciplined (bookKey props) (isMobileApp host))
    (trace (run props host evs (mounted vws settings groups dir))) = true.
Proof.
  apply (run_invariant props host
           (fun w => forallb (disciplined (bookKey props) (isMobileApp host))
                       (trace w) = true)); [|reflexivity].
  intros w ev Hw.
  destruct (handlers_disciplined props host) as (Hp & Hr & Hd & He).
  destruct (step_trace_grows
              (disciplined (bookKey props) (isMobileApp host)) w ev
              eq_refl eq_refl (resume_disciplined props host) Hp Hr Hd He)
    as (ops & -> & Hops).
  rewrite forallb_app, Hw, Hops. reflexivity.
Qed.




End RunDiscipline.


(** *** The end of openBook, and the registry around it *)

Section Settled.
Context `{Collaborators} (props : Props) (host : Host).




Lemma step_other_keys w ev key :
  key <> bookKey props ->
  views (step props host w ev) !! key = views w !! key.
Proof.
  intros Hkey.
  assert (forall {A} (m : Eff A), steady routine m ->
            views (exec m w) !! key = views w !! key) as Hsteady.
  { intros A m Hm. destruct (Hm w) as (_ & _ & E3 & _). unfold exec.
    rewrite E3. reflexivity. }
  destruct ev as [|i o|d|d|d|prev next|m]; cbn [step].
  - destruct (isViewCreated w) eqn:Hflag.
    + unfold mountEffect. rewrite Hflag. reflexivity.
    + rewrite (mountEffect_run props w Hflag). reflexivity.
  - destruct (tasks w !! i) as [st|] eqn:Hst.
    + rewrite (settleTask_run props host i o w st Hst).
      destruct (resume_summary props host st o w)
        as (_ & _ & _ & ops & _ & _ & _ & _ & [[Ev _]|(v & _ & Ev & _)]);
        cbn [views set_tasks]; rewrite Ev; [reflexivity|].
      apply lookup_insert_ne. congruence.
    + unfold settleTask. rewrite Hst. reflexivity.
  - apply Hsteady, steady_progressRelocateHandler.
  - apply Hsteady, steady_docRelocateHandler.
  - apply Hsteady, steady_dispatchData.
  - apply Hsteady, steady_rerender.
  - apply Hsteady, steady_set_settings.
Qed.

(** X13. The component writes the registry under its own book key only:
    over any run of events, from any state, the entry of every other key
    is what it was. *)
Theorem registry_of_other_books_untouched (evs : list Event) (w : World)
    (key : string) :
  key <> bookKey props ->
  views (run props host evs w) !! key = views w !! key.
Proof.
  intros Hkey. revert w. induction evs as [|ev evs IH]; intros w; [reflexivity|].
  cbn [run fold_left]. fold (run props host evs (step props host w ev)).
  rewrite IH. apply step_other_keys, Hkey.
Qed.

End Settled.


(** X13 on the demo reader: B's view is still registered after A opened. *)
Lemma registry_of_other_books_untouched_witness :
  views (run Demo.props Demo.host Demo.opening Demo.reader) !! "B"
  = Some (Demo.openView "B" (Some Demo.paginator)).
Proof.
  rewrite (registry_of_other_books_untouched Demo.props Demo.host Demo.opening
             Demo.reader "B"); [vm_compute; reflexivity | discriminate].
Defined.

(** *** The pieces of openBook, one by one *)

Section OpenBookPieces.
Context `{Collaborators} (props : Props) (host : Host).

Lemma resolveDirection_world vs w :
  exists d, resolveDirection props vs w = (set_bookDoc_dir d w, Fulfilled tt).
Proof.
  unfold resolveDirection. cbv zeta.
  assert (w = set_bookDoc_dir (bookDoc_dir w) w) as Hid by (destruct w; reflexivity).
  destruct (str_truthy _); [|exists (bookDoc_dir w); rewrite <- Hid; reflexivity].
  destruct (negb (bool_decide (getBookDirFromWritingMode _ = _))); [eauto|].
  destruct (negb (bool_decide (getBookDirFromLanguage _ = _))); [eauto|].
  exists (bookDoc_dir w). rewrite <- Hid. reflexivity.
Qed.

Lemma openBook_create_stage vs w :
  getViewSettings (bookKey props) w = Some vs ->
  snd (openBook_create props host w)
  = Fulfilled (AwaitOpen (createdView (bookKey props))
                 (viewportWidth host) (viewportHeight host) vs).
Proof.
  intros Hvs. unfold openBook_create, viewportWidth, viewportHeight. cbv zeta.
  destruct (containerRect host) as [[cw ch]|]; eff; rewrite Hvs; eff;
    match goal with
    | |- context [resolveDirection props vs ?w0] =>
        destruct (resolveDirection_world vs w0) as [d ->]
    end; reflexivity.
Qed.

Lemma openBook_create_fails w :
  getViewSettings (bookKey props) w = None ->
  openBook_create props host w
  = (set_trace
       (trace w ++
        CreateElement "foliate-view" ("foliate-view-" +:+ bookKey props)
        :: BodyAppend ("foliate-view-" +:+ bookKey props)
        :: match containerRect host with
           | Some _ => [ContainerAppend ("foliate-view-" +:+ bookKey props)]
           | None => []
           end) w,
     Rejected (TypeError "viewSettings is undefined")).
Proof.
  intros Hvs. unfold openBook_create. cbv zeta.
  destruct (containerRect host) as [[cw ch]|]; eff; rewrite Hvs; eff;
    rewrite <- !app_assoc; reflexivity.
Qed.

Lemma applyMarginAndGap_world pad vs v r w :
  getViewSettings (bookKey props) w = Some vs ->
  viewRef w = Some v ->
  renderer v = Some r ->
  applyMarginAndGap props pad w
  = (set_trace (trace w ++ marginWrites vs pad) w, Fulfilled tt).
Proof.
  intros Hvs Hv Hr.
  unfold applyMarginAndGap, viewRefSetAttribute, rendererSetAttribute, marginWrites.
  eff. rewrite Hvs. repeat (progress (eff; rewrite ?Hv, ?Hr)).
  destruct (scrolled vs); repeat (progress (eff; rewrite ?Hv, ?Hr));
    rewrite <- !app_assoc; reflexivity.
Qed.

Lemma openBook_configure_run view vs r v r' vs' w :
  renderer view = Some r ->
  viewRef w = Some v -> renderer v = Some r' ->
  getViewSettings (bookKey props) w = Some vs' ->
  openBook_configure props view vs w
  = (set_trace
       (trace w ++ layoutWrites vs ++ marginWrites vs' (padding props)
        ++ [firstNavigation props]) w,
     Fulfilled AwaitNavigation).
Proof.
  intros Hr Hv Hr' Hvs.
  unfold openBook_configure, rendererSetAttribute, rendererRemoveAttribute,
    layoutWrites, firstNavigation.
  rewrite Hr.
  destruct (animated vs); eff;
    match goal with
    | |- context [applyMarginAndGap props (padding props) ?w0] =>
        rewrite (applyMarginAndGap_world (padding props) vs' v r' w0 Hvs Hv Hr')
    end; eff;
    destruct (config_location props) as [loc|];
    [destruct (str_truthy loc)| |destruct (str_truthy loc)|]; eff;
    rewrite <- !app_assoc; reflexivity.
Qed.

Lemma openBook_publish_split view0 width height vs w :
  openBook_publish props host view0 width height vs w
  = (let view := {| view_id := view_id view0; opened := true;
                    renderer := widget_renderer host;
                    transformTarget := widget_transformTarget host |} in
     match renderer view with
     | Some r => setStyles r (Some vs)
     | None => throw (TypeError "renderer is undefined")
     end ;;
     if isMobileApp host then
       emit (LockScreenOrientation (screenOrientation vs)) ;;
       ret (AwaitLock view vs)
     else openBook_configure props view vs)
    (published props host view0 width height vs w).
Proof.
  unfold openBook_publish, published. cbv zeta.
  rewrite bind_emit. cbv beta. rewrite bind_emit. cbv beta.
  rewrite bind_modify. cbv beta.
  unfold setFoliateView. rewrite bind_assoc, bind_emit. cbv beta.
  rewrite bind_modify. cbv beta.
  cbn [transformTarget].
  destruct (widget_transformTarget host).
  - rewrite bind_assoc, bind_emit. cbv beta. rewrite bind_emit. cbv beta.
    cbn [trace set_trace set_views set_viewRef views viewRef].
    rewrite <- !app_assoc. reflexivity.
  - unfold bind at 1, ret at 1.
    cbn [trace set_trace set_views set_viewRef views viewRef].
    rewrite <- !app_assoc, app_nil_r. reflexivity.
Qed.

Lemma openBook_publish_stage view0 width height vs r vs' w :
  widget_renderer host = Some r ->
  (has_setStyles r = true -> exists css, getStyles (Some vs) = Fulfilled css) ->
  getViewSettings (bookKey props) w = Some vs' ->
  snd (openBook_publish props host view0 width height vs w)
  = Fulfilled (if isMobileApp host
               then AwaitLock {| view_id := view_id view0; opened := true;
                                 renderer := widget_renderer host;
                                 transformTarget := widget_transformTarget host |}
                      vs
               else AwaitNavigation).
Proof.
  intros Hr Hcss Hvs. rewrite openBook_publish_split. cbv zeta.
  set (view := {| view_id := view_id view0; opened := true;
                  renderer := widget_renderer host;
                  transformTarget := widget_transformTarget host |}).
  assert (renderer view = Some r) as Hrv by exact Hr.
  rewrite Hrv. unfold setStyles.
  set (w1 := published props host view0 width height vs w).
  assert (exists w2,
            (if has_setStyles r
             then emit (GetStyles (Some vs)) ;;
                  (let* css := settle (getStyles (Some vs)) in
                   emit (SetStyles css))
             else ret tt) w1 = (w2, Fulfilled tt)
            /\ viewRef w2 = Some view
            /\ getViewSettings (bookKey props) w2 = Some vs')
    as (w2 & Hw2 & Hv2 & Hs2).
  { destruct (has_setStyles r).
    - destruct (Hcss eq_refl) as [css Hc]. eff. rewrite Hc. eff.
      eexists. split; [reflexivity|]. split; [reflexivity | exact Hvs].
    - exists w1. split; [reflexivity|]. split; [reflexivity | exact Hvs]. }
  unfold bind at 1. rewrite Hw2.
  destruct (isMobileApp host).
  - reflexivity.
  - rewrite (openBook_configure_run view vs r view r vs' w2 Hrv Hv2 Hrv Hs2).
    reflexivity.
Qed.

End OpenBookPieces.

(** *** openBook from start to end *)

Section OpenBookRuns.
Context `{Collaborators} (props : Props) (host : Host).

Lemma settle_head w st o st' :
  tasks w = [st] ->
  snd (resume props host st o w) = Fulfilled st' ->
  step props host w (Settle 0 o)
  = set_tasks [st'] (fst (resume props host st o w)).
Proof.
  intros Hts Hst. cbn [step].
  rewrite (settleTask_run props host 0 o w st) by (rewrite Hts; reflexivity).
  destruct (resume_summary props host st o w) as (_ & Ets & _).
  rewrite Ets, Hts. unfold advance.
  destruct (resume props host st o w) as [w' [s|e]]; cbn [fst snd] in *.
  - injection Hst as ->. reflexivity.
  - discriminate Hst.
Qed.

Lemma settle_head_fails w st o e :
  tasks w = [st] ->
  snd (resume props host st o w) = Rejected e ->
  step props host w (Settle 0 o)
  = set_tasks [Failed e] (fst (resume props host st o w)).
Proof.
  intros Hts Hst. cbn [step].
  rewrite (settleTask_run props host 0 o w st) by (rewrite Hts; reflexivity).
  destruct (resume_summary props host st o w) as (_ & Ets & _).
  rewrite Ets, Hts. unfold advance.
  destruct (resume props host st o w) as [w' [s|e']]; cbn [fst snd] in *.
  - discriminate Hst.
  - injection Hst as ->. reflexivity.
Qed.

Lemma run_cons ev evs w :
  run props host (ev :: evs) w = run props host evs (step props host w ev).
Proof. reflexivity. Qed.

(** X14. When everything [openBook] awaits comes through, it runs to
    its end: with settings stored for the book, a widget that has a
    renderer once opened, and styles that can be computed (or a renderer
    that takes none), the call finishes, and the opened view is both in
    the local reference and in the registry under the book key. *)
Theorem openBook_completes (vws : gmap string View)
    (settings : gmap string ViewSettings)
    (groups : gmap string (list string)) (dir : string)
    (vs : ViewSettings) (r : Renderer) :
  settings !! bookKey props = Some vs ->
  widget_renderer host = Some r ->
  (has_setStyles r = true -> exists css, getStyles (Some vs) = Fulfilled css) ->
  tasks (run props host
           [MountEffect; Settle 0 (Fulfilled tt); Settle 0 (Fulfilled tt);
            Settle 0 (Fulfilled tt); Settle 0 (Fulfilled tt)]
           (mounted vws settings groups dir)) = [Finished]
  /\ viewRef (run props host
                [MountEffect; Settle 0 (Fulfilled tt); Settle 0 (Fulfilled tt);
                 Settle 0 (Fulfilled tt); Settle 0 (Fulfilled tt)]
                (mounted vws settings groups dir))
     = Some (openedView (bookKey props) host)
  /\ views (run props host
              [MountEffect; Settle 0 (Fulfilled tt); Settle 0 (Fulfilled tt);
               Settle 0 (Fulfilled tt); Settle 0 (Fulfilled tt)]
              (mounted vws settings groups dir))
     = <[bookKey props := openedView (bookKey props) host]> vws.
Proof.
  intros Hvs Hr Hcss.
  (* the mount effect *)
  rewrite run_cons. cbn [step].
  rewrite (mountEffect_run props (mounted vws settings groups dir) eq_refl).
  match goal with |- context [run _ _ _ ?w] => set (w1 := w) end.
  (* the import comes through *)
  rewrite run_cons.
  rewrite (settle_head w1 AwaitImport (Fulfilled tt)
             (AwaitOpen (createdView (bookKey props))
                (viewportWidth host) (viewportHeight host) vs))
    by (reflexivity || (apply openBook_create_stage; exact Hvs)).
  cbn [resume].
  destruct (openBook_create_summary props host w1)
    as (_ & Eref1 & Eviews1 & _ & _).
  pose proof (resume_keeps_settings props host AwaitImport (Fulfilled tt) w1)
    as Eset1. cbn [resume] in Eset1.
  match goal with |- context [run _ _ _ ?w] => set (w2 := w) end.
  assert (viewRef w2 = None) as Eref2 by exact Eref1.
  assert (views w2 = vws) as Eviews2 by exact Eviews1.
  assert (getViewSettings (bookKey props) w2 = Some vs) as Eset2
    by (unfold getViewSettings, w2; cbn [viewSettingsStore set_tasks];
        rewrite Eset1; exact Hvs).
  assert (tasks w2 = [AwaitOpen (createdView (bookKey props))
                        (viewportWidth host) (viewportHeight host) vs])
    as Ets2 by reflexivity.
  clearbody w2. clear w1 Eref1 Eviews1 Eset1.
  (* open resolves *)
  rewrite run_cons.
  rewrite (settle_head w2 _ (Fulfilled tt) _ Ets2
             (openBook_publish_stage props host _ _ _ vs r vs w2 Hr Hcss Eset2)).
  cbn [resume].
  destruct (openBook_publish_summary props host (createdView (bookKey props))
              (viewportWidth host) (viewportHeight host) vs w2)
    as (_ & Eref3 & Eviews3 & _ & _).
  pose proof (resume_keeps_settings props host
                (AwaitOpen (createdView (bookKey props))
                   (viewportWidth host) (viewportHeight host) vs)
                (Fulfilled tt) w2) as Eset3. cbn [resume] in Eset3.
  rewrite Eviews2 in Eviews3.
  match goal with |- context [run _ _ _ ?w] => set (w3 := w) end.
  assert (viewRef w3 = Some (openedView (bookKey props) host)) as Eref3'
    by exact Eref3.
  assert (views w3 = <[bookKey props := openedView (bookKey props) host]> vws)
    as Eviews3' by exact Eviews3.
  assert (getViewSettings (bookKey props) w3 = Some vs) as Eset3'
    by (unfold getViewSettings, w3; cbn [viewSettingsStore set_tasks];
        rewrite Eset3; exact Eset2).
  assert (tasks w3
          = [if isMobileApp host
             then AwaitLock (openedView (bookKey props) host) vs
             else AwaitNavigation]) as Ets3 by reflexivity.
  clearbody w3. clear w2 Eref2 Eviews2 Eset2 Ets2 Eref3 Eviews3 Eset3.
  destruct (isMobileApp host).
  - (* the lock comes through, then the first navigation *)
    rewrite run_cons.
    rewrite (settle_head w3 _ (Fulfilled tt) AwaitNavigation Ets3)
      by (cbn [resume];
          rewrite (openBook_configure_run props (openedView (bookKey props) host) vs r
                     (openedView (bookKey props) host) r vs w3 Hr Eref3' Hr Eset3');
          reflexivity).
    cbn [resume].
    rewrite (openBook_configure_run props (openedView (bookKey props) host) vs r
                     (openedView (bookKey props) host) r vs w3 Hr Eref3' Hr Eset3').
    cbn [fst]. rewrite run_cons.
    rewrite (settle_head _ AwaitNavigation (Fulfilled tt) Finished)
      by reflexivity.
    cbn [run fold_left resume ret fst tasks viewRef views set_tasks set_trace].
    auto.
  - (* the first navigation comes through; nothing is left to settle *)
    rewrite run_cons.
    rewrite (settle_head w3 AwaitNavigation (Fulfilled tt) Finished Ets3)
      by reflexivity.
    cbn [resume ret fst]. rewrite run_cons.
    rewrite (settle_head _ Finished (Fulfilled tt) Finished) by reflexivity.
    cbn [run fold_left resume ret fst tasks viewRef views set_tasks set_trace].
    auto.
Qed.

End OpenBookRuns.

(** X14 on the demo reader, on the mobile host and on the desktop. *)
Lemma openBook_completes_witness :
  tasks (run Demo.props Demo.host Sample.allGoesWell Demo.reader) = [Finished]
  /\ tasks (run Demo.props Sample.desktop Sample.allGoesWell Demo.reader)
     = [Finished].
Proof.
  split.
  - apply (openBook_completes Demo.props Demo.host _ _ _ "auto"
             Demo.settings Demo.paginator);
      [reflexivity | reflexivity | intros _; eexists; reflexivity].
  - apply (openBook_completes Demo.props Sample.desktop _ _ _ "auto"
             Demo.settings Demo.paginator);
      [reflexivity | reflexivity | intros _; eexists; reflexivity].
Defined.

Section OpenBookEdges.
Context `{Collaborators} (props : Props) (host : Host).

(** X15. Without settings for the book, [openBook] gives up between
    creating the element and opening it: the element is created and
    attached, [view.open] is never called, the call fails with a
    [TypeError], nothing is published and [bookDoc.dir] keeps its
    value. *)
Theorem open_without_settings_fails_before_open (vws : gmap string View)
    (settings : gmap string ViewSettings)
    (groups : gmap string (list string)) (dir : string) :
  settings !! bookKey props = None ->
  run props host [MountEffect; Settle 0 (Fulfilled tt)]
    (mounted vws settings groups dir)
  = {| isViewCreated := true; viewRef := None; views := vws;
       viewSettingsStore := settings; parallelViews := groups;
       bookDoc_dir := dir;
       tasks := [Failed (TypeError "viewSettings is undefined")];
       trace :=
         [ConsoleLog ("Opening book " +:+ bookKey props);
          ImportModule "foliate-js/view.js";
          CreateElement "foliate-view" ("foliate-view-" +:+ bookKey props);
          BodyAppend ("foliate-view-" +:+ bookKey props)]
         ++ match containerRect host with
            | Some _ => [ContainerAppend ("foliate-view-" +:+ bookKey props)]
            | None => []
            end |}.
Proof.
  intros Hvs. rewrite run_cons. cbn [step].
  rewrite (mountEffect_run props (mounted vws settings groups dir) eq_refl).
  rewrite run_cons.
  erewrite settle_head_fails;
    [| reflexivity
     | cbn [resume]; rewrite openBook_create_fails by exact Hvs; reflexivity].
  cbn [resume]. rewrite openBook_create_fails by exact Hvs.
  reflexivity.
Qed.


End OpenBookEdges.

(** X15 on a reader that has no settings yet. *)
Lemma open_without_settings_fails_before_open_witness :
  tasks (run Demo.props Demo.host [MountEffect; Settle 0 (Fulfilled tt)]
           Demo.unconfigured)
  = [Failed (TypeError "viewSettings is undefined")].
Proof.
  unfold Demo.unconfigured, Demo.world.
  rewrite (open_without_settings_fails_before_open Demo.props Demo.host);
    reflexivity.
Defined.


Section Viewport.
Context `{Collaborators} (props : Props) (host : Host).

Lemma dataListeners_app t1 t2 :
  dataListeners (t1 ++ t2) = dataListeners t1 ++ dataListeners t2.
Proof. unfold dataListeners. apply flat_map_app. Qed.

Lemma dataListeners_none ops :
  forallb (fun o => negb (isAddEventListener o)) ops = true ->
  dataListeners ops = [].
Proof.
  induction ops as [|o ops IH]; [reflexivity|]. simpl.
  intros Hops. apply andb_true_iff in Hops as [Ho Hops].
  rewrite IH by exact Hops. destruct o; try reflexivity. discriminate Ho.
Qed.

Lemma openBook_create_installs_nothing :
  emitsOnly (fun o => negb (isAddEventListener o)) (openBook_create props host).
Proof. unfold_component. repeat emitsOnly_step. Qed.

Lemma openBook_publish_listeners view0 width height vs w :
  dataListeners (trace (fst (openBook_publish props host view0 width height vs w)))
  = dataListeners (trace w)
    ++ (if widget_transformTarget host then [(width, height)] else []).
Proof.
  rewrite openBook_publish_split. cbv zeta.
  match goal with
  | |- context [fst (?m ?w0)] =>
      assert (emitsOnly (fun o => negb (isAddEventListener o)) m) as Hrest
        by (unfold_component; repeat emitsOnly_step);
      destruct (Hrest w0) as (ops & -> & Hops)
  end.
  rewrite dataListeners_app, (dataListeners_none ops Hops), app_nil_r.
  unfold published. cbn [trace set_trace].
  rewrite dataListeners_app. f_equal.
  destruct (widget_transformTarget host); reflexivity.
Qed.

(** X17. The data hook installed when the book has opened carries the
    size measured before opening: the container's width and height where
    the container is attached and the dimension is non-zero, the window's
    otherwise.  It is the only data hook, and when the opened book has no
    [transformTarget] there is none. *)
Theorem transform_hook_captures_viewport (vws : gmap string View)
    (settings : gmap string ViewSettings)
    (groups : gmap string (list string)) (dir : string) (vs : ViewSettings) :
  settings !! bookKey props = Some vs ->
  dataListeners
    (trace (run props host
              [MountEffect; Settle 0 (Fulfilled tt); Settle 0 (Fulfilled tt)]
              (mounted vws settings groups dir)))
  = if widget_transformTarget host
    then [(viewportWidth host, viewportHeight host)]
    else [].
Proof.
  intros Hvs. rewrite run_cons. cbn [step].
  rewrite (mountEffect_run props (mounted vws settings groups dir) eq_refl).
  match goal with |- context [run _ _ _ ?w] => set (w1 := w) end.
  rewrite run_cons.
  rewrite (settle_head props host w1 AwaitImport (Fulfilled tt)
             (AwaitOpen (createdView (bookKey props))
                (viewportWidth host) (viewportHeight host) vs))
    by (reflexivity || (apply openBook_create_stage; exact Hvs)).
  cbn [resume].
  destruct (openBook_create_installs_nothing w1) as (ops & Et & Hops).
  match goal with |- context [run _ _ _ ?w] => set (w2 := w) end.
  assert (dataListeners (trace w2) = []) as Hnone.
  { unfold w2. cbn [trace set_tasks]. rewrite Et, dataListeners_app.
    rewrite (dataListeners_none ops Hops). reflexivity. }
  assert (tasks w2 = [AwaitOpen (createdView (bookKey props))
                        (viewportWidth host) (viewportHeight host) vs])
    as Ets2 by reflexivity.
  clearbody w2. clear w1 Et.
  cbn [run fold_left step].
  rewrite (settleTask_run props host 0 (Fulfilled tt) w2 _)
    by (rewrite Ets2; reflexivity).
  cbn [trace set_tasks resume].
  rewrite openBook_publish_listeners, Hnone. reflexivity.
Qed.

End Viewport.

(** X17 on a container that is 800 wide but not yet laid out in height,
    and on one not laid out at all. *)
Lemma transform_hook_captures_viewport_witness :
  dataListeners
    (trace (run Demo.props Demo.host
              [MountEffect; Settle 0 (Fulfilled tt); Settle 0 (Fulfilled tt)]
              Demo.reader)) = [(800%Z, 768%Z)]
  /\ dataListeners
       (trace (run Demo.props Sample.desktop
                 [MountEffect; Settle 0 (Fulfilled tt); Settle 0 (Fulfilled tt)]
                 Demo.reader)) = [(1024%Z, 768%Z)].
Proof.
  split.
  - unfold Demo.reader, Demo.world.
    rewrite (transform_hook_captures_viewport Demo.props Demo.host _ _ _ _
               Demo.settings); reflexivity.
  - unfold Demo.reader, Demo.world.
    rewrite (transform_hook_captures_viewport Demo.props Sample.desktop _ _ _ _
               Demo.settings); reflexivity.
Defined.

(** *** The renderer is left alone until the book has opened *)

Section RendererGuard.
Context `{Collaborators} (props : Props) (host : Host).

Lemma writesAfterOpen_app seen t1 t2 :
  writesAfterOpen seen (t1 ++ t2)
  = writesAfterOpen seen t1
    && writesAfterOpen (seen || existsb isOpenResolved t1) t2.
Proof.
  revert seen. induction t1 as [|o t1 IH]; intros seen; simpl.
  - rewrite orb_false_r. reflexivity.
  - rewrite IH, orb_assoc, andb_assoc. reflexivity.
Qed.

Lemma writesAfterOpen_opened t : writesAfterOpen true t = true.
Proof.
  induction t as [|o t IH]; [reflexivity|]. simpl. rewrite IH.
  destruct (isRendererWrite o); reflexivity.
Qed.

Lemma writesAfterOpen_none seen ops :
  forallb (fun o => negb (isRendererWrite o)) ops = true ->
  writesAfterOpen seen ops = true.
Proof.
  revert seen. induction ops as [|o ops IH]; intros seen Hops; simpl in *.
  - reflexivity.
  - apply andb_true_iff in Hops as [Ho Hops].
    apply negb_true_iff in Ho. rewrite Ho, IH by exact Hops. reflexivity.
Qed.

Lemma writesAfterOpen_sound t :
  writesAfterOpen false t = true ->
  forall pre o post,
    t = pre ++ o :: post -> isRendererWrite o = true ->
    exists o', o' ∈ pre /\ isOpenResolved o' = true.
Proof.
  intros Hscan pre o post -> Ho.
  rewrite writesAfterOpen_app in Hscan.
  apply andb_true_iff in Hscan as [_ Hscan]. simpl in Hscan.
  rewrite Ho in Hscan. apply andb_true_iff in Hscan as [Hseen _].
  apply existsb_exists in Hseen as (o' & Hin & Ho').
  exists o'. split; [apply list_elem_of_In, Hin | exact Ho'].
Qed.

Lemma elem_of_insert_inv {A} (l : list A) i x y :
  y ∈ <[i:=x]> l -> y = x \/ y ∈ l.
Proof.
  intros Hy. apply list_elem_of_lookup in Hy as [j Hj].
  rewrite list_lookup_insert in Hj. case_decide.
  - left. congruence.
  - right. apply list_elem_of_lookup. eauto.
Qed.

(** Appending calls that are fine given what the trace has seen. *)
Lemma rendererGuarded_extend w w' ops :
  trace w' = trace w ++ ops ->
  writesAfterOpen (existsb isOpenResolved (trace w)) ops = true ->
  (is_Some (viewRef w') ->
     is_Some (viewRef w) \/ existsb isOpenResolved ops = true) ->
  (forall st, st ∈ tasks w' -> isAwaitLock st = true ->
     st ∈ tasks w \/ existsb isOpenResolved ops = true) ->
  rendererGuarded w -> rendererGuarded w'.
Proof.
  intros Et Hops Href Hts (Hscan & Hv & Hl). unfold rendererGuarded.
  rewrite Et, writesAfterOpen_app, Hscan, existsb_app. cbn [orb andb].
  split; [exact Hops|]. split.
  - intros Hsome. destruct (Href Hsome) as [Hold|Hnew].
    + rewrite (Hv Hold). reflexivity.
    + rewrite Hnew. apply orb_true_r.
  - intros st Hin Hlock. destruct (Hts st Hin Hlock) as [Hold|Hnew].
    + rewrite (Hl st Hold Hlock). reflexivity.
    + rewrite Hnew. apply orb_true_r.
Qed.

Lemma rendererGuarded_steady {A} (m : Eff A) w :
  steady routine m ->
  emitsOnly (fun o => negb (isRendererWrite o)) m ->
  rendererGuarded w -> rendererGuarded (exec m w).
Proof.
  intros Hm Hn Hw.
  destruct (Hm w) as (_ & Er & _ & Ets & _).
  destruct (Hn w) as (ops & Et & Hops).
  apply (rendererGuarded_extend w _ ops Et); [| | |exact Hw].
  - apply writesAfterOpen_none, Hops.
  - unfold exec. rewrite Er. auto.
  - unfold exec. rewrite Ets. auto.
Qed.

Lemma rerender_needs_view prev next w :
  viewRef w = None -> rerender props prev next w = (w, Fulfilled tt).
Proof.
  intros Hv.
  assert (viewRef w ≫= renderer = None) as Hnone by (rewrite Hv; reflexivity).
  unfold rerender, styleEffect, marginEffect.
  destruct (bool_decide (styleDeps prev = styleDeps next));
    destruct (bool_decide (marginDeps prev = marginDeps next));
    eff; rewrite ?Hnone; reflexivity.
Qed.

Lemma handlers_write_nothing :
  (forall d, emitsOnly (fun o => negb (isRendererWrite o))
               (progressRelocateHandler props d))
  /\ (forall d, emitsOnly (fun o => negb (isRendererWrite o))
                  (docRelocateHandler props d))
  /\ (forall d, emitsOnly (fun o => negb (isRendererWrite o))
                  (dispatchData props d))
  /\ emitsOnly (fun o => negb (isRendererWrite o)) (openBook_create props host).
Proof.
  repeat split; intros; unfold_component; repeat emitsOnly_step.
Qed.

Lemma avoidsLock_ret st : isAwaitLock st = false -> avoidsLock (ret st).
Proof. intros Hst w v vs [= ->]. discriminate Hst. Qed.

Lemma avoidsLock_throw e : avoidsLock (throw e).
Proof. intros w v vs. discriminate. Qed.

Lemma avoidsLock_bind {A} (m : Eff A) (k : A -> Eff Stage) :
  (forall a, avoidsLock (k a)) -> avoidsLock (bind m k).
Proof.
  intros Hk w v vs. unfold bind. destruct (m w) as [w' [a|e]]; simpl.
  - apply Hk.
  - discriminate.
Qed.

Lemma avoidsLock_advance (m : Eff Stage) w :
  avoidsLock m -> isAwaitLock (snd (advance m w)) = false.
Proof.
  intros Hm. specialize (Hm w). unfold advance.
  destruct (m w) as [w' [st|e]]; [|reflexivity].
  destruct st; try reflexivity. exfalso. apply (Hm view vs). reflexivity.
Qed.

Lemma avoidsLock_openBook_create : avoidsLock (openBook_create props host).
Proof.
  unfold openBook_create. cbv zeta.
  repeat (apply avoidsLock_bind; intros ?).
  destruct (getViewSettings _ _); [|apply avoidsLock_throw].
  repeat (apply avoidsLock_bind; intros ?). apply avoidsLock_ret. reflexivity.
Qed.

Lemma avoidsLock_openBook_configure view vs :
  avoidsLock (openBook_configure props view vs).
Proof.
  unfold openBook_configure.
  repeat (apply avoidsLock_bind; intros ?). apply avoidsLock_ret. reflexivity.
Qed.

(** Resuming a call does one of three things to the renderer: nothing;
    or it starts by noting that [open] has resolved; or it was waiting
    for the lock, in which case [open] resolved earlier. *)
Lemma resume_guard st o w :
  exists ops,
    trace (fst (resume props host st o w)) = trace w ++ ops
    /\ ((forallb (fun o => negb (isRendererWrite o)) ops = true
         /\ viewRef (fst (resume props host st o w)) = viewRef w
         /\ isAwaitLock (snd (advance (resume props host st o) w)) = false)
        \/ (exists id rest, ops = OpenResolved id :: rest)
        \/ (isAwaitLock st = true
            /\ viewRef (fst (resume props host st o w)) = viewRef w
            /\ isAwaitLock (snd (advance (resume props host st o) w)) = false)).
Proof.
  assert (forall st', isAwaitLock st' = false ->
            exists ops,
              trace (fst (ret st' w)) = trace w ++ ops
              /\ ((forallb (fun o => negb (isRendererWrite o)) ops = true
                   /\ viewRef (fst (ret st' w)) = viewRef w
                   /\ isAwaitLock (snd (advance (ret st') w)) = false)
                  \/ (exists id rest, ops = OpenResolved id :: rest)
                  \/ (isAwaitLock st = true
                      /\ viewRef (fst (ret st' w)) = viewRef w
                      /\ isAwaitLock (snd (advance (ret st') w)) = false)))
    as Hret.
  { intros st' Hst'. exists []. split; [simpl; rewrite app_nil_r; reflexivity|].
    left. repeat split. exact Hst'. }
  assert (forall e,
            exists ops,
              trace (fst (@throw _ Stage e w)) = trace w ++ ops
              /\ ((forallb (fun o => negb (isRendererWrite o)) ops = true
                   /\ viewRef (fst (@throw _ Stage e w)) = viewRef w
                   /\ isAwaitLock (snd (advance (throw e) w)) = false)
                  \/ (exists id rest, ops = OpenResolved id :: rest)
                  \/ (isAwaitLock st = true
                      /\ viewRef (fst (@throw _ Stage e w)) = viewRef w
                      /\ isAwaitLock (snd (advance (throw e) w)) = false)))
    as Hthrow.
  { intros e. exists []. split; [simpl; rewrite app_nil_r; reflexivity|].
    left. repeat split. }
  destruct st as [|view width height vs|view vs| | |e0], o as [[]|e];
    cbn [resume];
    try (apply Hret; reflexivity); try apply Hthrow.
  - (* the import came through *)
    destruct handlers_write_nothing as (_ & _ & _ & Hc).
    destruct (Hc w) as (ops & Et & Hops).
    destruct (openBook_create_summary props host w) as (_ & Er & _).
    exists ops. split; [exact Et|]. left. repeat split; try assumption.
    apply avoidsLock_advance, avoidsLock_openBook_create.
  - (* open resolved *)
    destruct (openBook_publish_summary props host view width height vs w)
      as (_ & _ & _ & _ & ops & Et & _).
    eexists. split; [exact Et|]. right. left. eauto.
  - (* the orientation lock came through *)
    destruct (steady_openBook_configure props view vs w)
      as (_ & Er & _ & _ & ops & Et & _).
    exists ops. split; [exact Et|]. right. right. repeat split; try assumption.
    apply avoidsLock_advance, avoidsLock_openBook_configure.
Qed.

Lemma step_rendererGuarded w ev :
  rendererGuarded w -> rendererGuarded (step props host w ev).
Proof.
  intros Hw.
  destruct handlers_write_nothing as (Hp & Hr & Hd & Hc).
  destruct ev as [|i o|d|d|d|prev next|m]; cbn [step].
  - (* the mount effect *)
    destruct (isViewCreated w) eqn:Hflag.
    + unfold mountEffect. rewrite Hflag. exact Hw.
    + rewrite (mountEffect_run props w Hflag).
      apply (rendererGuarded_extend w _
               [ConsoleLog ("Opening book " +:+ bookKey props);
                ImportModule "foliate-js/view.js"]);
        [reflexivity | reflexivity | auto | | exact Hw].
      intros st Hin Hlock. cbn [tasks set_tasks set_trace set_isViewCreated] in Hin.
      apply elem_of_app in Hin as [Hin|Hin]; [left; exact Hin|].
      apply list_elem_of_singleton in Hin. subst st. discriminate Hlock.
  - (* a promise settles *)
    destruct (tasks w !! i) as [st|] eqn:Hst;
      [|unfold settleTask; rewrite Hst; exact Hw].
    rewrite (settleTask_run props host i o w st Hst).
    assert (st ∈ tasks w) as Hin by (apply list_elem_of_lookup; eauto).
    destruct (resume_summary props host st o w) as (_ & Ets & _).
    destruct (resume_guard st o w)
      as (ops & Et & [(Hops & Er & Hnew)|[(id & rest & ->)|(Hlock & Er & Hnew)]]).
    + apply (rendererGuarded_extend w _ ops); [exact Et| | | |exact Hw].
      * apply writesAfterOpen_none, Hops.
      * cbn [viewRef set_tasks]. rewrite Er. auto.
      * intros st' Hin' Hl'. cbn [tasks set_tasks] in Hin'. rewrite Ets in Hin'.
        apply elem_of_insert_inv in Hin' as [->|Hold]; [|left; exact Hold].
        rewrite Hnew in Hl'. discriminate Hl'.
    + apply (rendererGuarded_extend w _ (OpenResolved id :: rest));
        [exact Et| | | |exact Hw].
      * cbn [writesAfterOpen isRendererWrite isOpenResolved].
        rewrite orb_true_r. apply writesAfterOpen_opened.
      * intros _. right. reflexivity.
      * intros st' _ _. right. reflexivity.
    + destruct Hw as (Hscan & Hseen & Hl).
      assert (existsb isOpenResolved (trace w) = true) as Hopen
        by (apply (Hl st Hin Hlock)).
      apply (rendererGuarded_extend w _ ops);
        [exact Et| | | |repeat split; assumption].
      * rewrite Hopen. apply writesAfterOpen_opened.
      * cbn [viewRef set_tasks]. rewrite Er. auto.
      * intros st' Hin' Hl'. cbn [tasks set_tasks] in Hin'. rewrite Ets in Hin'.
        apply elem_of_insert_inv in Hin' as [->|Hold]; [|left; exact Hold].
        rewrite Hnew in Hl'. discriminate Hl'.
  - apply rendererGuarded_steady;
      [apply steady_progressRelocateHandler | apply Hp | exact Hw].
  - apply rendererGuarded_steady;
      [apply steady_docRelocateHandler | apply Hr | exact Hw].
  - apply rendererGuarded_steady;
      [apply steady_dispatchData | apply Hd | exact Hw].
  - (* a re-render *)
    destruct (viewRef w) as [v|] eqn:Hv.
    + destruct (steady_rerender props prev next w)
        as (_ & Er & _ & Ets & ops & Et & _).
      destruct Hw as (Hscan & Hseen & Hl).
      assert (existsb isOpenResolved (trace w) = true) as Hopen
        by (apply Hseen; rewrite Hv; eauto).
      apply (rendererGuarded_extend w _ ops Et).
      * rewrite Hopen. apply writesAfterOpen_opened.
      * unfold exec. rewrite Er. auto.
      * unfold exec. rewrite Ets. auto.
      * repeat split; assumption.
    + unfold exec. rewrite (rerender_needs_view prev next w Hv). exact Hw.
  - apply rendererGuarded_steady;
      [apply steady_set_settings | apply emitsOnly_modify; reflexivity | exact Hw].
Qed.

(** X18. The component never touches its renderer before the book has
    opened: in every trace a component instance can produce, each call
    that sets styles or writes or removes a renderer attribute comes
    after an [open] has resolved. *)
Theorem renderer_written_only_after_open (evs : list Event)
    (vws : gmap string View) (settings : gmap string ViewSettings)
    (groups : gmap string (list string)) (dir : string) :
  forall pre o post,
    trace (run props host evs (mounted vws settings groups dir))
      = pre ++ o :: post ->
    isRendererWrite o = true ->
    exists o', o' ∈ pre /\ isOpenResolved o' = true.
Proof.
  apply writesAfterOpen_sound.
  assert (rendererGuarded (run props host evs (mounted vws settings groups dir)))
    as (Hscan & _).
  { apply run_invariant; [apply step_rendererGuarded|].
    split; [reflexivity|]. split.
    - intros [v Hv]. discriminate Hv.
    - intros st Hin. apply elem_of_nil in Hin. destruct Hin. }
  exact Hscan.
Qed.

End RendererGuard.

(** X18 on the demo reader: the first write to the renderer, the styles,
    is the thirteenth call. *)
Lemma renderer_written_only_after_open_witness :
  exists o',
    o' ∈ take 12 (trace (run Demo.props Demo.host Demo.opening Demo.reader))
    /\ isOpenResolved o' = true.
Proof.
  apply (renderer_written_only_after_open Demo.props Demo.host Demo.opening
           {[ "B" := Demo.openView "B" (Some Demo.paginator);
              "C" := Demo.openView "C" (Some Demo.bare);
              "D" := Demo.openView "D" None ]}
           {[ "A" := Demo.settings ]}
           {[ "A" := ["A"; "B"; "C"; "D"; "E"] ]} "auto"
           _ (SetStyles "body{}")
           (drop 13 (trace (run Demo.props Demo.host Demo.opening Demo.reader))));
    [vm_compute; reflexivity | reflexivity].
Defined.

(** *** The document-load handler *)

Ltac load_eff :=
  unfold setViewSettings, markListenersAdded, load_emit;
  cbn [load_trace load_settings load_bookData listenersAdded load_viewRef
       fst snd].

Section LoadProperties.
Context `{JsValues} `{!LoadCollaborators} (bookKey : string).

Lemma addGestureListeners_run d w :
  addGestureListeners bookKey d w
  = {| load_viewRef := load_viewRef w; load_settings := load_settings w;
       load_bookData := load_bookData w; listenersAdded := listenersAdded w;
       load_trace :=
         load_trace w
         ++ ((fun l => DocAddEventListener d (fst l) (snd l) bookKey)
             <$> gestureListeners) |}.
Proof.
  unfold addGestureListeners, gestureListeners, load_emit. cbn.
  rewrite <- !app_assoc. reflexivity.
Qed.








Lemma writingDir_viewRef d w w' :
  load_viewRef w' = load_viewRef w -> writingDir d w' = writingDir d w.
Proof. intros Hv. unfold writingDir. rewrite Hv. reflexivity. Qed.

(** The settings store after one load event. *)
Lemma docLoadHandler_settings detail w :
  load_settings (fst (docLoadHandler bookKey detail w))
  = match doc detail with
    | Some d =>
        match writingDir d w, load_settings w !! bookKey with
        | Fulfilled wd, Some vs =>
            <[bookKey := withDirection wd vs]> (load_settings w)
        | _, _ => load_settings w
        end
    | None => load_settings w
    end.
Proof.
  unfold docLoadHandler. cbv zeta.
  destruct (doc detail) as [d|]; [|reflexivity].
  rewrite (writingDir_viewRef d w (load_emit _ w)) by reflexivity.
  destruct (writingDir d w) as [wd|e]; [|reflexivity]. load_eff.
  destruct (load_settings w !! bookKey) as [vs|]; [|reflexivity]. load_eff.
  destruct (load_bookData w !! bookKey) as [bd|]; [|reflexivity].
  destruct (codeHighlighting (withDirection wd vs)); load_eff;
    case_bool_decide; try reflexivity;
    rewrite addGestureListeners_run; reflexivity.
Qed.



(** X21. A 'load' event that gets as far as the settings rewrites only
    the two direction flags of the book's own entry: the rest of the entry
    and every other book's entry stay as they were.  The document's own
    direction counts only when the view's renderer offers [setStyles];
    whatever the document says, a writing mode containing vertical makes
    the book vertical, and a right-to-left UI language or a writing mode
    containing rl makes it right-to-left. *)
Theorem load_rewrites_direction_flags_only (detail : LoadDetail) (d : nat)
    (vs : LoadedSettings) (w : LoadWorld) :
  doc detail = Some d ->
  load_settings w !! bookKey = Some vs ->
  (forall v, load_viewRef w = Some v -> is_Some (renderer v)) ->
  load_settings (fst (docLoadHandler bookKey detail w)) !! bookKey
    = Some {| base := base vs;
              vertical :=
                usesDocumentDirection w && dir_vertical (getDirection d)
                || includes (writingMode (base vs)) "vertical";
              rtl :=
                usesDocumentDirection w && dir_rtl (getDirection d)
                || bool_decide (getDirFromUILanguage = "rtl")
                || includes (writingMode (base vs)) "rl";
              codeHighlighting := codeHighlighting vs |}
  /\ (forall key, key <> bookKey ->
        load_settings (fst (docLoadHandler bookKey detail w)) !! key
        = load_settings w !! key).
Proof.
  intros Hd Hvs Hrenderer.
  rewrite docLoadHandler_settings, Hd, Hvs.
  unfold writingDir, usesDocumentDirection.
  destruct (load_viewRef w) as [v|] eqn:Hv; cbn [mbind option_bind].
  - destruct (Hrenderer v eq_refl) as [r Hr]. rewrite Hr.
    destruct (has_setStyles r); (split; [|intros key Hkey; apply lookup_insert_ne; congruence]);
      rewrite lookup_insert_eq; unfold withDirection; cbn [fmap option_fmap option_map default];
      rewrite ?orb_false_r; reflexivity.
  - split; [|intros key Hkey; apply lookup_insert_ne; congruence].
    rewrite lookup_insert_eq. unfold withDirection.
    cbn [fmap option_fmap option_map default]. rewrite ?orb_false_r. reflexivity.
Qed.

(** X22. What a failing 'load' leaves behind.  Without settings for the
    book, or with a view that has no renderer, it fails having done
    nothing but log.  Without book data it fails later: the direction
    flags are already stored, but no font is mounted, no listener added
    and the document is not flagged. *)
Theorem failing_load_leaves (detail : LoadDetail) (d : nat) (w : LoadWorld) :
  doc detail = Some d ->
  ((load_settings w !! bookKey = None
    \/ exists v, load_viewRef w = Some v /\ renderer v = None) ->
   exists what,
     docLoadHandler bookKey detail w
     = (load_emit (LogDocLoaded (load_index detail)) w,
        Rejected (TypeError what)))
  /\ (forall vs wd,
        load_settings w !! bookKey = Some vs ->
        writingDir d w = Fulfilled wd ->
        load_bookData w !! bookKey = None ->
        docLoadHandler bookKey detail w
        = (setViewSettings bookKey (withDirection wd vs)
             (load_emit (LogDocLoaded (load_index detail)) w),
           Rejected (TypeError "bookData is undefined"))).
Proof.
  intros Hd. split.
  - intros Hbad. unfold docLoadHandler. cbv zeta. rewrite Hd.
    rewrite (writingDir_viewRef d w (load_emit _ w)) by reflexivity.
    unfold writingDir.
    destruct (load_viewRef w) as [v|] eqn:Hv.
    + destruct (renderer v) as [r|] eqn:Hr; [|eauto].
      destruct Hbad as [Hnone|(v' & Hv' & Hr')]; [|congruence].
      load_eff. rewrite Hnone. destruct (has_setStyles r); eauto.
    + destruct Hbad as [Hnone|(v' & Hv' & Hr')]; [|discriminate Hv'].
      load_eff. rewrite Hnone. eauto.
  - intros vs wd Hvs Hwd Hbd. unfold docLoadHandler. cbv zeta. rewrite Hd.
    rewrite (writingDir_viewRef d w (load_emit _ w)), Hwd by reflexivity.
    load_eff. rewrite Hvs. load_eff. rewrite Hbd. reflexivity.
Qed.

End LoadProperties.


(** X21 on a right-to-left writing mode over a document that is
    neither vertical nor right-to-left. *)
Lemma load_rewrites_direction_flags_only_witness :
  load_settings
    (fst (docLoadHandler "A" (Sample.sectionLoaded 0 7)
            (Sample.loading Sample.rightToLeft))) !! "A"
  = Some {| base := Sample.rightToLeft; vertical := false; rtl := true;
            codeHighlighting := true |}.
Proof.
  destruct (load_rewrites_direction_flags_only "A" (Sample.sectionLoaded 0 7) 7
              (Sample.stored Sample.rightToLeft)
              (Sample.loading Sample.rightToLeft)) as [Hown _];
    [reflexivity | reflexivity | |].
  - intros v [= <-]. eexists. reflexivity.
  - rewrite Hown. vm_compute. reflexivity.
Defined.

(** X22 before the settings exist, and before the book data has arrived. *)
Lemma failing_load_leaves_witness :
  (exists what,
     docLoadHandler "A" (Sample.sectionLoaded 0 7) Sample.loadingBlind
     = (load_emit (LogDocLoaded 0%Z) Sample.loadingBlind,
        Rejected (TypeError what)))
  /\ snd (docLoadHandler "A" (Sample.sectionLoaded 0 7) Sample.loadingEarly)
     = Rejected (TypeError "bookData is undefined").
Proof.
  split.
  - apply (failing_load_leaves "A" (Sample.sectionLoaded 0 7) 7
             Sample.loadingBlind eq_refl).
    left. reflexivity.
  - destruct (failing_load_leaves "A" (Sample.sectionLoaded 0 7) 7
                Sample.loadingEarly eq_refl) as [_ Hlate].
    rewrite (Hlate (Sample.stored Demo.settings)
               (Some (getDirection 7))); reflexivity.
Defined.

(** *** The release note of the image workflow *)

Section ReleaseNote.

Lemma append_assoc (a b c : string) : (a +:+ b) +:+ c = a +:+ (b +:+ c).
Proof.
  induction a as [|x a IH]; [reflexivity|].
  change ((String x a +:+ b) +:+ c) with (String x ((a +:+ b) +:+ c)).
  rewrite IH. reflexivity.
Qed.

Lemma concat_snoc (sep : string) (l : list string) (x : string) :
  String.concat sep (l ++ [x])
  = match l with
    | [] => x
    | _ => String.concat sep l +:+ sep +:+ x
    end.
Proof.
  induction l as [|a l IH]; [reflexivity|].
  destruct l as [|b l]; [reflexivity|].
  change (String.concat sep ((a :: b :: l) ++ [x]))
    with (a +:+ sep +:+ String.concat sep ((b :: l) ++ [x])).
  rewrite IH.
  change (String.concat sep (a :: b :: l))
    with (a +:+ sep +:+ String.concat sep (b :: l)).
  rewrite !append_assoc. reflexivity.
Qed.

(** X23. Appending a note to a release leaves the text of the earlier
    notes as it was and adds the new note after a space, numbered one
    more than the notes before it; the first note comes without a
    leading space. *)
Theorem release_note_grows_by_appending (notes : list string) (note : string) :
  ReleaseNotes.formatNotes (notes ++ [note])
  = match notes with
    | [] => ReleaseNotes.numbered 0 note
    | _ =>
        ReleaseNotes.formatNotes notes +:+ " "
        +:+ ReleaseNotes.numbered (length notes) note
    end.
Proof.
  unfold ReleaseNotes.formatNotes. rewrite imap_app. cbn [imap].
  rewrite concat_snoc, Nat.add_0_r.
  destruct notes; reflexivity.
Qed.

(** X24. The release note is empty exactly when there is nothing to
    print: the version has no entry, the entry has no notes field, or the
    list of notes is empty. *)
Theorem release_note_empty_iff (releases : gmap string ReleaseNotes.Release)
    (version : string) :
  ReleaseNotes.releaseNote releases version = ""
  <-> default [] (releases !! version ≫= ReleaseNotes.notes) = [].
Proof.
  unfold ReleaseNotes.releaseNote. cbv zeta.
  destruct (releases !! version) as [[[notes|]]|]; cbn;
    try (split; reflexivity).
  destruct notes as [|note notes]; [split; reflexivity|].
  split; [|discriminate].
  unfold ReleaseNotes.formatNotes. rewrite imap_cons.
  destruct (imap _ notes); discriminate.
Qed.

End ReleaseNote.

(** X24 on sample releases. *)
Lemma release_note_empty_iff_witness :
  ReleaseNotes.releaseNote Sample.releases "0.8.0" = ""
  /\ ReleaseNotes.releaseNote Sample.releases "0.9.0" = ""
  /\ ReleaseNotes.releaseNote Sample.releases "1.0.0" = ""
  /\ ReleaseNotes.releaseNote Sample.releases "0.9.1"
     = "1. Fix crash 2. Add themes 3. Faster sync".
Proof.
  split; [|split; [|split]].
  - apply release_note_empty_iff. vm_compute. reflexivity.
  - apply release_note_empty_iff. vm_compute. reflexivity.
  - apply release_note_empty_iff. vm_compute. reflexivity.
  - vm_compute. reflexivity.
Defined.
